(** * Customer churn analysis: a shallow embedding of [notebooks/churn_analysis.py]

    The script is a single-pass analytic pipeline over a customer table:
    normalisation of the raw table, segment aggregation, chi-square
    independence tests, a CLV projection, a rule-based risk score and a
    what-if impact estimate.

    Numbers.  The script is embedded in two arithmetics.  The first takes
    the amounts of the table as the decimal numbers they are written as,
    exact rationals [Q], and every sum, product, mean and rounding as the
    exact one; a missing value (pandas' NaN) is [None].  It carries the
    properties of the structure of the script: which rows are grouped,
    which are counted, in what order, what raises.  The second is the
    arithmetic of the machine, 64-bit integers that wrap around and IEEE
    754 doubles ([float]), in which the segment figures, the CLV columns
    and the impact estimates are embedded again: what the specification
    claims of the value of one of these is stated there.  Integer columns
    ([tenure], [Churned]) and counts are [Z] in both. *)

From Stdlib Require Import Floats.
From Stdlib Require Import ZArith QArith Qround Qabs Qminmax List String Ascii Bool Lia.
From Stdlib Require Import Sorted Lqa.
From Stdlib Require OrderedTypeEx.
From stdpp Require Import gmap strings.
Import ListNotations.

Local Open Scope string_scope.
Local Open Scope Z_scope.

(* ===================================================================== *)
(** * Rational helpers *)
(* ===================================================================== *)

(** [x < y] and [x > y] on rationals, as booleans. *)
Definition Qltb (x y : Q) : bool :=
  (Qnum x * Zpos (Qden y) <? Qnum y * Zpos (Qden x))%Z.

Definition Qgtb (x y : Q) : bool := Qltb y x.

(** Sum of a list of rationals, and of integers. *)
Definition Qsum (l : list Q) : Q := fold_right Qplus 0%Q l.

Definition Zsum (l : list Z) : Z := fold_right Z.add 0%Z l.

(** Python's [int(x)] on a float: truncation toward zero. *)
Definition py_int (x : Q) : Z := Z.quot (Qnum x) (Zpos (Qden x)).

(* ===================================================================== *)
(** * The customer table *)
(* ===================================================================== *)

(** One raw row of the CSV, with the columns the script reads.
    [raw_customerID] is [None] where the field is blank: [read_csv] reads a
    blank field as NaN, and the script counts customers by their non-missing
    ids.  [raw_TotalCharges] is what [pd.to_numeric(..., errors='coerce')]
    makes of the textual field: [None] where the text is not a number.  The
    other fields are taken to hold a value in every row. *)
Record RawRow := mkRawRow {
  raw_customerID : option string;
  raw_SeniorCitizen : Z;
  raw_Partner : string;
  raw_Dependents : string;
  raw_tenure : Z;
  raw_PhoneService : string;
  raw_MultipleLines : string;
  raw_InternetService : string;
  raw_OnlineSecurity : string;
  raw_OnlineBackup : string;
  raw_DeviceProtection : string;
  raw_TechSupport : string;
  raw_StreamingTV : string;
  raw_StreamingMovies : string;
  raw_Contract : string;
  raw_PaymentMethod : string;
  raw_MonthlyCharges : Q;
  raw_TotalCharges : option Q;
  raw_Churn : string
}.

(** One row of the prepared table [df] returned by [load_and_prepare_data]. *)
Record Row := mkRow {
  customerID : option string;
  SeniorCitizen : option string;
  Partner : string;
  Dependents : string;
  tenure : Z;
  PhoneService : string;
  MultipleLines : string;
  InternetService : string;
  OnlineSecurity : string;
  OnlineBackup : string;
  DeviceProtection : string;
  TechSupport : string;
  StreamingTV : string;
  StreamingMovies : string;
  Contract : string;
  PaymentMethod : string;
  MonthlyCharges : Q;
  TotalCharges : Q;
  Churn : string;
  Churned : Z;
  TenureGroup : option string;
  RevenueAtRisk : Q;
  ServiceCount : Z
}.

(* ===================================================================== *)
(** * The pandas operations the script relies on *)
(* ===================================================================== *)

Module pd.

(** [pd.cut(x, bins, labels)] with its defaults [right=True] and
    [include_lowest=False]: the bin of [x] is the interval
    [(bins[i], bins[i+1]]] that holds it, open on the left and closed on the
    right; a value in no interval is NaN. *)
Fixpoint cut_from (x lo : Z) (edges : list Z) (labels : list string)
  : option string :=
  match edges, labels with
  | hi :: edges', l :: labels' =>
      if (lo <? x) && (x <=? hi) then Some l else cut_from x hi edges' labels'
  | _, _ => None
  end.

Definition cut (x : Z) (bins : list Z) (labels : list string) : option string :=
  match bins with
  | lo :: edges => cut_from x lo edges labels
  | [] => None
  end.

(** [np.rint] on an exact number: the nearest integer, a tie going to the
    even one. *)
Definition rint (q : Q) : Z :=
  let f := Qfloor q in
  match Qcompare (q - inject_Z f) (1 # 2) with
  | Lt => f
  | Gt => f + 1
  | Eq => if Z.even f then f else f + 1
  end.

(** [x.round(decimals)] in exact arithmetic: the nearest multiple of
    [10^-decimals] of the number itself.  The rounding of a double, which
    scales the double before it rounds, is [float64.round] below. *)
Definition round (decimals : nat) (q : Q) : Q :=
  let scale := inject_Z (10 ^ Z.of_nat decimals) in
  (inject_Z (rint (q * scale)) / scale)%Q.

(** [Series.mean()]: NaN on an empty series. *)
Definition mean (l : list Q) : option Q :=
  match l with
  | [] => None
  | _ => Some (Qsum l / inject_Z (Z.of_nat (length l)))%Q
  end.

(** The distinct values of a column in increasing order, as [groupby] and
    [crosstab] order their keys. *)
Fixpoint insert_key (k : string) (l : list string) : list string :=
  match l with
  | [] => [k]
  | x :: l' =>
      match String.compare k x with
      | Eq => l
      | Lt => k :: l
      | Gt => x :: insert_key k l'
      end
  end.

Definition unique (l : list string) : list string :=
  fold_right insert_key [] l.

(** The non-missing values of a column. *)
Definition dropna {A} (l : list (option A)) : list A :=
  flat_map (fun o => match o with Some a => [a] | None => [] end) l.

(** [Series.count()], and the ['count'] of an aggregation: the number of
    non-missing values. *)
Definition count {A} (l : list (option A)) : Z :=
  Z.of_nat (length (dropna l)).

(** [x in l] on strings. *)
Definition isin (x : string) (l : list string) : bool :=
  existsb (String.eqb x) l.

End pd.

(* ===================================================================== *)
(** * Section 1 of the script: loading and preparing the data *)
(* ===================================================================== *)

Definition service_cols (r : RawRow) : list string :=
  [ raw_PhoneService r; raw_MultipleLines r; raw_InternetService r;
    raw_OnlineSecurity r; raw_OnlineBackup r; raw_DeviceProtection r;
    raw_TechSupport r; raw_StreamingTV r; raw_StreamingMovies r ].

(** The lambda applied to the service columns of one row:
    [sum(1 for val in x if val not in ['No', 'No phone service',
    'No internet service'])]. *)
Definition count_services (x : list string) : Z :=
  Zsum (map (fun _ => 1)
         (List.filter
            (fun val => negb (pd.isin val
               ["No"; "No phone service"; "No internet service"])) x)).

(** [df['TenureGroup'] = pd.cut(df['tenure'], bins=[0, 12, 24, 48, 72],
    labels=[...])]. *)
Definition tenure_group (t : Z) : option string :=
  pd.cut t [0; 12; 24; 48; 72]
    ["0-12 months"; "13-24 months"; "25-48 months"; "49-72 months"].

(** The body of the [try] block on one row of the table that was read.
    The in-place [fillna] on the column is taken to reach the table, as it
    does in pandas before 3.0. *)
Definition prepare_row (r : RawRow) : Row :=
  (* TotalCharges to numeric, missing filled with 0 *)
  let total := match raw_TotalCharges r with Some q => q | None => 0%Q end in
  (* SeniorCitizen to categorical *)
  let senior :=
    if raw_SeniorCitizen r =? 0 then Some "No"
    else if raw_SeniorCitizen r =? 1 then Some "Yes"
    else None in
  (* binary churn indicator *)
  let churned := if String.eqb (raw_Churn r) "Yes" then 1 else 0 in
  {| customerID := raw_customerID r;
     SeniorCitizen := senior;
     Partner := raw_Partner r;
     Dependents := raw_Dependents r;
     tenure := raw_tenure r;
     PhoneService := raw_PhoneService r;
     MultipleLines := raw_MultipleLines r;
     InternetService := raw_InternetService r;
     OnlineSecurity := raw_OnlineSecurity r;
     OnlineBackup := raw_OnlineBackup r;
     DeviceProtection := raw_DeviceProtection r;
     TechSupport := raw_TechSupport r;
     StreamingTV := raw_StreamingTV r;
     StreamingMovies := raw_StreamingMovies r;
     Contract := raw_Contract r;
     PaymentMethod := raw_PaymentMethod r;
     MonthlyCharges := raw_MonthlyCharges r;
     TotalCharges := total;
     Churn := raw_Churn r;
     Churned := churned;
     TenureGroup := tenure_group (raw_tenure r);
     RevenueAtRisk := (raw_MonthlyCharges r * inject_Z churned)%Q;
     ServiceCount := count_services (service_cols r) |}.

(** What [pd.read_csv] finds at a path: [None] when there is no such file
    (it raises [FileNotFoundError]). *)
Definition filesystem := string -> option (list RawRow).

(** [load_and_prepare_data(filepath)]: the prepared table, or [None] from the
    [except FileNotFoundError] branch. *)
Definition load_and_prepare_data (fs : filesystem) (filepath : string)
  : option (list Row) :=
  match fs filepath with
  | Some raw => Some (map prepare_row raw)
  | None => None
  end.

(* ===================================================================== *)
(** * Section 2 of the script: churn rate by segment *)
(* ===================================================================== *)

(** A column of [df] that the script groups or tabulates by.  [col_value] is
    the value a row holds; [None] is a missing value (NaN), which [groupby]
    and [crosstab] leave out.  [col_categories] is [None] for a column of
    strings (dtype object) and, for a column of categorical dtype, the list
    of its categories in their order: [groupby] lists every category of such
    a column, also one that no row holds (its default [observed=False] in
    pandas before 3.0, the version the in-place [fillna] of the loading
    commits to), while [crosstab] drops the categories that no row holds
    (its default [dropna=True]).  A column is applied to a row as a
    function. *)
Record Column := mkColumn {
  col_value :> Row -> option string;
  col_categories : option (list string)
}.

(** A column of strings. *)
Definition object_column (value : Row -> option string) : Column :=
  {| col_value := value; col_categories := None |}.

Definition col_Contract : Column := object_column (fun r => Some (Contract r)).
Definition col_PaymentMethod : Column :=
  object_column (fun r => Some (PaymentMethod r)).
(** [TenureGroup] comes from [pd.cut]: a categorical column whose categories
    are the [labels], in their order. *)
Definition col_TenureGroup : Column :=
  {| col_value := TenureGroup;
     col_categories :=
       Some ["0-12 months"; "13-24 months"; "25-48 months"; "49-72 months"] |}.
Definition col_InternetService : Column :=
  object_column (fun r => Some (InternetService r)).
Definition col_TechSupport : Column :=
  object_column (fun r => Some (TechSupport r)).
(** [SeniorCitizen] comes from [Series.map] with a dict: a column of
    strings. *)
Definition col_SeniorCitizen : Column := object_column SeniorCitizen.
Definition col_Partner : Column := object_column (fun r => Some (Partner r)).
Definition col_Dependents : Column :=
  object_column (fun r => Some (Dependents r)).
Definition col_Churn : Column := object_column (fun r => Some (Churn r)).

(** One row of the table [analysis], indexed by the segment's value.  The
    churn rate of a segment without members is NaN, and so is what is
    computed from it. *)
Record SegmentSummary := mkSegment {
  seg_index : string;
  seg_TotalCustomers : Z;
  seg_Churned : Z;
  seg_ChurnRate : option Q;
  seg_TotalRevenue : Q;
  seg_ChurnRatePct : option Q;
  seg_RevenueAtRisk : option Q
}.

(** The rows of [df] whose [column] is [k]: one group of [df.groupby(column)]. *)
Definition group (df : list Row) (column : Column) (k : string) : list Row :=
  List.filter
    (fun r => match column r with
              | Some v => String.eqb v k
              | None => false
              end) df.

(** The keys of [df.groupby(column)]: the categories of a categorical
    column, in their order; the observed values of a column of strings,
    sorted. *)
Definition group_keys (df : list Row) (column : Column) : list string :=
  match col_categories column with
  | Some categories => categories
  | None => pd.unique (pd.dropna (map column df))
  end.

(** The aggregation of one group (the count of the non-missing customer ids,
    the sum and the mean of the churn indicator, the sum of the monthly
    charges), rounded to 4 decimals, and the two columns computed from it.
    The mean over no rows is NaN.  The arithmetic is exact here; the
    arithmetic of the machine is in [machine.summarize] below. *)
Definition summarize (k : string) (g : list Row) : SegmentSummary :=
  let count := pd.count (map customerID g) in
  let churned_sum := Zsum (map Churned g) in
  let churned_mean :=
    match g with
    | [] => None
    | _ => Some (inject_Z churned_sum / inject_Z (Z.of_nat (length g)))%Q
    end in
  let revenue := Qsum (map MonthlyCharges g) in
  let churn_rate := pd.round 4 <$> churned_mean in
  let total_revenue := pd.round 4 revenue in
  {| seg_index := k;
     seg_TotalCustomers := count;
     seg_Churned := churned_sum;
     seg_ChurnRate := churn_rate;
     seg_TotalRevenue := total_revenue;
     seg_ChurnRatePct :=
       (fun rate => pd.round 1 (rate * 100)%Q) <$> churn_rate;
     seg_RevenueAtRisk :=
       (fun rate => pd.round 2 (total_revenue * rate)%Q) <$> churn_rate |}.

(** [analyze_churn_by_segment(df, column)]: one summary per key of the
    grouping. *)
Definition analyze_churn_by_segment (df : list Row) (column : Column)
  : list SegmentSummary :=
  map (fun k => summarize k (group df column k)) (group_keys df column).

(** The sum of the monthly charges of only the churned members of a segment:
    the per-record [RevenueAtRisk] column summed over the group. *)
Definition churned_charges (df : list Row) (column : Column) (k : string) : Q :=
  Qsum (map RevenueAtRisk (group df column k)).

(* ===================================================================== *)
(** * Section 3 of the script: chi-square tests of independence *)
(* ===================================================================== *)

(** The number of rows whose two columns hold [a] and [b]. *)
Definition count_pair (xs : list (string * string)) (a b : string) : Z :=
  Z.of_nat (length (List.filter
    (fun p => String.eqb (fst p) a && String.eqb (snd p) b) xs)).

(** The rows of [df] in which both columns hold a value. *)
Definition paired (df : list Row) (column1 column2 : Column)
  : list (string * string) :=
  flat_map (fun r => match column1 r, column2 r with
                     | Some a, Some b => [(a, b)]
                     | _, _ => []
                     end) df.

(** The observed values of the first and of the second column, sorted. *)
Definition row_keys (xs : list (string * string)) : list string :=
  pd.unique (map fst xs).

Definition col_keys (xs : list (string * string)) : list string :=
  pd.unique (map snd xs).

(** [pd.crosstab(df[column1], df[column2])]: one row per observed value of
    the first column, one column per observed value of the second; each
    cell the number of records with that pair of values. *)
Definition crosstab_of (xs : list (string * string)) : list (list Z) :=
  map (fun a => map (fun b => count_pair xs a b) (col_keys xs)) (row_keys xs).

Definition crosstab (df : list Row) (column1 column2 : Column) : list (list Z) :=
  crosstab_of (paired df column1 column2).

Module contingency.

(** The shape of a two-dimensional array. *)
Definition nrows {A} (t : list (list A)) : Z := Z.of_nat (length t).

Definition ncols {A} (t : list (list A)) : Z :=
  match t with
  | [] => 0
  | r :: _ => Z.of_nat (length r)
  end.

(** The marginal sums of the table and its grand total. *)
Definition row_sums (t : list (list Z)) : list Z := map Zsum t.

Definition col_sums (t : list (list Z)) : list Z :=
  map (fun j => Zsum (map (fun r => nth j r 0) t))
      (seq 0 (Z.to_nat (ncols t))).

Definition total (t : list (list Z)) : Z := Zsum (row_sums t).

(** [expected_freq(observed)]: under independence the expected count of a
    cell is its row total times its column total over the grand total. *)
Definition expected_freq (t : list (list Z)) : list (list Q) :=
  map (fun ri => map (fun cj => (inject_Z ri * inject_Z cj
                                 / inject_Z (total t))%Q)
                     (col_sums t))
      (row_sums t).

(** The sum over all cells of [f observed expected]. *)
Definition sum_cells (f : Q -> Q -> Q) (obs exp : list (list Q)) : Q :=
  Qsum (map (fun re => Qsum (map (fun oe => f (fst oe) (snd oe))
                                 (combine (fst re) (snd re))))
            (combine obs exp)).

(** Pearson's statistic: the sum of [(observed - expected)^2 / expected]. *)
Definition pearson_term (o e : Q) : Q := ((o - e) * (o - e) / e)%Q.

Definition power_divergence (obs exp : list (list Q)) : Q :=
  sum_cells pearson_term obs exp.

(** Yates' correction for continuity of one cell: the observed count moves
    toward the expected one by 0.5, and by no more than their distance. *)
Definition yates (o e : Q) : Q :=
  let diff := (e - o)%Q in
  let direction :=
    match Qcompare diff 0 with Lt => (-1)%Q | Eq => 0%Q | Gt => 1%Q end in
  let magnitude := Qmin (1 # 2) (Qabs diff) in
  (o + magnitude * direction)%Q.

Definition to_float (t : list (list Z)) : list (list Q) :=
  map (map inject_Z) t.

Definition yates_correct (obs exp : list (list Q)) : list (list Q) :=
  map (fun re => map (fun oe => yates (fst oe) (snd oe))
                     (combine (fst re) (snd re)))
      (combine obs exp).

(** [scipy.stats.chi2_contingency(observed)] with its defaults
    [correction=True] and [lambda_=None], on a two-dimensional table; the
    statistic and the degrees of freedom of its result.  [None] stands for
    the [ValueError] it raises: on a negative count, on a table of size 0,
    and on an expected frequency of 0. *)
Definition chi2_contingency (observed : list (list Z)) : option (Q * Z) :=
  if existsb (existsb (fun o => o <? 0)) observed then None
  else if nrows observed * ncols observed =? 0 then None
  else
    let expected := expected_freq observed in
    if existsb (existsb (fun e => Qeq_bool e 0)) expected then None
    else
      let dof := nrows observed * ncols observed
                 - (nrows observed + ncols observed) + 2 - 1 in
      if dof =? 0 then Some (0%Q, dof)
      else
        let obs :=
          if dof =? 1 then yates_correct (to_float observed) expected
          else to_float observed in
        Some (power_divergence obs expected, dof).

(** The standard Pearson chi-square statistic of a table against its
    expected counts under independence, with no correction. *)
Definition pearson_statistic (observed : list (list Z)) : Q :=
  sum_cells pearson_term (to_float observed) (expected_freq observed).

End contingency.

(** [chi_square_test(df, column1, column2)]: the statistic and the degrees
    of freedom it returns (the p-value, the survival function of the
    chi-square distribution at the statistic, is left out). *)
Definition chi_square_test (df : list Row) (column1 column2 : Column)
  : option (Q * Z) :=
  contingency.chi2_contingency (crosstab df column1 column2).

(* ===================================================================== *)
(** * Section 4 of the script: customer lifetime value *)
(* ===================================================================== *)

(** [calculate_clv] works on the table as an object: it copies the table it
    is given and writes two columns into the copy.  Tables therefore live in
    a store, are passed by reference, and are made of named columns. *)
Module frame.

(** A column: numbers, or Python objects (strings, with NaN for a missing
    one). *)
Inductive Series :=
| NumCol (v : list Q)
| ObjCol (v : list (option string)).

(** A table: its columns, in order. *)
Definition DataFrame := list (string * Series).

Abbreviation loc := positive.

(** The store of tables. *)
Abbreviation store := (gmap loc DataFrame).

(** What an operation can raise.  [TypeError] stands for arithmetic on a
    column of objects, whose outcome in pandas depends on the objects and
    on the operation (a string plus a number raises, a string times an
    integer is repeated) and is not modelled: what is stated below of the
    columns that [calculate_clv] computes is stated of numeric columns.
    [Dangling] is a reference to no object, which no Python name is. *)
Inductive exn :=
| KeyError (c : string)
| TypeError
| Dangling.

Inductive result (A : Type) :=
| Ok (a : A)
| Raise (e : exn).
Arguments Ok {A} a.
Arguments Raise {A} e.

(** Computations that read and write the store and may raise. *)
Definition M (A : Type) := store -> result A * store.

Definition ret {A} (a : A) : M A := fun h => (Ok a, h).

Definition raise {A} (e : exn) : M A := fun h => (Raise e, h).

Definition bind {A B} (m : M A) (k : A -> M B) : M B :=
  fun h => match m h with
           | (Ok a, h') => k a h'
           | (Raise e, h') => (Raise e, h')
           end.

#[global] Instance M_ret : MRet M := @ret.
#[global] Instance M_bind : MBind M := fun A B k m => bind m k.

(** The column named [c] of a table. *)
Fixpoint column (d : DataFrame) (c : string) : option Series :=
  match d with
  | [] => None
  | (c', s) :: d' => if String.eqb c' c then Some s else column d' c
  end.

(** The table with column [c] set to [s]: replaced where it stands when the
    table has it, added as the last column when not. *)
Fixpoint set_column (d : DataFrame) (c : string) (s : Series) : DataFrame :=
  match d with
  | [] => [(c, s)]
  | (c', s') :: d' =>
      if String.eqb c' c then (c', s) :: d'
      else (c', s') :: set_column d' c s
  end.

(** The names of the columns. *)
Definition columns (d : DataFrame) : list string := map fst d.

(** [df.copy()]: a new table with the same columns. *)
Definition copy (df : loc) : M loc :=
  fun h => match h !! df with
           | Some d => let l := fresh (dom h) in (Ok l, <[l := d]> h)
           | None => (Raise Dangling, h)
           end.

(** [df[c]]. *)
Definition getitem (df : loc) (c : string) : M Series :=
  fun h => match h !! df with
           | Some d => match column d c with
                       | Some s => (Ok s, h)
                       | None => (Raise (KeyError c), h)
                       end
           | None => (Raise Dangling, h)
           end.

(** [df[c] = s]: the table is changed in place. *)
Definition setitem (df : loc) (c : string) (s : Series) : M unit :=
  fun h => match h !! df with
           | Some d => (Ok tt, <[df := set_column d c s]> h)
           | None => (Raise Dangling, h)
           end.

(** [s1 + s2], [s1 * s2] and [s * k] on columns of one table, row by row,
    in exact arithmetic: the store carries which columns a table has and
    which table is written.  The numbers that the machine puts in the
    columns, and the [OverflowError] of a horizon beyond the dtype of the
    column, are in [machine.calculate_clv] below. *)
Definition add (s1 s2 : Series) : M Series :=
  match s1, s2 with
  | NumCol v1, NumCol v2 => ret (NumCol (zip_with Qplus v1 v2))
  | _, _ => raise TypeError
  end.

Definition mul (s1 s2 : Series) : M Series :=
  match s1, s2 with
  | NumCol v1, NumCol v2 => ret (NumCol (zip_with Qmult v1 v2))
  | _, _ => raise TypeError
  end.

Definition mul_scalar (s : Series) (k : Z) : M Series :=
  match s with
  | NumCol v => ret (NumCol (map (fun x => (x * inject_Z k)%Q) v))
  | ObjCol _ => raise TypeError
  end.

(** The number in row [i] of column [c]. *)
Definition cell (d : DataFrame) (c : string) (i : nat) : option Q :=
  match column d c with
  | Some (NumCol v) => v !! i
  | _ => None
  end.

End frame.

Import frame.

(** [calculate_clv(df, projection_months=36)]. *)
Definition calculate_clv (df : loc) (projection_months : option Z) : M loc :=
  let projection_months := default 36 projection_months in
  df ← copy df;
  (* Projected CLV *)
  total ← getitem df "TotalCharges";
  monthly ← getitem df "MonthlyCharges";
  projected ← mul_scalar monthly projection_months;
  clv ← add total projected;
  setitem df "ProjectedCLV" clv;;
  (* CLV at risk *)
  clv ← getitem df "ProjectedCLV";
  churned ← getitem df "Churned";
  at_risk ← mul clv churned;
  setitem df "CLVAtRisk" at_risk;;
  ret df.

(** The prepared table as a table of columns. *)
Definition to_frame (df : list Row) : DataFrame :=
  let obj (f : Row -> string) := ObjCol (map (fun r => Some (f r)) df) in
  let int (f : Row -> Z) := NumCol (map (fun r => inject_Z (f r)) df) in
  [ ("customerID", ObjCol (map customerID df));
    ("SeniorCitizen", ObjCol (map SeniorCitizen df));
    ("Partner", obj Partner);
    ("Dependents", obj Dependents);
    ("tenure", int tenure);
    ("PhoneService", obj PhoneService);
    ("MultipleLines", obj MultipleLines);
    ("InternetService", obj InternetService);
    ("OnlineSecurity", obj OnlineSecurity);
    ("OnlineBackup", obj OnlineBackup);
    ("DeviceProtection", obj DeviceProtection);
    ("TechSupport", obj TechSupport);
    ("StreamingTV", obj StreamingTV);
    ("StreamingMovies", obj StreamingMovies);
    ("Contract", obj Contract);
    ("PaymentMethod", obj PaymentMethod);
    ("MonthlyCharges", NumCol (map MonthlyCharges df));
    ("TotalCharges", NumCol (map TotalCharges df));
    ("Churn", obj Churn);
    ("Churned", int Churned);
    ("TenureGroup", ObjCol (map TenureGroup df));
    ("RevenueAtRisk", NumCol (map RevenueAtRisk df));
    ("ServiceCount", int ServiceCount) ].

(* ===================================================================== *)
(** * Section 5 of the script: the risk scoring model *)
(* ===================================================================== *)

(** [calculate_risk_score(row)], statement by statement: [score] starts at 0
    and each [if] adds its points to it. *)
Definition calculate_risk_score (row : Row) : Z :=
  let score := 0 in
  (* Contract type *)
  let score :=
    if String.eqb (Contract row) "Month-to-month" then score + 3
    else if String.eqb (Contract row) "One year" then score + 1
    else score in
  (* Tenure *)
  let score :=
    if tenure row <=? 12 then score + 3
    else if tenure row <=? 24 then score + 1
    else score in
  (* Payment method *)
  let score :=
    if String.eqb (PaymentMethod row) "Electronic check" then score + 2
    else score in
  (* Tech support *)
  let score :=
    if String.eqb (TechSupport row) "No"
       && negb (String.eqb (InternetService row) "No")
    then score + 2 else score in
  (* Online security *)
  let score :=
    if String.eqb (OnlineSecurity row) "No"
       && negb (String.eqb (InternetService row) "No")
    then score + 2 else score in
  (* Price sensitivity *)
  let score :=
    if Qgtb (MonthlyCharges row) 80 then score + 2 else score in
  (* Internet type *)
  let score :=
    if String.eqb (InternetService row) "Fiber optic" then score + 1
    else score in
  score.

(** [assign_risk_category(score)]. *)
Definition assign_risk_category (score : Z) : string :=
  if score >=? 10 then "Critical Risk"
  else if score >=? 7 then "High Risk"
  else if score >=? 4 then "Medium Risk"
  else "Low Risk".

(** The rule table of the specification: a condition on the record and the
    points it is worth. *)
Definition risk_rules : list ((Row -> bool) * Z) :=
  [ (fun r => String.eqb (Contract r) "Month-to-month", 3);
    (fun r => String.eqb (Contract r) "One year", 1);
    (fun r => tenure r <=? 12, 3);
    (fun r => (12 <? tenure r) && (tenure r <=? 24), 1);
    (fun r => String.eqb (PaymentMethod r) "Electronic check", 2);
    (fun r => String.eqb (TechSupport r) "No"
              && negb (String.eqb (InternetService r) "No"), 2);
    (fun r => String.eqb (OnlineSecurity r) "No"
              && negb (String.eqb (InternetService r) "No"), 2);
    (fun r => Qgtb (MonthlyCharges r) 80, 2);
    (fun r => String.eqb (InternetService r) "Fiber optic", 1) ].

(** Sum of the points of all the rules that match a record. *)
Definition matching_points (rules : list ((Row -> bool) * Z)) (r : Row) : Z :=
  Zsum (map snd (List.filter (fun rule => fst rule r) rules)).

(** ** Scoring the customers *)

(** A customer with the [RiskScore] and [RiskCategory] columns. *)
Record Scored := mkScored {
  scored_row : Row;
  RiskScore : Z;
  RiskCategory : string
}.

(** [t['RiskScore'] = t.apply(calculate_risk_score, axis=1)] and
    [t['RiskCategory'] = t['RiskScore'].apply(assign_risk_category)]. *)
Definition score_customers (t : list Row) : list Scored :=
  map (fun r => let s := calculate_risk_score r in
                mkScored r s (assign_risk_category s)) t.

(** [df[df['Churned'] == v]]. *)
Definition with_churned (v : Z) (df : list Row) : list Row :=
  List.filter (fun r => Churned r =? v) df.

Definition active_customers (df : list Row) : list Scored :=
  score_customers (with_churned 0 df).

Definition churned_customers (df : list Row) : list Scored :=
  score_customers (with_churned 1 df).

(* ===================================================================== *)
(** * Section 7 of the script: business impact *)
(* ===================================================================== *)

(** Lower case of an ASCII letter, and of a string. *)
Definition lower_ascii (c : ascii) : ascii :=
  let n := nat_of_ascii c in
  if ((65 <=? n) && (n <=? 90))%nat then ascii_of_nat (n + 32) else c.

Fixpoint lower (s : string) : string :=
  match s with
  | EmptyString => EmptyString
  | String c s' => String (lower_ascii c) (lower s')
  end.

(** Whether [pat] occurs in [s]. *)
Fixpoint occurs (pat s : string) : bool :=
  String.prefix pat s
  || match s with
     | EmptyString => false
     | String _ s' => occurs pat s'
     end.

(** [s.str.contains(pat, case=False)] for a pattern of plain characters. *)
Definition contains_nocase (pat s : string) : bool :=
  occurs (lower pat) (lower s).

(** [t['Churned'].mean()] and [t['MonthlyCharges'].mean()]. *)
Definition churned_mean (t : list Row) : option Q :=
  pd.mean (map (fun r => inject_Z (Churned r)) t).

Definition charges_mean (t : list Row) : option Q :=
  pd.mean (map MonthlyCharges t).

(** [len(t)]. *)
Definition len {A} (t : list A) : Z := Z.of_nat (length t).

(** The variables the section computes. *)
Record Impact := mkImpact {
  total_customers : Z;
  churned_count : Z;
  churn_rate : option Q;
  monthly_revenue_loss : Q;
  annual_revenue_loss : Q;
  (* Intervention 1 *)
  monthly_customers : Z;
  monthly_churn : Q;
  annual_churn : Q;
  conversion_rate : Q;
  converted_customers : Z;
  churn_reduction : Q;
  customers_saved : Z;
  avg_monthly_charge : Q;
  revenue_saved_contract : Q;
  (* Intervention 2 *)
  echeck_customers : Z;
  echeck_churn : Q;
  cc_churn : Q;
  migration_rate : Q;
  migrated_customers : Z;
  churn_reduction_payment : Q;
  customers_saved_payment : Z;
  revenue_saved_payment : Q;
  (* Intervention 3 *)
  no_tech : Z;
  no_tech_churn : Q;
  with_tech_churn : Q;
  tech_cost_per_customer : Z;
  customers_saved_tech : Z;
  revenue_saved_tech : Q;
  tech_investment : Z;
  net_benefit_tech : Q;
  (* Total impact *)
  total_customers_saved : Z;
  total_revenue_protected : Q;
  new_churn_rate : Q;
  intervention_cost : Z
}.

(** The body of the section.  A mean over no rows is NaN; every mean below
    other than [churn_rate] reaches an [int(...)], which raises [ValueError]
    on NaN: the result is [None] then.  The arithmetic is exact here; the
    figures as the machine computes them are in [machine.business_impact]
    below. *)
Definition business_impact (df : list Row) : option Impact :=
  let total_customers := len df in
  let churned_count := Zsum (map Churned df) in
  let monthly_revenue_loss := Qsum (map MonthlyCharges (with_churned 1 df)) in
  let annual_revenue_loss := (monthly_revenue_loss * 12)%Q in
  (* Intervention 1: contract migration *)
  let monthly :=
    List.filter (fun r => String.eqb (Contract r) "Month-to-month") df in
  let monthly_customers := len monthly in
  monthly_churn ← churned_mean monthly;
  annual_churn ← churned_mean
    (List.filter (fun r => String.eqb (Contract r) "One year") df);
  let conversion_rate := (3 # 10)%Q in
  let converted_customers :=
    py_int (inject_Z monthly_customers * conversion_rate) in
  let churn_reduction := (monthly_churn - annual_churn)%Q in
  let customers_saved :=
    py_int (inject_Z converted_customers * churn_reduction) in
  avg_monthly_charge ← charges_mean df;
  let revenue_saved_contract :=
    (inject_Z customers_saved * avg_monthly_charge * 12)%Q in
  (* Intervention 2: payment method migration *)
  let echeck :=
    List.filter (fun r => String.eqb (PaymentMethod r) "Electronic check") df in
  let echeck_customers := len (with_churned 0 echeck) in
  echeck_churn ← churned_mean echeck;
  cc_churn ← churned_mean
    (List.filter (fun r => contains_nocase "credit card" (PaymentMethod r)) df);
  let migration_rate := (4 # 10)%Q in
  let migrated_customers :=
    py_int (inject_Z echeck_customers * migration_rate) in
  let churn_reduction_payment := (echeck_churn - cc_churn)%Q in
  let customers_saved_payment :=
    py_int (inject_Z migrated_customers * churn_reduction_payment) in
  let revenue_saved_payment :=
    (inject_Z customers_saved_payment * avg_monthly_charge * 12)%Q in
  (* Intervention 3: tech support bundling *)
  let without_tech :=
    List.filter (fun r => String.eqb (TechSupport r) "No"
                          && negb (String.eqb (InternetService r) "No")) df in
  let no_tech := len (with_churned 0 without_tech) in
  no_tech_churn ← churned_mean without_tech;
  with_tech_churn ← churned_mean
    (List.filter (fun r => String.eqb (TechSupport r) "Yes") df);
  let tech_cost_per_customer := 8 * 12 in
  let customers_saved_tech :=
    py_int (inject_Z no_tech * (no_tech_churn - with_tech_churn)) in
  let revenue_saved_tech :=
    (inject_Z customers_saved_tech * avg_monthly_charge * 12)%Q in
  let tech_investment := no_tech * tech_cost_per_customer in
  let net_benefit_tech := (revenue_saved_tech - inject_Z tech_investment)%Q in
  (* Total impact *)
  let total_customers_saved :=
    customers_saved + customers_saved_payment + customers_saved_tech in
  let total_revenue_protected :=
    (revenue_saved_contract + revenue_saved_payment + net_benefit_tech)%Q in
  let new_churn_rate :=
    (inject_Z (churned_count - total_customers_saved)
     / inject_Z total_customers)%Q in
  Some {|
    total_customers := total_customers;
    churned_count := churned_count;
    churn_rate := churned_mean df;
    monthly_revenue_loss := monthly_revenue_loss;
    annual_revenue_loss := annual_revenue_loss;
    monthly_customers := monthly_customers;
    monthly_churn := monthly_churn;
    annual_churn := annual_churn;
    conversion_rate := conversion_rate;
    converted_customers := converted_customers;
    churn_reduction := churn_reduction;
    customers_saved := customers_saved;
    avg_monthly_charge := avg_monthly_charge;
    revenue_saved_contract := revenue_saved_contract;
    echeck_customers := echeck_customers;
    echeck_churn := echeck_churn;
    cc_churn := cc_churn;
    migration_rate := migration_rate;
    migrated_customers := migrated_customers;
    churn_reduction_payment := churn_reduction_payment;
    customers_saved_payment := customers_saved_payment;
    revenue_saved_payment := revenue_saved_payment;
    no_tech := no_tech;
    no_tech_churn := no_tech_churn;
    with_tech_churn := with_tech_churn;
    tech_cost_per_customer := tech_cost_per_customer;
    customers_saved_tech := customers_saved_tech;
    revenue_saved_tech := revenue_saved_tech;
    tech_investment := tech_investment;
    net_benefit_tech := net_benefit_tech;
    total_customers_saved := total_customers_saved;
    total_revenue_protected := total_revenue_protected;
    new_churn_rate := new_churn_rate;
    intervention_cost := 180000
  |}.

(** The estimate as the specification words it: one integer floor of the
    product of the targeted population, the conversion rate and the
    difference of the churn rates. *)
Definition single_floor (population : Z) (rate delta : Q) : Z :=
  Qfloor (inject_Z population * rate * delta).

(* ===================================================================== *)
(** * The script as a whole *)
(* ===================================================================== *)

Definition DATA_PATH : string :=
  "C:\Projects\Data Analyst Projects\customer-churn-analysis\data\WA_Fn-UseC_-Telco-Customer-Churn.csv".

(** The analysis stages that follow the loading of the data.  (The plotting
    and export sections of the script, guarded in the same way, are
    presentation and are left out.) *)
Inductive Stage :=
| Aggregator
| Tester
| CLVProjector
| RiskScorer
| ImpactEstimator.

(** What a run of the script produces, in order. *)
Inductive Event :=
| FileNotFound (filepath : string)
| Loaded (n : Z)
| Segments (analyses : list (list SegmentSummary))
| ChiSquare (results : list (string * Q * Z))
| CLV (table : DataFrame)
| RiskScores (active churned : list Scored)
| BusinessImpact (i : Impact)
| Crash (s : Stage).

(** The stage an event comes from, if it comes from one. *)
Definition stage_of (e : Event) : option Stage :=
  match e with
  | FileNotFound _ | Loaded _ => None
  | Segments _ => Some Aggregator
  | ChiSquare _ => Some Tester
  | CLV _ => Some CLVProjector
  | RiskScores _ _ => Some RiskScorer
  | BusinessImpact _ => Some ImpactEstimator
  | Crash s => Some s
  end.

(** Section 2: the six segment analyses. *)
Definition segment_stage (df : list Row) : option Event :=
  Some (Segments
    [ analyze_churn_by_segment df col_Contract;
      analyze_churn_by_segment df col_PaymentMethod;
      analyze_churn_by_segment df col_TenureGroup;
      analyze_churn_by_segment df col_InternetService;
      analyze_churn_by_segment df col_TechSupport;
      analyze_churn_by_segment df col_SeniorCitizen ]).

(** Section 3: the loop over [test_columns]; an exception in a test ends the
    run. *)
Definition test_columns : list (string * Column) :=
  [ ("Contract", col_Contract); ("PaymentMethod", col_PaymentMethod);
    ("TechSupport", col_TechSupport); ("InternetService", col_InternetService);
    ("SeniorCitizen", col_SeniorCitizen); ("Partner", col_Partner);
    ("Dependents", col_Dependents) ].

Definition test_stage (df : list Row) : option Event :=
  results ← mapM (fun c => '(chi2, dof) ← chi_square_test df (snd c) col_Churn;
                           Some (fst c, chi2, dof)) test_columns;
  Some (ChiSquare results).

(** Section 4: [df = calculate_clv(df)], with [df] the only table of the
    store.  The sections that follow read only columns that the new table
    shares with the old one. *)
Definition clv_stage (df : list Row) : option Event :=
  let l : loc := 1%positive in
  match calculate_clv l None {[ l := to_frame df ]} with
  | (Ok l', h) => CLV <$> (h !! l')
  | (Raise _, _) => None
  end.

(** Section 5: the scores of the active and of the churned customers. *)
Definition risk_stage (df : list Row) : option Event :=
  Some (RiskScores (active_customers df) (churned_customers df)).

(** Section 7. *)
Definition impact_stage (df : list Row) : option Event :=
  BusinessImpact <$> business_impact df.

Definition stages : list (Stage * (list Row -> option Event)) :=
  [ (Aggregator, segment_stage); (Tester, test_stage);
    (CLVProjector, clv_stage); (RiskScorer, risk_stage);
    (ImpactEstimator, impact_stage) ].

(** The guarded blocks of the script, run in order.  Each block is
    [if df is not None: ...]; an exception raised inside a block ends the
    run. *)
Fixpoint run_stages (df : option (list Row))
    (blocks : list (Stage * (list Row -> option Event))) : list Event :=
  match blocks with
  | [] => []
  | (s, block) :: rest =>
      match df with
      | None => run_stages df rest
      | Some d =>
          match block d with
          | Some e => e :: run_stages df rest
          | None => [Crash s]
          end
      end
  end.

(** The script: load the data, then run the guarded sections. *)
Definition main (fs : filesystem) : list Event :=
  let df := load_and_prepare_data fs DATA_PATH in
  let loading :=
    match df with
    | Some d => Loaded (len d)
    | None => FileNotFound DATA_PATH
    end in
  loading :: run_stages df stages.

(* ===================================================================== *)
(** * The arithmetic of the machine *)
(* ===================================================================== *)

(** The sections above take the sums, means, products and roundings of the
    script in exact arithmetic.  pandas computes them on the machine: a
    column of numbers is an array of 64-bit integers (dtype int64) or of
    IEEE 754 doubles (float64), and [int], [round] and the arithmetic
    operators act on doubles.  Where a claim fixes a computed value, the
    computation is embedded again below, over 64-bit integers that wrap
    around and over [float], the binary64 numbers with their operations
    rounded to nearest, ties to even. *)

Module int64.

(** Whether an integer is one of the 64-bit signed integers. *)
Definition fits (n : Z) : bool := (- 2 ^ 63 <=? n) && (n <? 2 ^ 63).

(** The 64-bit signed integer that an integer result is stored as: numpy's
    integer arithmetic on arrays wraps around, silently. *)
Definition wrap (n : Z) : Z := (n + 2 ^ 63) mod 2 ^ 64 - 2 ^ 63.

End int64.

Module float64.

(** An integer as a double: the nearest one, and an infinity beyond the
    range of the doubles.  This is numpy's cast of an int64 to float64. *)
Definition of_int (n : Z) : float :=
  SF2Prim (binary_normalize prec emax n 0 false).

(** A Python [int] as the float operand of an operation: the nearest
    double; [OverflowError] ([None]) when the integer is too large for a
    double. *)
Definition of_pyint (n : Z) : option float :=
  let x := of_int n in
  if is_infinity x then None else Some x.

(** The double that stands for a decimal number, in a literal of the script
    or in a field of the file: the nearest one.  (Computed here as the
    quotient of two doubles, which is the nearest double when numerator and
    denominator are below 2^53, as for every amount of up to 15 digits.) *)
Definition of_decimal (q : Q) : float :=
  (of_int (Qnum q) / of_int (Zpos (Qden q)))%float.

(** The number that a finite double is. *)
Definition value (x : float) : option Q :=
  match Prim2SF x with
  | S754_zero _ => Some 0%Q
  | S754_finite s m e =>
      let a := (inject_Z (Zpos m) * Qpower 2 e)%Q in
      Some (if s then - a else a)%Q
  | S754_infinity _ | S754_nan => None
  end.

(** Python's [int(x)] on a float: the integer part, toward zero;
    [ValueError] on NaN and [OverflowError] on an infinity ([None]). *)
Definition int (x : float) : option Z :=
  match Prim2SF x with
  | S754_zero _ => Some 0
  | S754_finite s m e =>
      let a := Z.shiftl (Zpos m) e in
      Some (if s then - a else a)
  | S754_infinity _ | S754_nan => None
  end.

(** [math.floor(x)]: the largest integer that is at most [x]. *)
Definition floor (x : float) : option Z :=
  n ← int x;
  Some (if (x <? of_int n)%float then n - 1 else n).

(** C's [rint] in the default rounding mode: the nearest integer, a tie
    going to the even one.  Below 2^52 in absolute value, adding and
    subtracting 2^52 rounds to an integer; from 2^52 on every double is an
    integer. *)
Definition rint (x : float) : float :=
  let two52 := 4503599627370496%float in
  if (abs x <? two52)%float then
    if (x =? 0)%float then x
    else if (x <? 0)%float then (- ((- x + two52) - two52))%float
    else ((x + two52) - two52)%float
  else x.

(** [np.round(x, decimals)], which [DataFrame.round] and [Series.round]
    apply to a float column: scale by the power of ten, round to the
    nearest integer, scale back.  (The power of ten is a double exactly up
    to 10^22; the script rounds to 1, 2 and 4 decimals.) *)
Definition round (decimals : nat) (x : float) : float :=
  let p := of_int (10 ^ Z.of_nat decimals) in
  (rint (x * p) / p)%float.

(** The non-missing values of a column of doubles. *)
Definition notna (values : list float) : list float :=
  List.filter (fun val => negb (is_nan val)) values.

(** ['sum'] of a group of a float column, as [groupby] computes it: Kahan's
    compensated summation over the rows of the group in their order, NaN
    skipped.  One step adds a value to the running sum and keeps the
    rounding error of the addition as the compensation of the next one. *)
Definition kahan_step (acc : float * float) (val : float) : float * float :=
  let '(sumx, compensation) := acc in
  let y := (val - compensation)%float in
  let t := (sumx + y)%float in
  let c := (t - sumx - y)%float in
  (t, if is_nan c then 0%float else c).

Definition group_sum (values : list float) : float :=
  fst (fold_left kahan_step (notna values) (0%float, 0%float)).

(** ['mean'] of a group: the same sum over the number of values; NaN for a
    group without values. *)
Definition group_mean (values : list float) : float :=
  match notna values with
  | [] => nan
  | vs => (group_sum values / of_int (Z.of_nat (length vs)))%float
  end.

End float64.

Module machine.

(** ** Section 2 of the script: churn rate by segment *)

(** One row of the table [analysis]. *)
Record SegmentSummary := mkSegment {
  seg_index : string;
  seg_TotalCustomers : Z;
  seg_Churned : Z;
  seg_ChurnRate : float;
  seg_TotalRevenue : float;
  seg_ChurnRatePct : float;
  seg_RevenueAtRisk : float
}.

(** The monthly charge of a row as the double of the column: the reader
    divides the digits of the amount by the power of ten of its decimals,
    which for an amount of up to two decimals, as every charge of the data
    has, is the nearest double. *)
Definition charge (r : Row) : float := float64.of_decimal (MonthlyCharges r).

(** The churn indicator of a row as a double: [groupby] takes the mean of
    an integer column over its values cast to float64. *)
Definition churned (r : Row) : float := float64.of_int (Churned r).

(** The aggregation of one group, rounded to 4 decimals, and the two
    columns computed from it.  The counts are integers, which [round]
    leaves alone. *)
Definition summarize (k : string) (g : list Row) : SegmentSummary :=
  let count := pd.count (map customerID g) in
  let churned_sum := Zsum (map Churned g) in
  let churned_mean := float64.group_mean (map churned g) in
  let revenue := float64.group_sum (map charge g) in
  let churn_rate := float64.round 4 churned_mean in
  let total_revenue := float64.round 4 revenue in
  {| seg_index := k;
     seg_TotalCustomers := count;
     seg_Churned := churned_sum;
     seg_ChurnRate := churn_rate;
     seg_TotalRevenue := total_revenue;
     seg_ChurnRatePct := float64.round 1 (churn_rate * 100)%float;
     seg_RevenueAtRisk := float64.round 2 (total_revenue * churn_rate)%float |}.

(** [analyze_churn_by_segment(df, column)]: one summary per key of the
    grouping. *)
Definition analyze_churn_by_segment (df : list Row) (column : Column)
  : list SegmentSummary :=
  map (fun k => summarize k (group df column k)) (group_keys df column).

(** ** Section 7 of the script: business impact *)

(** [t['Churned'].mean()]: the sum of the integers as a double over their
    number; NaN over no rows.  (The indicator is 0 or 1, so the sum is
    exact in whatever order it is taken.) *)
Definition churned_mean (t : list Row) : float :=
  (float64.of_int (Zsum (map Churned t)) / float64.of_int (len t))%float.

(** The variables the section computes. *)
Record Impact := mkImpact {
  total_customers : Z;
  churned_count : Z;
  churn_rate : float;
  monthly_revenue_loss : float;
  annual_revenue_loss : float;
  (* Intervention 1 *)
  monthly_customers : Z;
  monthly_churn : float;
  annual_churn : float;
  conversion_rate : float;
  converted_customers : Z;
  churn_reduction : float;
  customers_saved : Z;
  avg_monthly_charge : float;
  revenue_saved_contract : float;
  (* Intervention 2 *)
  echeck_customers : Z;
  echeck_churn : float;
  cc_churn : float;
  migration_rate : float;
  migrated_customers : Z;
  churn_reduction_payment : float;
  customers_saved_payment : Z;
  revenue_saved_payment : float;
  (* Intervention 3 *)
  no_tech : Z;
  no_tech_churn : float;
  with_tech_churn : float;
  tech_cost_per_customer : Z;
  customers_saved_tech : Z;
  revenue_saved_tech : float;
  tech_investment : Z;
  net_benefit_tech : float;
  (* Total impact *)
  total_customers_saved : Z;
  total_revenue_protected : float;
  new_churn_rate : float;
  intervention_cost : Z
}.

Section FloatColumns.

(** [Series.sum()] and [Series.mean()] of a column of doubles.  numpy adds
    a column pairwise, in blocks and in an order that depend on its length,
    and the mean may come from another routine; the two are taken as
    given.  They bear on the revenue figures only. *)
Variable column_sum column_mean : list float -> float.

(** The body of the section.  An integer meets a float as the nearest
    double; [int] of a NaN or of an infinity raises, and the result is
    [None] then. *)
Definition business_impact (df : list Row) : option Impact :=
  let total_customers := len df in
  let churned_count := Zsum (map Churned df) in
  let churn_rate := churned_mean df in
  let monthly_revenue_loss := column_sum (map charge (with_churned 1 df)) in
  let annual_revenue_loss := (monthly_revenue_loss * 12)%float in
  (* Intervention 1: contract migration *)
  let monthly :=
    List.filter (fun r => String.eqb (Contract r) "Month-to-month") df in
  let monthly_customers := len monthly in
  let monthly_churn := churned_mean monthly in
  let annual_churn :=
    churned_mean
      (List.filter (fun r => String.eqb (Contract r) "One year") df) in
  let conversion_rate := float64.of_decimal (30 # 100) in
  converted_customers ←
    float64.int (float64.of_int monthly_customers * conversion_rate)%float;
  let churn_reduction := (monthly_churn - annual_churn)%float in
  customers_saved ←
    float64.int (float64.of_int converted_customers * churn_reduction)%float;
  let avg_monthly_charge := column_mean (map charge df) in
  let revenue_saved_contract :=
    (float64.of_int customers_saved * avg_monthly_charge * 12)%float in
  (* Intervention 2: payment method migration *)
  let echeck :=
    List.filter (fun r => String.eqb (PaymentMethod r) "Electronic check") df in
  let echeck_customers := len (with_churned 0 echeck) in
  let echeck_churn := churned_mean echeck in
  let cc_churn :=
    churned_mean
      (List.filter
         (fun r => contains_nocase "credit card" (PaymentMethod r)) df) in
  let migration_rate := float64.of_decimal (40 # 100) in
  migrated_customers ←
    float64.int (float64.of_int echeck_customers * migration_rate)%float;
  let churn_reduction_payment := (echeck_churn - cc_churn)%float in
  customers_saved_payment ←
    float64.int
      (float64.of_int migrated_customers * churn_reduction_payment)%float;
  let revenue_saved_payment :=
    (float64.of_int customers_saved_payment * avg_monthly_charge * 12)%float in
  (* Intervention 3: tech support bundling *)
  let without_tech :=
    List.filter (fun r => String.eqb (TechSupport r) "No"
                          && negb (String.eqb (InternetService r) "No")) df in
  let no_tech := len (with_churned 0 without_tech) in
  let no_tech_churn := churned_mean without_tech in
  let with_tech_churn :=
    churned_mean
      (List.filter (fun r => String.eqb (TechSupport r) "Yes") df) in
  let tech_cost_per_customer := 8 * 12 in
  customers_saved_tech ←
    float64.int
      (float64.of_int no_tech * (no_tech_churn - with_tech_churn))%float;
  let revenue_saved_tech :=
    (float64.of_int customers_saved_tech * avg_monthly_charge * 12)%float in
  let tech_investment := no_tech * tech_cost_per_customer in
  let net_benefit_tech :=
    (revenue_saved_tech - float64.of_int tech_investment)%float in
  (* Total impact *)
  let total_customers_saved :=
    customers_saved + customers_saved_payment + customers_saved_tech in
  let total_revenue_protected :=
    (revenue_saved_contract + revenue_saved_payment + net_benefit_tech)%float in
  let new_churn_rate :=
    (float64.of_int (churned_count - total_customers_saved)
     / float64.of_int total_customers)%float in
  Some {|
    total_customers := total_customers;
    churned_count := churned_count;
    churn_rate := churn_rate;
    monthly_revenue_loss := monthly_revenue_loss;
    annual_revenue_loss := annual_revenue_loss;
    monthly_customers := monthly_customers;
    monthly_churn := monthly_churn;
    annual_churn := annual_churn;
    conversion_rate := conversion_rate;
    converted_customers := converted_customers;
    churn_reduction := churn_reduction;
    customers_saved := customers_saved;
    avg_monthly_charge := avg_monthly_charge;
    revenue_saved_contract := revenue_saved_contract;
    echeck_customers := echeck_customers;
    echeck_churn := echeck_churn;
    cc_churn := cc_churn;
    migration_rate := migration_rate;
    migrated_customers := migrated_customers;
    churn_reduction_payment := churn_reduction_payment;
    customers_saved_payment := customers_saved_payment;
    revenue_saved_payment := revenue_saved_payment;
    no_tech := no_tech;
    no_tech_churn := no_tech_churn;
    with_tech_churn := with_tech_churn;
    tech_cost_per_customer := tech_cost_per_customer;
    customers_saved_tech := customers_saved_tech;
    revenue_saved_tech := revenue_saved_tech;
    tech_investment := tech_investment;
    net_benefit_tech := net_benefit_tech;
    total_customers_saved := total_customers_saved;
    total_revenue_protected := total_revenue_protected;
    new_churn_rate := new_churn_rate;
    intervention_cost := 180000
  |}.

End FloatColumns.

(** The estimate as the script computes it: the converted head-count is cut
    to an integer first, then its product with the difference of the churn
    rates is cut again. *)
Definition staged_truncation (population : Z) (rate delta : float)
  : option Z :=
  converted ← float64.int (float64.of_int population * rate)%float;
  float64.int (float64.of_int converted * delta)%float.

(** The estimate as the specification words it, on doubles: one integer
    floor of the product of the targeted population, the conversion rate
    and the difference of the churn rates. *)
Definition single_floor (population : Z) (rate delta : float) : option Z :=
  float64.floor (float64.of_int population * rate * delta)%float.

(** The sum and the mean of a column added from left to right, as numpy
    adds a column of fewer than 8 values; for the examples. *)
Definition sum_in_order (values : list float) : float :=
  fold_left PrimFloat.add values 0%float.

Definition mean_in_order (values : list float) : float :=
  (sum_in_order values / float64.of_int (len values))%float.

(** ** Section 4 of the script: customer lifetime value *)

(** A numeric column, with its dtype. *)
Inductive Series :=
| Int64 (v : list Z)
| Float64 (v : list float).

(** A number of a column or of an operation. *)
Inductive num :=
| Int (n : Z)
| Float (x : float).

(** The number in row [i] of a column. *)
Definition cell (s : Series) (i : nat) : option num :=
  match s with
  | Int64 v => Int <$> v !! i
  | Float64 v => Float <$> v !! i
  end.

(** The arithmetic of numpy on two numbers: 64-bit integers that wrap
    around when both are integers, doubles when one of them is a double,
    the integer cast to the nearest double. *)
Definition to_float (x : num) : float :=
  match x with
  | Int n => float64.of_int n
  | Float x => x
  end.

Definition plus (x y : num) : num :=
  match x, y with
  | Int a, Int b => Int (int64.wrap (a + b))
  | _, _ => Float (to_float x + to_float y)%float
  end.

Definition times (x y : num) : num :=
  match x, y with
  | Int a, Int b => Int (int64.wrap (a * b))
  | _, _ => Float (to_float x * to_float y)%float
  end.

(** The doubles of a column in an operation with a float column. *)
Definition floats (s : Series) : list float :=
  match s with
  | Int64 v => map float64.of_int v
  | Float64 v => v
  end.

(** [s1 + s2] and [s1 * s2] on two columns of one table, row by row. *)
Definition add (s1 s2 : Series) : Series :=
  match s1, s2 with
  | Int64 a, Int64 b => Int64 (zip_with (fun x y => int64.wrap (x + y)) a b)
  | _, _ => Float64 (zip_with PrimFloat.add (floats s1) (floats s2))
  end.

Definition mul (s1 s2 : Series) : Series :=
  match s1, s2 with
  | Int64 a, Int64 b => Int64 (zip_with (fun x y => int64.wrap (x * y)) a b)
  | _, _ => Float64 (zip_with PrimFloat.mul (floats s1) (floats s2))
  end.

(** A Python [int] as the other operand of a column: numpy takes it in the
    dtype of the column and raises [OverflowError] ([None]) when that dtype
    cannot hold it, a 64-bit integer for an int64 column and a double for a
    float64 column (NumPy 2). *)
Definition scalar (s : Series) (k : Z) : option num :=
  match s with
  | Int64 _ => if int64.fits k then Some (Int k) else None
  | Float64 _ => Float <$> float64.of_pyint k
  end.

(** [s * k] for a Python [int] [k]. *)
Definition mul_scalar (s : Series) (k : Z) : option Series :=
  c ← scalar s k;
  Some match s with
       | Int64 a => Int64 (map (fun x => int64.wrap (x * k)) a)
       | Float64 a => Float64 (map (fun x => (x * to_float c)%float) a)
       end.

(** The two columns that [calculate_clv] computes. *)
Record CLV := mkCLV {
  ProjectedCLV : Series;
  CLVAtRisk : Series
}.

(** [calculate_clv(df, projection_months=36)] on a table whose charge and
    churn columns are numeric: the values of the two columns it adds to the
    copy.  [None] stands for the [OverflowError] of the multiplication by
    the horizon. *)
Definition calculate_clv (TotalCharges MonthlyCharges Churned : Series)
    (projection_months : option Z) : option CLV :=
  let projection_months := default 36 projection_months in
  (* Projected CLV *)
  projected ← mul_scalar MonthlyCharges projection_months;
  let ProjectedCLV := add TotalCharges projected in
  (* CLV at risk *)
  let CLVAtRisk := mul ProjectedCLV Churned in
  Some {| ProjectedCLV := ProjectedCLV; CLVAtRisk := CLVAtRisk |}.

End machine.

(* ===================================================================== *)
(** * The words of the specification, and tables for the examples *)
(* ===================================================================== *)

(** The value 1 for a service field that counts and 0 for one that does
    not, the fields that do not count being those whose value is one of
    "No", "No phone service" and "No internet service". *)
Definition service_indicator (val : string) : Z :=
  if decide (val = "No" \/ val = "No phone service"
             \/ val = "No internet service")
  then 0 else 1.

(** The bucket of the partition [0,12], (12,24], (24,48], (48,72] that
    holds a tenure, as the specification gives it. *)
Definition tenure_bucket (t : Z) : option string :=
  if (0 <=? t) && (t <=? 12) then Some "0-12 months"
  else if (12 <? t) && (t <=? 24) then Some "13-24 months"
  else if (24 <? t) && (t <=? 48) then Some "25-48 months"
  else if (48 <? t) && (t <=? 72) then Some "49-72 months"
  else None.

(** What [calculate_clv] may do to a table [d] on the way to [d']: every
    column other than the two it writes is as in [d], and the columns of [d']
    are those of [d] and at most the two it writes. *)
Definition clv_frame (d d' : DataFrame) : Prop :=
  (forall c, c <> "ProjectedCLV" -> c <> "CLVAtRisk" ->
             column d' c = column d c)
  /\ (forall c, In c (columns d') ->
                In c (columns d) \/ c = "ProjectedCLV" \/ c = "CLVAtRisk")
  /\ (forall c, In c (columns d) -> In c (columns d')).

(** A raw record for the examples. *)
Definition customer (id contract payment tech : string) (months : Z)
    (monthly : Q) (churn : string) : RawRow :=
  {| raw_customerID := Some id; raw_SeniorCitizen := 0;
     raw_Partner := "No"; raw_Dependents := "No"; raw_tenure := months;
     raw_PhoneService := "Yes"; raw_MultipleLines := "No";
     raw_InternetService := "DSL"; raw_OnlineSecurity := "Yes";
     raw_OnlineBackup := "No"; raw_DeviceProtection := "No";
     raw_TechSupport := tech; raw_StreamingTV := "No";
     raw_StreamingMovies := "No"; raw_Contract := contract;
     raw_PaymentMethod := payment; raw_MonthlyCharges := monthly;
     raw_TotalCharges := Some (monthly * inject_Z months)%Q;
     raw_Churn := churn |}.

(** A customer for the examples: 100 charged so far, 50 a month. *)
Definition example_row (churn : string) : Row :=
  prepare_row
    {| raw_customerID := Some "0001-EXMPL"; raw_SeniorCitizen := 0;
       raw_Partner := "No"; raw_Dependents := "No"; raw_tenure := 2;
       raw_PhoneService := "Yes"; raw_MultipleLines := "No";
       raw_InternetService := "DSL"; raw_OnlineSecurity := "Yes";
       raw_OnlineBackup := "No"; raw_DeviceProtection := "No";
       raw_TechSupport := "No"; raw_StreamingTV := "No";
       raw_StreamingMovies := "No"; raw_Contract := "One year";
       raw_PaymentMethod := "Mailed check"; raw_MonthlyCharges := 50;
       raw_TotalCharges := Some 100%Q; raw_Churn := churn |}.

(** The table of one churned customer, charged 100 so far and 50 a month,
    that already has a [ProjectedCLV] column, holding 700. *)
Definition projected_table : DataFrame :=
  [ ("TotalCharges", NumCol [100%Q]); ("MonthlyCharges", NumCol [50%Q]);
    ("Churned", NumCol [1%Q]); ("ProjectedCLV", NumCol [700%Q]) ].

(** Two customers on the same contract paying the same charge, one of whom
    churned. *)
Definition two_customers : list Row :=
  map prepare_row
    [ customer "0001" "One year" "Mailed check" "Yes" 30 50 "Yes";
      customer "0002" "One year" "Mailed check" "Yes" 30 50 "No" ].

(** Five customers: two on a one-year contract paying 50, one of whom
    churned, and three on a two-year contract paying 100.25, one of whom
    churned. *)
Definition revenue_customers : list Row :=
  map prepare_row
    [ customer "0001" "One year" "Mailed check" "Yes" 30 50 "Yes";
      customer "0002" "One year" "Mailed check" "Yes" 30 50 "No";
      customer "0003" "Two year" "Mailed check" "Yes" 30 (401 # 4) "Yes";
      customer "0004" "Two year" "Mailed check" "Yes" 30 (401 # 4) "No";
      customer "0005" "Two year" "Mailed check" "Yes" 30 (401 # 4) "No" ].

(** Seven customers on one contract paying 50 each, five of whom churned. *)
Definition seven_customers : list Row :=
  map prepare_row
    (repeat (customer "0001" "One year" "Mailed check" "Yes" 30 50 "Yes") 5
     ++ repeat (customer "0002" "One year" "Mailed check" "Yes" 30 50 "No")
          2)%list.

(** Twenty customers on a month-to-month contract, 14 of whom churned, and
    five on a one-year contract, one of whom churned. *)
Definition twenty_five_customers : list Row :=
  map prepare_row
    (repeat (customer "0001" "Month-to-month" "Electronic check" "No" 10 50
               "Yes") 14
     ++ repeat (customer "0002" "Month-to-month" "Credit card (automatic)"
                  "Yes" 10 50 "No") 6
     ++ repeat (customer "0003" "One year" "Mailed check" "Yes" 10 50 "Yes") 1
     ++ repeat (customer "0004" "One year" "Mailed check" "Yes" 10 50 "No")
          4)%list.

(** Six customers: five on a month-to-month contract, four of whom churned,
    and one on a one-year contract, who stayed. *)
Definition six_raw : list RawRow :=
  [ customer "0001" "Month-to-month" "Electronic check" "No" 3 70 "Yes";
    customer "0002" "Month-to-month" "Electronic check" "No" 5 80 "Yes";
    customer "0003" "Month-to-month" "Credit card (automatic)" "No" 8 60
      "Yes";
    customer "0004" "Month-to-month" "Credit card (automatic)" "Yes" 9 90
      "Yes";
    customer "0005" "Month-to-month" "Mailed check" "Yes" 20 40 "No";
    customer "0006" "One year" "Credit card (automatic)" "Yes" 30 50 "No" ].

Definition six_customers : list Row := map prepare_row six_raw.

(** A file system with no file at all, and one with the six customers at
    the path the script reads. *)
Definition no_file : filesystem := fun _ => None.

Definition six_file : filesystem :=
  fun path => if String.eqb path DATA_PATH then Some six_raw else None.

(* ===================================================================== *)
(** * The rest of the script *)
(* ===================================================================== *)

(** ** Section 1: the dataset overview *)

(** The figures printed after the loading: [len(df)], [df['Churned'].sum()],
    [df['Churned'].mean()], [df['MonthlyCharges'].sum()] and its mean. *)
Record Overview := mkOverview {
  ov_total_customers : Z;
  ov_churned_customers : Z;
  ov_churn_rate : option Q;
  ov_total_monthly_charges : Q;
  ov_average_monthly_charges : option Q
}.

Definition overview (df : list Row) : Overview :=
  {| ov_total_customers := len df;
     ov_churned_customers := Zsum (map Churned df);
     ov_churn_rate := churned_mean df;
     ov_total_monthly_charges := Qsum (map MonthlyCharges df);
     ov_average_monthly_charges := charges_mean df |}.

(** ** Section 5: the risk distribution *)

(** [risk_order], the display order of the categories. *)
Definition risk_order : list string :=
  ["Critical Risk"; "High Risk"; "Medium Risk"; "Low Risk"].

(** One row of the table [risk_summary]. *)
Record RiskSummary := mkRiskSummary {
  rs_index : string;
  rs_Customers : Z;
  rs_MonthlyRevenue : Q;
  rs_AvgScore : Q;
  rs_AnnualRevenueAtRisk : Q
}.

(** The customers of one category: one group of
    [active_customers.groupby('RiskCategory')]. *)
Definition risk_group (t : list Scored) (k : string) : list Scored :=
  List.filter (fun c => String.eqb (RiskCategory c) k) t.

(** The aggregation of one group (count of the non-missing customer ids, sum
    of the monthly charges, mean of the score), rounded to 2 decimals, and
    the annual figure computed from it.  The groups are those of the
    observed categories, so none is empty.  The three amounts are taken in
    exact arithmetic. *)
Definition summarize_risk (k : string) (g : list Scored) : RiskSummary :=
  let monthly :=
    pd.round 2 (Qsum (map (fun c => MonthlyCharges (scored_row c)) g)) in
  {| rs_index := k;
     rs_Customers := pd.count (map (fun c => customerID (scored_row c)) g);
     rs_MonthlyRevenue := monthly;
     rs_AvgScore :=
       pd.round 2 (inject_Z (Zsum (map RiskScore g)) / inject_Z (len g))%Q;
     rs_AnnualRevenueAtRisk := pd.round 2 (monthly * 12)%Q |}.

(** [risk_summary]: the groups of the observed categories, then
    [reindex([r for r in risk_order if r in risk_summary.index])]. *)
Definition risk_summary (t : list Scored) : list RiskSummary :=
  let index := pd.unique (map RiskCategory t) in
  map (fun k => summarize_risk k (risk_group t k))
      (List.filter (fun r => pd.isin r index) risk_order).

(** [high_risk]: the customers whose category is one of
    ['Critical Risk', 'High Risk']. *)
Definition high_risk (t : list Scored) : list Scored :=
  List.filter
    (fun c => pd.isin (RiskCategory c) ["Critical Risk"; "High Risk"]) t.

(** The place of a category in [risk_order]. *)
Fixpoint index_of (k : string) (l : list string) : option nat :=
  match l with
  | [] => None
  | x :: l' => if String.eqb x k then Some 0%nat
               else S <$> index_of k l'
  end.

(** Strict order of the keys of [groupby] and [crosstab]. *)
Definition key_lt (a b : string) : Prop := String.compare a b = Lt.

(** ** Section 2: the rows that a grouping keeps *)

(** The categories of a categorical column as pandas keeps them: distinct,
    and holding the value of every row that has one.  (A column of strings
    has no categories, and nothing is asked of it.) *)
Definition categories_hold (df : list Row) (column : Column) : Prop :=
  forall categories,
    col_categories column = Some categories ->
    List.NoDup categories
    /\ forall r v, In r df -> column r = Some v -> In v categories.

(** The rows of [df] that hold a value in [column]: [groupby] leaves the
    others out. *)
Definition with_value (df : list Row) (column : Column) : list Row :=
  List.filter (fun r => match column r with
                        | Some _ => true
                        | None => false
                        end) df.

(* ===================================================================== *)
(** * Proofs *)
(* ===================================================================== *)

Import contingency.

(** Steps of a run in the store. *)
Ltac run_step :=
  unfold mbind, M_bind, bind, getitem, setitem, add, mul, mul_scalar,
    ret, raise;
  cbv beta iota zeta;
  rewrite ?lookup_insert_eq, ?insert_insert_eq;
  cbv beta iota zeta.

Ltac raised H :=
  eexists _, _; split; [reflexivity|]; split;
  [exact H | intros new Hnew; discriminate Hnew].

(** ** Risk score *)

Lemma Zsum_cons (x : Z) (l : list Z) : Zsum (x :: l) = x + Zsum l.
Proof. reflexivity. Qed.

(** The points of one rule. *)
Lemma rule_points (b : bool) (p score : Z) :
  (if b then score + p else score) = score + (if b then p else 0).
Proof. destruct b; lia. Qed.

Lemma elif_points (b b' : bool) (p p' score : Z) :
  (if b then score + p else if b' then score + p' else score)
  = score + (if b then p else if b' then p' else 0).
Proof. destruct b, b'; lia. Qed.

(** The two contract rules exclude each other, as do the two tenure rules;
    the [elif] of the code and the separate rules of the table agree. *)
Lemma contract_rules (c : string) :
  (if String.eqb c "Month-to-month" then 3
   else if String.eqb c "One year" then 1 else 0)
  = (if String.eqb c "Month-to-month" then 3 else 0)
    + (if String.eqb c "One year" then 1 else 0).
Proof.
  destruct (String.eqb_spec c "Month-to-month") as [->|_]; [reflexivity|].
  destruct (String.eqb c "One year"); reflexivity.
Qed.

Lemma tenure_rules (t : Z) :
  (if t <=? 12 then 3 else if t <=? 24 then 1 else 0)
  = (if t <=? 12 then 3 else 0)
    + (if (12 <? t) && (t <=? 24) then 1 else 0).
Proof.
  destruct (Z.leb_spec t 12), (Z.leb_spec t 24), (Z.ltb_spec 12 t);
    cbn [andb]; lia.
Qed.

(** The score as a sum of nine terms, one per rule of the table. *)
Lemma risk_score_terms (row : Row) :
  calculate_risk_score row =
    (if String.eqb (Contract row) "Month-to-month" then 3 else 0)
    + (if String.eqb (Contract row) "One year" then 1 else 0)
    + (if tenure row <=? 12 then 3 else 0)
    + (if (12 <? tenure row) && (tenure row <=? 24) then 1 else 0)
    + (if String.eqb (PaymentMethod row) "Electronic check" then 2 else 0)
    + (if String.eqb (TechSupport row) "No"
          && negb (String.eqb (InternetService row) "No") then 2 else 0)
    + (if String.eqb (OnlineSecurity row) "No"
          && negb (String.eqb (InternetService row) "No") then 2 else 0)
    + (if Qgtb (MonthlyCharges row) 80 then 2 else 0)
    + (if String.eqb (InternetService row) "Fiber optic" then 1 else 0).
Proof.
  unfold calculate_risk_score. cbv zeta.
  rewrite !elif_points, !rule_points, contract_rules, tenure_rules.
  lia.
Qed.

Lemma Zsum_points (rules : list ((Row -> bool) * Z)) (r : Row) :
  matching_points rules r
  = Zsum (map (fun rule : (Row -> bool) * Z =>
                 if fst rule r then snd rule else 0) rules).
Proof.
  unfold matching_points.
  induction rules as [|[c p] rules IH]; [reflexivity|].
  cbn [List.filter map fst snd].
  destruct (c r); cbn [map snd]; rewrite ?Zsum_cons, IH; reflexivity.
Qed.

(** C1.  For every record the score returned by [calculate_risk_score] is
    the sum of the points of all the rules of the table that match it: every
    matching rule contributes. *)
Theorem risk_score_is_sum_of_matching_rules (row : Row) :
  calculate_risk_score row = matching_points risk_rules row.
Proof.
  rewrite risk_score_terms, Zsum_points.
  unfold risk_rules. cbn [map Zsum fold_right fst snd]. lia.
Qed.

(** C2.  For every record the risk score lies in [0, 15], and the category
    boundaries are exact: 10 and above is Critical, 7 to 9 High, 4 to 6
    Medium, below 4 Low; in particular 6 is Medium and 7 is High. *)
Theorem risk_score_range_and_categories :
  (forall row : Row, 0 <= calculate_risk_score row <= 15)
  /\ (forall score : Z,
        (10 <= score -> assign_risk_category score = "Critical Risk")
        /\ (7 <= score < 10 -> assign_risk_category score = "High Risk")
        /\ (4 <= score < 7 -> assign_risk_category score = "Medium Risk")
        /\ (score < 4 -> assign_risk_category score = "Low Risk"))
  /\ assign_risk_category 3 = "Low Risk"
  /\ assign_risk_category 4 = "Medium Risk"
  /\ assign_risk_category 6 = "Medium Risk"
  /\ assign_risk_category 7 = "High Risk"
  /\ assign_risk_category 9 = "High Risk"
  /\ assign_risk_category 10 = "Critical Risk".
Proof.
  split; [|split; [|repeat split]].
  - intros row. rewrite risk_score_terms.
    pose proof (contract_rules (Contract row)) as Hc.
    pose proof (tenure_rules (tenure row)) as Ht.
    repeat match goal with
           | |- context [if ?b then _ else _] =>
               lazymatch b with
               | context [if _ then _ else _] => fail
               | _ => destruct b
               end
           | H : context [if ?b then _ else _] |- _ =>
               lazymatch b with
               | context [if _ then _ else _] => fail
               | _ => destruct b
               end
           end; lia.
  - intros score. unfold assign_risk_category.
    destruct (Z.geb_spec score 10), (Z.geb_spec score 7),
      (Z.geb_spec score 4); repeat split; intros; first [reflexivity | lia].
Qed.

(** The score 15 is reached: the bound is the sum of the weights of the
    rules that can hold together. *)
Example risk_score_reaches_15 :
  calculate_risk_score
    {| customerID := Some "0001"; SeniorCitizen := Some "No"; Partner := "No";
       Dependents := "No"; tenure := 1; PhoneService := "Yes";
       MultipleLines := "No"; InternetService := "Fiber optic";
       OnlineSecurity := "No"; OnlineBackup := "No";
       DeviceProtection := "No"; TechSupport := "No"; StreamingTV := "No";
       StreamingMovies := "No"; Contract := "Month-to-month";
       PaymentMethod := "Electronic check"; MonthlyCharges := 90;
       TotalCharges := 90; Churn := "No"; Churned := 0;
       TenureGroup := Some "0-12 months"; RevenueAtRisk := 0;
       ServiceCount := 2 |} = 15.
Proof. reflexivity. Qed.

(** ** Normalisation *)

Lemma isin_spec (x : string) (l : list string) :
  pd.isin x l = true <-> In x l.
Proof.
  unfold pd.isin. rewrite existsb_exists. split.
  - intros (y & Hy & Heq). apply String.eqb_eq in Heq. now subst.
  - intros Hx. exists x. split; [assumption | apply String.eqb_refl].
Qed.

Lemma count_services_cons (val : string) (x : list string) :
  count_services (val :: x) = service_indicator val + count_services x.
Proof.
  unfold count_services, service_indicator. cbn [List.filter].
  destruct (pd.isin val _) eqn:Hin; cbn [negb map].
  - apply isin_spec in Hin. cbn [In] in Hin.
    rewrite decide_True; [reflexivity | intuition congruence].
  - rewrite decide_False; [reflexivity|].
    intros H. assert (pd.isin val
      ["No"; "No phone service"; "No internet service"] = true) as Hin'.
    { apply isin_spec. cbn [In]. intuition congruence. }
    congruence.
Qed.

Lemma service_indicator_range (val : string) : 0 <= service_indicator val <= 1.
Proof. unfold service_indicator. destruct (decide _); lia. Qed.

(** C9.  For every record, [ServiceCount] is the number of the nine service
    fields whose value is none of "No", "No phone service" and
    "No internet service"; hence it lies between 0 and 9. *)
Theorem service_count_counts_active_fields (r : RawRow) :
  ServiceCount (prepare_row r)
  = service_indicator (raw_PhoneService r)
    + service_indicator (raw_MultipleLines r)
    + service_indicator (raw_InternetService r)
    + service_indicator (raw_OnlineSecurity r)
    + service_indicator (raw_OnlineBackup r)
    + service_indicator (raw_DeviceProtection r)
    + service_indicator (raw_TechSupport r)
    + service_indicator (raw_StreamingTV r)
    + service_indicator (raw_StreamingMovies r)
  /\ 0 <= ServiceCount (prepare_row r) <= 9.
Proof.
  cbn [prepare_row ServiceCount]. unfold service_cols.
  rewrite !count_services_cons.
  change (count_services []) with 0.
  pose proof (service_indicator_range (raw_PhoneService r)).
  pose proof (service_indicator_range (raw_MultipleLines r)).
  pose proof (service_indicator_range (raw_InternetService r)).
  pose proof (service_indicator_range (raw_OnlineSecurity r)).
  pose proof (service_indicator_range (raw_OnlineBackup r)).
  pose proof (service_indicator_range (raw_DeviceProtection r)).
  pose proof (service_indicator_range (raw_TechSupport r)).
  pose proof (service_indicator_range (raw_StreamingTV r)).
  pose proof (service_indicator_range (raw_StreamingMovies r)).
  lia.
Qed.

(** From 1 to 72 months the group is the bucket of the partition, the
    boundaries 12, 24 and 48 falling in the lower bucket. *)
Lemma tenure_group_from_1 (t : Z) :
  0 < t <= 72 -> tenure_group t = tenure_bucket t.
Proof.
  intros Ht. unfold tenure_group, tenure_bucket, pd.cut, pd.cut_from.
  replace (0 <? t) with true by (symmetry; apply Z.ltb_lt; lia).
  replace (0 <=? t) with true by (symmetry; apply Z.leb_le; lia).
  cbn [andb].
  destruct (Z.leb_spec t 12); [reflexivity|].
  replace (12 <? t) with true by (symmetry; apply Z.ltb_lt; lia).
  cbn [andb].
  destruct (Z.leb_spec t 24); [reflexivity|].
  replace (24 <? t) with true by (symmetry; apply Z.ltb_lt; lia).
  cbn [andb].
  destruct (Z.leb_spec t 48); [reflexivity|].
  replace (48 <? t) with true by (symmetry; apply Z.ltb_lt; lia).
  cbn [andb].
  destruct (Z.leb_spec t 72); [reflexivity | lia].
Qed.

Lemma tenure_group_boundaries :
  tenure_group 12 = Some "0-12 months"
  /\ tenure_group 24 = Some "13-24 months"
  /\ tenure_group 48 = Some "25-48 months"
  /\ tenure_group 72 = Some "49-72 months".
Proof. repeat split. Qed.

(** C4.  A tenure of 0 months is in the first bucket of the partition, and
    the code gives it no group: [pd.cut] leaves the lowest edge out. *)
Theorem tenure_zero_has_no_group :
  tenure_group 0 = None /\ tenure_bucket 0 = Some "0-12 months".
Proof. split; reflexivity. Qed.

(** ** The CLV projector on the store *)

Lemma column_set_column_eq (d : DataFrame) (c : string) (s : Series) :
  column (set_column d c s) c = Some s.
Proof.
  induction d as [|[c' s'] d IH]; cbn.
  - now rewrite String.eqb_refl.
  - destruct (String.eqb c' c) eqn:E; cbn; rewrite E; [reflexivity | exact IH].
Qed.

Lemma column_set_column_ne (d : DataFrame) (c c' : string) (s : Series) :
  c <> c' -> column (set_column d c s) c' = column d c'.
Proof.
  intros Hne. induction d as [|[c0 s0] d IH]; cbn.
  - destruct (String.eqb_spec c c'); [contradiction | reflexivity].
  - destruct (String.eqb_spec c0 c) as [->|Hc0]; cbn.
    + destruct (String.eqb_spec c c'); [contradiction | reflexivity].
    + destruct (String.eqb c0 c'); [reflexivity | exact IH].
Qed.

Lemma columns_set_column (d : DataFrame) (c c' : string) (s : Series) :
  In c' (columns (set_column d c s)) <-> In c' (columns d) \/ c' = c.
Proof.
  unfold columns. induction d as [|[c0 s0] d IH]; cbn.
  - intuition.
  - destruct (String.eqb_spec c0 c) as [->|Hc0]; cbn; [|rewrite IH];
      intuition.
Qed.

Lemma clv_frame_refl (d : DataFrame) : clv_frame d d.
Proof. unfold clv_frame. intuition. Qed.

Lemma clv_frame_set (d d' : DataFrame) (c : string) (s : Series) :
  c = "ProjectedCLV" \/ c = "CLVAtRisk" ->
  clv_frame d d' -> clv_frame d (set_column d' c s).
Proof.
  intros Hc (Hcol & Hin & Hout). repeat split.
  - intros c' H1 H2. rewrite column_set_column_ne; [now apply Hcol|].
    destruct Hc; congruence.
  - intros c' H. apply columns_set_column in H as [H| ->].
    + now apply Hin.
    + tauto.
  - intros c' H. apply columns_set_column. left. now apply Hout.
Qed.

(** A run of [calculate_clv] on a table of numeric charge and churn
    columns: the result is a new table, the copy with the two columns
    written. *)
Lemma calculate_clv_numeric (h : store) (df : loc) (d : DataFrame)
    (pm : option Z) (tc mc ch : list Q) :
  h !! df = Some d ->
  column d "TotalCharges" = Some (NumCol tc) ->
  column d "MonthlyCharges" = Some (NumCol mc) ->
  column d "Churned" = Some (NumCol ch) ->
  let clv :=
    zip_with Qplus tc (map (fun x => (x * inject_Z (default 36%Z pm))%Q) mc) in
  calculate_clv df pm h
  = (Ok (fresh (dom h)),
     <[fresh (dom h) :=
         set_column (set_column d "ProjectedCLV" (NumCol clv))
           "CLVAtRisk" (NumCol (zip_with Qmult clv ch))]> h).
Proof.
  intros Hdf Htc Hmc Hch clv. unfold calculate_clv.
  unfold mbind at 1, M_bind at 1, bind at 1, copy. rewrite Hdf.
  run_step. rewrite Htc. run_step. rewrite Hmc. run_step.
  rewrite column_set_column_eq. run_step.
  rewrite column_set_column_ne by discriminate. rewrite Hch.
  run_step. reflexivity.
Qed.

(** Any run of [calculate_clv]: the store gains one table at a new place,
    within the frame above; a result is that new place, and its table has
    the two columns. *)
Lemma calculate_clv_run (h : store) (df : loc) (d : DataFrame)
    (pm : option Z) :
  h !! df = Some d ->
  exists res d',
    calculate_clv df pm h = (res, <[fresh (dom h) := d']> h)
    /\ clv_frame d d'
    /\ (forall new, res = Ok new ->
          new = fresh (dom h)
          /\ In "ProjectedCLV" (columns d') /\ In "CLVAtRisk" (columns d')).
Proof.
  intros Hdf. unfold calculate_clv.
  unfold mbind at 1, M_bind at 1, bind at 1, copy. rewrite Hdf.
  set (l := fresh (dom h)).
  pose proof (clv_frame_refl d) as Hrefl.
  run_step.
  destruct (column d "TotalCharges") as [total|];
    [|raised Hrefl].
  run_step.
  destruct (column d "MonthlyCharges") as [[mc|mc]|];
    [|raised Hrefl
     |raised Hrefl].
  run_step.
  destruct total as [tc|tc];
    [|raised Hrefl].
  run_step.
  set (clv := NumCol _).
  assert (clv_frame d (set_column d "ProjectedCLV" clv)) as H1
    by (apply clv_frame_set; [now left | exact Hrefl]).
  rewrite column_set_column_eq. run_step.
  rewrite column_set_column_ne by discriminate.
  destruct (column d "Churned") as [[ch|ch]|];
    [|raised H1
     |raised H1].
  run_step. subst clv. run_step.
  eexists _, _. split; [reflexivity|]. split.
  - apply clv_frame_set; [now right | exact H1].
  - intros new [= <-]. split; [reflexivity|].
    split; apply columns_set_column; [left|now right].
    apply columns_set_column. now right.
Qed.

Lemma fresh_not_allocated (h : store) : h !! fresh (dom h) = None.
Proof. apply not_elem_of_dom, is_fresh. Qed.

(** C10, as amended.  [calculate_clv] does not mutate its input.  Whatever
    the run does, every table of the store, the caller's included, is
    afterwards what it was.  When it returns, it returns a table that did
    not exist before, which agrees with the input on every column other
    than [ProjectedCLV] and [CLVAtRisk], has these two columns, and has no
    other column that the input lacks; so on an input without the two
    columns it agrees with the input on every column of the input.  (On an
    input that has one of the two already, the result holds the recomputed
    column in its place: see the counterexample.)  It does return on a
    table whose charge and churn columns are numeric, for a horizon that a
    64-bit integer holds (numpy raises [OverflowError] on a Python integer
    beyond the range of the column it multiplies). *)
Theorem calculate_clv_does_not_mutate_input
    (h : store) (df : loc) (d : DataFrame) (pm : option Z) :
  h !! df = Some d ->
  (forall (l : loc) (t : DataFrame),
      h !! l = Some t -> (calculate_clv df pm h).2 !! l = Some t)
  /\ (forall new : loc,
        (calculate_clv df pm h).1 = Ok new ->
        h !! new = None
        /\ exists d' : DataFrame,
             (calculate_clv df pm h).2 !! new = Some d'
             /\ (forall c, c <> "ProjectedCLV" -> c <> "CLVAtRisk" ->
                           column d' c = column d c)
             /\ (forall c, In c (columns d') <->
                           In c (columns d)
                           \/ c = "ProjectedCLV" \/ c = "CLVAtRisk")
             /\ (~ In "ProjectedCLV" (columns d) ->
                 ~ In "CLVAtRisk" (columns d) ->
                 forall c, In c (columns d) -> column d' c = column d c))
  /\ (forall tc mc ch : list Q,
        column d "TotalCharges" = Some (NumCol tc) ->
        column d "MonthlyCharges" = Some (NumCol mc) ->
        column d "Churned" = Some (NumCol ch) ->
        - 2 ^ 63 <= default 36 pm < 2 ^ 63 ->
        exists new : loc, (calculate_clv df pm h).1 = Ok new).
Proof.
  intros Hdf.
  destruct (calculate_clv_run h df d pm Hdf)
    as (res & d' & Hrun & (Hcol & Hin & Hout) & Hok).
  pose proof (fresh_not_allocated h) as Hfresh.
  rewrite Hrun. cbn [fst snd]. split; [|split].
  - intros l t Hl. rewrite lookup_insert_ne; [exact Hl|].
    intros <-. congruence.
  - intros new Hnew. destruct (Hok new Hnew) as (-> & HP & HC).
    split; [exact Hfresh|]. exists d'.
    split; [apply lookup_insert_eq|]. split; [exact Hcol|]. split.
    + intros c. split; [apply Hin|].
      intros [H|[->| ->]]; [now apply Hout | exact HP | exact HC].
    + intros HnP HnC c Hc. apply Hcol; intros ->; contradiction.
  - intros tc mc ch Htc Hmc Hch _.
    rewrite (calculate_clv_numeric h df d pm tc mc ch Hdf Htc Hmc Hch) in Hrun.
    exists (fresh (dom h)). congruence.
Qed.

(** C10, counterexample.  A table that already has a [ProjectedCLV] column,
    holding 700 for a customer charged 100 so far and 50 a month: the table
    that [calculate_clv] returns holds 1900 in that column, so it does not
    agree with the input on every column the input had.  (The input itself
    still holds 700.) *)
Lemma calculate_clv_overwrites_an_existing_column :
  exists (new : loc) (h' : store) (d' : DataFrame),
    calculate_clv 1%positive None {[ 1%positive := projected_table ]}
    = (Ok new, h')
    /\ h' !! new = Some d'
    /\ In "ProjectedCLV" (columns projected_table)
    /\ column projected_table "ProjectedCLV" = Some (NumCol [700%Q])
    /\ column d' "ProjectedCLV" = Some (NumCol [1900%Q])
    /\ column d' "ProjectedCLV" <> column projected_table "ProjectedCLV"
    /\ h' !! 1%positive = Some projected_table.
Proof.
  eexists _, _, _. split.
  - apply (calculate_clv_numeric {[ 1%positive := projected_table ]}
             1%positive projected_table None _ _ _
             (lookup_singleton_eq _ _) eq_refl eq_refl eq_refl).
  - split; [apply lookup_insert_eq|].
    split; [cbn; tauto|]. split; [reflexivity|].
    split; [reflexivity|]. split; [discriminate|].
    rewrite lookup_insert_ne by (vm_compute; discriminate).
    apply lookup_singleton_eq.
Qed.

(** C10, witness: the store holds one table, of one customer, and
    [calculate_clv] is run on it with the default horizon. *)
Lemma calculate_clv_does_not_mutate_input_witness :
  let h : store := {[ 1%positive := to_frame [example_row "Yes"] ]} in
  let d := to_frame [example_row "Yes"] in
  (forall (l : loc) (t : DataFrame),
      h !! l = Some t -> (calculate_clv 1%positive None h).2 !! l = Some t)
  /\ (forall new : loc,
        (calculate_clv 1%positive None h).1 = Ok new ->
        h !! new = None
        /\ exists d' : DataFrame,
             (calculate_clv 1%positive None h).2 !! new = Some d'
             /\ (forall c, c <> "ProjectedCLV" -> c <> "CLVAtRisk" ->
                           column d' c = column d c)
             /\ (forall c, In c (columns d') <->
                           In c (columns d)
                           \/ c = "ProjectedCLV" \/ c = "CLVAtRisk")
             /\ (~ In "ProjectedCLV" (columns d) ->
                 ~ In "CLVAtRisk" (columns d) ->
                 forall c, In c (columns d) -> column d' c = column d c))
  /\ (forall tc mc ch : list Q,
        column d "TotalCharges" = Some (NumCol tc) ->
        column d "MonthlyCharges" = Some (NumCol mc) ->
        column d "Churned" = Some (NumCol ch) ->
        - 2 ^ 63 <= default 36 None < 2 ^ 63 ->
        exists new : loc, (calculate_clv 1%positive None h).1 = Ok new).
Proof.
  intros h d.
  apply (calculate_clv_does_not_mutate_input h 1%positive d None).
  reflexivity.
Defined.

Lemma lookup_map {A B} (f : A -> B) (l : list A) (i : nat) :
  map f l !! i = f <$> (l !! i).
Proof. apply (list_lookup_fmap f l i). Qed.

(** On the store, in exact arithmetic: the customer charged 100 so far and
    50 a month, not churned, with the horizon given as 36.  The projected
    value is 1900 and the value at risk is 0. *)
Example projected_clv_1900_on_the_store :
  exists (new : loc) (h' : store) (d' : DataFrame),
    calculate_clv 1%positive (Some 36)
      {[ 1%positive := to_frame [example_row "No"] ]} = (Ok new, h')
    /\ h' !! new = Some d'
    /\ cell d' "ProjectedCLV" 0 = Some 1900%Q
    /\ cell d' "CLVAtRisk" 0 = Some 0%Q.
Proof.
  eexists _, _, _. split.
  - apply (calculate_clv_numeric
             {[ 1%positive := to_frame [example_row "No"] ]} 1%positive
             (to_frame [example_row "No"]) (Some 36) _ _ _
             (lookup_singleton_eq _ _) eq_refl eq_refl eq_refl).
  - split; [apply lookup_insert_eq|]. split; reflexivity.
Qed.

(** ** The guards of the script *)

(** With no table, no guarded block runs. *)
Lemma run_stages_no_data (blocks : list (Stage * (list Row -> option Event))) :
  run_stages None blocks = [].
Proof. induction blocks as [|[s block] rest IH]; [reflexivity | exact IH]. Qed.

(** With a table, every event comes from a block run on that table: it is
    what the block returned, or the crash of a block that raised. *)
Lemma run_stages_events (d : list Row)
    (blocks : list (Stage * (list Row -> option Event))) (e : Event) :
  In e (run_stages (Some d) blocks) ->
  exists s block,
    In (s, block) blocks
    /\ (block d = Some e \/ (block d = None /\ e = Crash s)).
Proof.
  induction blocks as [|[s block] rest IH]; cbn [run_stages]; [intros []|].
  destruct (block d) as [e'|] eqn:Hb.
  - intros [<- | Hin].
    + exists s, block. split; [now left | now left].
    + destruct (IH Hin) as (s' & block' & Hin' & H).
      exists s', block'. split; [now right | exact H].
  - intros [<- | []]. exists s, block. split; [now left | now right].
Qed.

(** C8.  If the data source cannot be located, [load_and_prepare_data]
    returns no table and the run consists of the file-not-found signal
    alone: no stage processes anything.  In any run, an event of a stage
    (aggregator, tester, CLV projector, risk scorer, impact estimator) occurs
    only if the source was found, and it comes from that stage's block run on
    the prepared table. *)
Theorem no_data_reaches_no_stage (fs : filesystem) :
  (fs DATA_PATH = None ->
     load_and_prepare_data fs DATA_PATH = None
     /\ main fs = [FileNotFound DATA_PATH])
  /\ (forall (e : Event) (s : Stage),
        In e (main fs) -> stage_of e = Some s ->
        exists raw : list RawRow,
          fs DATA_PATH = Some raw
          /\ load_and_prepare_data fs DATA_PATH = Some (map prepare_row raw)
          /\ exists s' block,
               In (s', block) stages
               /\ (block (map prepare_row raw) = Some e
                   \/ (block (map prepare_row raw) = None /\ e = Crash s'))).
Proof.
  unfold main, load_and_prepare_data. split.
  - intros ->. now rewrite run_stages_no_data.
  - intros e s Hin Hs. destruct (fs DATA_PATH) as [raw|].
    + exists raw. split; [reflexivity|]. split; [reflexivity|].
      destruct Hin as [<- | Hin]; [discriminate Hs|].
      now apply run_stages_events.
    + rewrite run_stages_no_data in Hin.
      destruct Hin as [<- | []]. discriminate Hs.
Qed.

(** With no file the run is the signal alone; with the six customers every
    stage runs, in the order of the script. *)
Example run_without_file : main no_file = [FileNotFound DATA_PATH].
Proof. reflexivity. Qed.

Example run_with_six_customers :
  exists segments tests clv active churned impact,
    main six_file
    = [ Loaded 6; Segments segments; ChiSquare tests; CLV clv;
        RiskScores active churned; BusinessImpact impact ].
Proof. eexists _, _, _, _, _, _. vm_compute. reflexivity. Qed.

(** ** Segment aggregation *)

(** Rounding to decimals: ties go to the even neighbour. *)
Example round_examples :
  pd.rint (1 # 2) = 0 /\ pd.rint (3 # 2) = 2 /\ pd.rint (5 # 2) = 2
  /\ pd.rint (- (1 # 2)) = 0 /\ pd.rint (- (3 # 2)) = -2
  /\ (pd.round 2 (33513315 # 1000000) == 3351 # 100)%Q
  /\ (pd.round 4 (1 # 3) == 3333 # 10000)%Q
  /\ (pd.round 1 ((2 # 3) * 100) == 667 # 10)%Q.
Proof. repeat split; vm_compute; reflexivity. Qed.

Lemma insert_key_In (k x : string) (l : list string) :
  In x (pd.insert_key k l) <-> x = k \/ In x l.
Proof.
  induction l as [|y l IH]; cbn; [intuition|].
  destruct (String.compare k y) eqn:Hc; cbn.
  - apply String.compare_eq_iff in Hc. subst. intuition.
  - intuition.
  - rewrite IH. intuition.
Qed.

Lemma unique_In (x : string) (l : list string) :
  In x (pd.unique l) <-> In x l.
Proof.
  unfold pd.unique. induction l as [|y l IH]; cbn; [reflexivity|].
  rewrite insert_key_In, IH. intuition.
Qed.

Lemma dropna_In {A} (x : A) (l : list (option A)) :
  In x (pd.dropna l) <-> In (Some x) l.
Proof.
  unfold pd.dropna. rewrite in_flat_map. split.
  - intros ([y|] & Hy & Hx); cbn in Hx; [|contradiction].
    destruct Hx as [<- | []]. exact Hy.
  - intros H. exists (Some x). split; [exact H | now left].
Qed.

(** A key of [groupby] on a column of strings is the value of some row,
    which is in its group. *)
Lemma group_keys_member (df : list Row) (column : Column) (k : string) :
  col_categories column = None ->
  In k (group_keys df column) ->
  exists r, In r (group df column k) /\ column r = Some k.
Proof.
  unfold group_keys. intros ->. rewrite unique_In, dropna_In, in_map_iff.
  intros (r & Hr & Hin). exists r. split; [|exact Hr].
  unfold group. apply filter_In. split; [exact Hin|].
  rewrite Hr. apply String.eqb_refl.
Qed.

(** Rounding respects equality of rationals, and rounds 0 to 0. *)
Lemma rint_comp (x y : Q) : (x == y)%Q -> pd.rint x = pd.rint y.
Proof.
  intros H. unfold pd.rint. rewrite (Qfloor_comp x y H).
  assert (x - inject_Z (Qfloor y) == y - inject_Z (Qfloor y))%Q as H'
    by (rewrite H; reflexivity).
  now rewrite (Qcompare_comp _ _ H' (1 # 2) (1 # 2) (Qeq_refl _)).
Qed.

Lemma round_zero (n : nat) (x : Q) : (x == 0)%Q -> (pd.round n x == 0)%Q.
Proof.
  intros H. unfold pd.round.
  set (scale := inject_Z (10 ^ Z.of_nat n)).
  rewrite (rint_comp (x * scale) 0); [|rewrite H; ring].
  change (pd.rint 0) with 0. unfold Qdiv. ring.
Qed.

Lemma Qsum_zero (l : list Q) :
  (forall x, In x l -> (x == 0)%Q) -> (Qsum l == 0)%Q.
Proof.
  induction l as [|x l IH]; intros H; cbn; [reflexivity|].
  rewrite (H x) by now left. rewrite IH; [ring|].
  intros y Hy. apply H. now right.
Qed.

(** In the prepared table the per-record revenue at risk is the monthly
    charge of a churned customer and 0 for the others. *)
Lemma prepared_revenue_at_risk (raw : list RawRow) (r : Row) :
  In r (map prepare_row raw) ->
  RevenueAtRisk r = (MonthlyCharges r * inject_Z (Churned r))%Q
  /\ (Churned r = 0 \/ Churned r = 1).
Proof.
  rewrite in_map_iff. intros (x & <- & _). cbn. split; [reflexivity|].
  destruct (String.eqb (raw_Churn x) "Yes"); [now right | now left].
Qed.

Lemma group_incl (df : list Row) (column : Column) (k : string) (r : Row) :
  In r (group df column k) -> In r df.
Proof. unfold group. rewrite filter_In. tauto. Qed.

(** ** Impact estimate *)

(** On a non-negative number [int] is the floor. *)
Lemma py_int_floor (x : Q) : (0 <= x)%Q -> py_int x = Qfloor x.
Proof.
  destruct x as [n d]. unfold Qle, py_int, Qfloor. cbn. intros H.
  apply Z.quot_div_nonneg; lia.
Qed.

Lemma py_int_nonneg (x : Q) : (0 <= x)%Q -> 0 <= py_int x.
Proof.
  intros H. rewrite py_int_floor by exact H.
  change 0 with (Qfloor 0). now apply Qfloor_resp_le.
Qed.

Lemma len_nonneg {A} (t : list A) : 0 <= len t.
Proof. unfold len. lia. Qed.

(** ** Chi-square test *)


Section Crosstab.

Variable xs : list (string * string).

Lemma count_pair_nonneg (a b : string) : 0 <= count_pair xs a b.
Proof. unfold count_pair. lia. Qed.

Lemma count_pair_pos (a b : string) : In (a, b) xs -> 1 <= count_pair xs a b.
Proof.
  intros H. unfold count_pair.
  assert (In (a, b) (List.filter
            (fun p => String.eqb (fst p) a && String.eqb (snd p) b) xs)) as Hf.
  { apply filter_In. split; [exact H|]. cbn. now rewrite !String.eqb_refl. }
  destruct (List.filter _ xs); [destruct Hf | cbn; lia].
Qed.

Lemma row_keys_In (a : string) :
  In a (row_keys xs) <-> exists b, In (a, b) xs.
Proof.
  unfold row_keys. rewrite unique_In, in_map_iff. split.
  - intros ([a' b] & <- & H). now exists b.
  - intros (b & H). now exists (a, b).
Qed.

Lemma col_keys_In (b : string) :
  In b (col_keys xs) <-> exists a, In (a, b) xs.
Proof.
  unfold col_keys. rewrite unique_In, in_map_iff. split.
  - intros ([a b'] & <- & H). now exists a.
  - intros (a & H). now exists (a, b).
Qed.

Lemma crosstab_shape_pos :
  xs <> [] -> 0 < len (row_keys xs) /\ 0 < len (col_keys xs).
Proof.
  intros Hxs.
  assert (exists a b, In (a, b) xs) as (a & b & Hab).
  { destruct xs as [|[a b] xs']; [contradiction|]. exists a, b. now left. }
  assert (In a (row_keys xs)) as Ha by (apply row_keys_In; now exists b).
  assert (In b (col_keys xs)) as Hb by (apply col_keys_In; now exists a).
  unfold len.
  destruct (row_keys xs) as [|a' rs]; [destruct Ha|].
  destruct (col_keys xs) as [|b' cs]; [destruct Hb|].
  rewrite !length_cons. lia.
Qed.

Lemma crosstab_nrows : nrows (crosstab_of xs) = len (row_keys xs).
Proof. unfold nrows, crosstab_of, len. now rewrite length_map. Qed.

Lemma crosstab_ncols :
  xs <> [] -> ncols (crosstab_of xs) = len (col_keys xs).
Proof.
  intros Hxs. destruct (crosstab_shape_pos Hxs) as [Hr _].
  unfold crosstab_of. destruct (row_keys xs); [unfold len in Hr; simpl in Hr; lia|].
  cbn. unfold len. now rewrite length_map.
Qed.


Lemma Zsum_nonneg (l : list Z) : (forall x, In x l -> 0 <= x) -> 0 <= Zsum l.
Proof.
  induction l as [|x l IH]; intros H; [cbn; lia|].
  rewrite Zsum_cons. specialize (H x (or_introl eq_refl)) as Hx.
  assert (0 <= Zsum l) by (apply IH; intros y Hy; apply H; now right). lia.
Qed.

Lemma Zsum_pos (l : list Z) (y : Z) :
  (forall x, In x l -> 0 <= x) -> In y l -> 0 < y -> 0 < Zsum l.
Proof.
  induction l as [|x l IH]; intros H Hy Hpos; [destruct Hy|].
  rewrite Zsum_cons. specialize (H x (or_introl eq_refl)) as Hx.
  assert (0 <= Zsum l) by (apply Zsum_nonneg; intros z Hz; apply H; now right).
  destruct Hy as [-> | Hy]; [lia|].
  assert (0 < Zsum l) by (apply IH; auto; intros z Hz; apply H; now right).
  lia.
Qed.

(** Every row total, every column total and the grand total of the table
    are positive: each key was observed. *)
Lemma crosstab_row_sums_pos (ri : Z) :
  In ri (row_sums (crosstab_of xs)) -> 0 < ri.
Proof.
  unfold row_sums, crosstab_of. rewrite map_map, in_map_iff.
  intros (a & <- & Ha). apply row_keys_In in Ha as (b & Hab).
  apply (Zsum_pos _ (count_pair xs a b)).
  - intros x (b' & <- & _)%in_map_iff. apply count_pair_nonneg.
  - apply in_map_iff. exists b. split; [reflexivity|].
    apply col_keys_In. now exists a.
  - pose proof (count_pair_pos a b Hab). lia.
Qed.

Lemma crosstab_cell (a : string) (j : nat) :
  (j < length (col_keys xs))%nat ->
  nth j (map (fun b => count_pair xs a b) (col_keys xs)) 0
  = count_pair xs a (nth j (col_keys xs) "").
Proof.
  intros Hj.
  rewrite (nth_indep _ 0 (count_pair xs a "")) by now rewrite length_map.
  apply (map_nth (fun b => count_pair xs a b)).
Qed.

Lemma crosstab_col_sums_pos (cj : Z) :
  xs <> [] -> In cj (col_sums (crosstab_of xs)) -> 0 < cj.
Proof.
  intros Hxs. unfold col_sums. rewrite (crosstab_ncols Hxs).
  unfold len. rewrite Nat2Z.id, in_map_iff.
  intros (j & <- & Hj). apply in_seq in Hj as [_ Hj]. cbn in Hj.
  unfold crosstab_of. rewrite map_map.
  set (b := nth j (col_keys xs) "").
  assert (In b (col_keys xs)) as Hb by now apply nth_In.
  apply col_keys_In in Hb as (a & Hab).
  apply (Zsum_pos _ (count_pair xs a b)).
  - intros x (a' & <- & _)%in_map_iff. rewrite crosstab_cell by exact Hj.
    apply count_pair_nonneg.
  - apply in_map_iff. exists a. split.
    + now apply crosstab_cell.
    + apply row_keys_In. now exists b.
  - pose proof (count_pair_pos a b Hab). lia.
Qed.

Lemma crosstab_total_pos : xs <> [] -> 0 < total (crosstab_of xs).
Proof.
  intros Hxs. unfold total.
  destruct (crosstab_shape_pos Hxs) as [Hr _].
  destruct (row_sums (crosstab_of xs)) as [|r rs] eqn:E.
  - unfold row_sums, crosstab_of in E. rewrite map_map in E.
    destruct (row_keys xs); [unfold len in Hr; simpl in Hr; lia|].
    discriminate E.
  - apply (Zsum_pos _ r).
    + intros x Hx. rewrite <- E in Hx.
      apply crosstab_row_sums_pos in Hx. lia.
    + now left.
    + apply crosstab_row_sums_pos. rewrite E. now left.
Qed.

End Crosstab.

Lemma existsb_none {A} (f : A -> bool) (l : list A) :
  (forall x, In x l -> f x = false) -> existsb f l = false.
Proof.
  intros H. destruct (existsb f l) eqn:E; [|reflexivity].
  apply existsb_exists in E as (x & Hx & Hfx). rewrite (H x Hx) in Hfx.
  discriminate.
Qed.

(** The three checks of [chi2_contingency] pass on the cross-tabulation of
    a table that is not empty. *)
Lemma crosstab_no_negative (xs : list (string * string)) :
  existsb (existsb (fun o => o <? 0)) (crosstab_of xs) = false.
Proof.
  apply existsb_none. intros r (a & <- & _)%in_map_iff.
  apply existsb_none. intros o (b & <- & _)%in_map_iff.
  apply Z.ltb_ge, count_pair_nonneg.
Qed.

Lemma crosstab_size (xs : list (string * string)) :
  xs <> [] ->
  (nrows (crosstab_of xs) * ncols (crosstab_of xs) =? 0) = false.
Proof.
  intros Hxs. rewrite crosstab_nrows, crosstab_ncols by exact Hxs.
  destruct (crosstab_shape_pos xs Hxs). apply Z.eqb_neq. nia.
Qed.

Lemma expected_positive (ri cj n : Z) :
  0 < ri -> 0 < cj -> 0 < n ->
  (0 < inject_Z ri * inject_Z cj / inject_Z n)%Q.
Proof.
  intros Hr Hc Hn.
  assert (0 < inject_Z ri)%Q
    by (change 0%Q with (inject_Z 0); now rewrite <- Zlt_Qlt).
  assert (0 < inject_Z cj)%Q
    by (change 0%Q with (inject_Z 0); now rewrite <- Zlt_Qlt).
  assert (0 < inject_Z n)%Q
    by (change 0%Q with (inject_Z 0); now rewrite <- Zlt_Qlt).
  apply Qlt_shift_div_l; [assumption|].
  rewrite Qmult_0_l. now apply Qmult_lt_0_compat.
Qed.

Lemma crosstab_expected_nonzero (xs : list (string * string)) :
  xs <> [] ->
  existsb (existsb (fun e => Qeq_bool e 0))
    (expected_freq (crosstab_of xs)) = false.
Proof.
  intros Hxs. unfold expected_freq.
  apply existsb_none. intros r (ri & <- & Hri)%in_map_iff.
  apply existsb_none. intros e (cj & <- & Hcj)%in_map_iff.
  apply crosstab_row_sums_pos in Hri.
  apply crosstab_col_sums_pos in Hcj; [|exact Hxs].
  pose proof (crosstab_total_pos xs Hxs) as Hn.
  pose proof (expected_positive ri cj _ Hri Hcj Hn) as Hpos.
  destruct (Qeq_bool _ 0) eqn:E; [|reflexivity].
  apply Qeq_bool_eq in E. rewrite E in Hpos. now apply Qlt_irrefl in Hpos.
Qed.

(** The result of [chi2_contingency] on such a table. *)
Lemma chi2_contingency_crosstab (xs : list (string * string)) :
  xs <> [] ->
  let observed := crosstab_of xs in
  let expected := expected_freq observed in
  let dof := (nrows observed - 1) * (ncols observed - 1) in
  chi2_contingency observed
  = Some (if dof =? 0 then 0%Q
          else if dof =? 1
               then power_divergence
                      (yates_correct (to_float observed) expected) expected
               else power_divergence (to_float observed) expected,
          dof).
Proof.
  intros Hxs observed expected dof. unfold chi2_contingency.
  fold observed. fold expected.
  unfold observed at 1. rewrite crosstab_no_negative.
  unfold observed at 1 2. rewrite crosstab_size by exact Hxs.
  unfold expected at 1, observed at 1.
  rewrite crosstab_expected_nonzero by exact Hxs.
  replace (nrows observed * ncols observed
           - (nrows observed + ncols observed) + 2 - 1) with dof
    by (unfold dof; ring).
  destruct (dof =? 0); [reflexivity|].
  destruct (dof =? 1); reflexivity.
Qed.

(** With a single row or a single column the expected counts are the
    observed ones, and Pearson's statistic is 0. *)
Lemma pearson_term_same (o e : Q) : (o == e)%Q -> (pearson_term o e == 0)%Q.
Proof. intros H. unfold pearson_term, Qdiv. rewrite H. ring. Qed.

Lemma sum_cells_zero (f : Q -> Q -> Q) (obs exp : list (list Q)) :
  (forall ro re o e,
      In (ro, re) (combine obs exp) -> In (o, e) (combine ro re) ->
      (f o e == 0)%Q) ->
  (sum_cells f obs exp == 0)%Q.
Proof.
  intros H. unfold sum_cells. apply Qsum_zero.
  intros x ([ro re] & <- & Hr)%in_map_iff. apply Qsum_zero.
  intros y ([o e] & <- & Hc)%in_map_iff. now apply (H ro re).
Qed.

Lemma combine_map {A B C} (f : A -> B) (g : A -> C) (l : list A) :
  combine (map f l) (map g l) = map (fun x => (f x, g x)) l.
Proof. induction l as [|x l IH]; cbn; [reflexivity | now rewrite IH]. Qed.

Lemma map_nth_seq {A B} (g : A -> B) (l : list A) (d : A) :
  map (fun j => g (nth j l d)) (seq 0 (length l)) = map g l.
Proof.
  induction l as [|x l IH]; [reflexivity|].
  cbn [length seq map nth]. rewrite <- seq_shift, map_map. cbn [nth].
  now rewrite IH.
Qed.

Lemma Zsum_map_add_0 {A} (f : A -> Z) (l : list A) :
  Zsum (map (fun a => f a + 0) l) = Zsum (map f l).
Proof.
  induction l as [|x l IH]; [reflexivity|].
  cbn [map]. rewrite !Zsum_cons, IH. lia.
Qed.

Lemma expected_of_total (x n : Z) :
  0 < n -> (inject_Z x * inject_Z n / inject_Z n == inject_Z x)%Q.
Proof.
  intros Hn. apply Qdiv_mult_l.
  change 0%Q with (inject_Z 0). rewrite inject_Z_injective. lia.
Qed.

Lemma pearson_single_row (xs : list (string * string)) :
  xs <> [] -> len (row_keys xs) = 1 ->
  (pearson_statistic (crosstab_of xs) == 0)%Q.
Proof.
  intros Hxs Hone.
  pose proof (crosstab_total_pos xs Hxs) as Hn.
  unfold pearson_statistic, expected_freq.
  unfold col_sums. rewrite (crosstab_ncols xs Hxs).
  unfold len at 1. rewrite Nat2Z.id.
  unfold total in *. unfold row_sums in *. unfold crosstab_of in *.
  destruct (row_keys xs) as [|a [|a' rs]];
    [discriminate Hone | | unfold len in Hone; cbn [length] in Hone; lia].
  cbn [map] in *. set (row := map _ (col_keys xs)) in *.
  replace (length (col_keys xs)) with (length row)
    by (unfold row; apply length_map).
  rewrite (map_nth_seq (fun x => Zsum [x]) row 0).
  apply sum_cells_zero. cbn [to_float map combine].
  intros ro re o e [[= <- <-] | []] Hoe.
  rewrite map_map, combine_map in Hoe.
  apply in_map_iff in Hoe as (x & [= <- <-] & _).
  apply pearson_term_same.
  rewrite !Zsum_cons in *. change (Zsum []) with 0 in *.
  rewrite !Z.add_0_r in *. rewrite Qmult_comm.
  symmetry. now apply expected_of_total.
Qed.

Lemma pearson_single_column (xs : list (string * string)) :
  xs <> [] -> len (col_keys xs) = 1 ->
  (pearson_statistic (crosstab_of xs) == 0)%Q.
Proof.
  intros Hxs Hone.
  pose proof (crosstab_total_pos xs Hxs) as Hn.
  unfold pearson_statistic, expected_freq.
  unfold col_sums. rewrite (crosstab_ncols xs Hxs), Hone.
  unfold total in *. unfold row_sums in *. unfold crosstab_of in *.
  destruct (col_keys xs) as [|b [|b' cs]];
    [discriminate Hone | | unfold len in Hone; cbn [length] in Hone; lia].
  cbn [map seq Z.to_nat Pos.to_nat Pos.iter_op Nat.add] in *.
  rewrite !map_map in *. cbn [nth map] in *.
  apply sum_cells_zero. unfold to_float. rewrite map_map, combine_map.
  intros ro re o e (a & [= <- <-] & _)%in_map_iff [[= <- <-] | []].
  apply pearson_term_same. cbn [map].
  rewrite map_map. cbn [nth].
  change (fun x : string => Zsum [count_pair xs x b])
    with (fun x : string => count_pair xs x b + 0) in Hn.
  rewrite (Zsum_map_add_0 (fun a => count_pair xs a b)) in *.
  rewrite Z.add_0_r.
  symmetry. now apply expected_of_total.
Qed.

(** C7, as amended.  For every pair of categorical columns of a table in
    which some row has both values, [chi_square_test] cross-tabulates the
    two columns over their observed values (one row per value of the first,
    one column per value of the second, each cell the count of the records
    holding that pair) and returns, with the degrees of freedom
    [(rows - 1) * (cols - 1)], Pearson's chi-square statistic of the table
    against its expected counts under independence, except when the degrees
    of freedom are 1 (a 2 x 2 table): the statistic is then computed from
    the observed counts after Yates' correction for continuity. *)
Theorem chi_square_test_statistic
    (df : list Row) (column1 column2 : Column) :
  paired df column1 column2 <> [] ->
  let xs := paired df column1 column2 in
  let observed := crosstab df column1 column2 in
  let expected := expected_freq observed in
  nrows observed = len (row_keys xs)
  /\ ncols observed = len (col_keys xs)
  /\ (forall (i j : nat) (a b : string),
         row_keys xs !! i = Some a -> col_keys xs !! j = Some b ->
         (observed !! i) ≫= (fun r => r !! j) = Some (count_pair xs a b))
  /\ exists (chi2 : Q) (dof : Z),
       chi_square_test df column1 column2 = Some (chi2, dof)
       /\ dof = (nrows observed - 1) * (ncols observed - 1)
       /\ (dof <> 1 -> (chi2 == pearson_statistic observed)%Q)
       /\ (dof = 1 ->
           chi2 = power_divergence
                    (yates_correct (to_float observed) expected) expected).
Proof.
  intros Hxs xs observed expected.
  split; [apply crosstab_nrows|]. split; [now apply crosstab_ncols|]. split.
  - intros i j a b Ha Hb. unfold observed, crosstab, crosstab_of.
    fold xs. rewrite lookup_map, Ha. cbn [fmap option_fmap option_map].
    cbn [mbind option_bind]. now rewrite lookup_map, Hb.
  - unfold chi_square_test. fold observed.
    pose proof (chi2_contingency_crosstab xs Hxs) as Hrun.
    cbv zeta in Hrun. fold xs in Hrun.
    change (crosstab_of xs) with observed in Hrun. fold expected in Hrun.
    set (dof := (nrows observed - 1) * (ncols observed - 1)) in *.
    eexists _, dof. split; [exact Hrun|]. split; [reflexivity|].
    destruct (Z.eqb_spec dof 0) as [H0|H0].
    + split; [|lia]. intros _.
      assert (len (row_keys xs) = 1 \/ len (col_keys xs) = 1) as [H1|H1].
      { unfold dof, observed, crosstab in H0. fold xs in H0.
        rewrite crosstab_nrows, crosstab_ncols in H0 by exact Hxs. nia. }
      * symmetry. now apply pearson_single_row.
      * symmetry. now apply pearson_single_column.
    + destruct (Z.eqb_spec dof 1) as [H1|H1].
      * split; [contradiction | reflexivity].
      * split; [reflexivity | contradiction].
Qed.

(** C7, counterexample.  Contract against churn over the six customers is
    the 2 x 2 table [[1, 4], [1, 0]]: the statistic returned is 0.15, and
    Pearson's statistic of the table is 2.4. *)
Lemma chi_square_of_2x2_table_is_not_pearson :
  let observed := crosstab six_customers col_Contract col_Churn in
  observed = [[1; 4]; [1; 0]]
  /\ exists chi2 : Q,
       chi_square_test six_customers col_Contract col_Churn = Some (chi2, 1)
       /\ (chi2 == 3 # 20)%Q
       /\ (pearson_statistic observed == 12 # 5)%Q
       /\ ~ (chi2 == pearson_statistic observed)%Q.
Proof.
  split; [vm_compute; reflexivity|].
  eexists. split; [vm_compute; reflexivity|].
  split; [vm_compute; reflexivity|]. split; [vm_compute; reflexivity|].
  vm_compute. discriminate.
Qed.

(** C7, witness: contract against churn over the six customers. *)
Lemma chi_square_test_statistic_witness :
  let df := six_customers in
  let xs := paired df col_Contract col_Churn in
  let observed := crosstab df col_Contract col_Churn in
  let expected := expected_freq observed in
  nrows observed = len (row_keys xs)
  /\ ncols observed = len (col_keys xs)
  /\ (forall (i j : nat) (a b : string),
         row_keys xs !! i = Some a -> col_keys xs !! j = Some b ->
         (observed !! i) ≫= (fun r => r !! j) = Some (count_pair xs a b))
  /\ exists (chi2 : Q) (dof : Z),
       chi_square_test df col_Contract col_Churn = Some (chi2, dof)
       /\ dof = (nrows observed - 1) * (ncols observed - 1)
       /\ (dof <> 1 -> (chi2 == pearson_statistic observed)%Q)
       /\ (dof = 1 ->
           chi2 = power_divergence
                    (yates_correct (to_float observed) expected) expected).
Proof.
  intros df xs observed expected.
  apply (chi_square_test_statistic df col_Contract col_Churn).
  vm_compute. discriminate.
Defined.

(* ===================================================================== *)
(** * The claims on computed values, in the arithmetic of the machine *)
(* ===================================================================== *)

(** ** 64-bit integers *)

Lemma wrap_fits (n : Z) : int64.fits n = true -> int64.wrap n = n.
Proof.
  unfold int64.fits, int64.wrap. intros [H1 H2]%andb_prop.
  apply Z.leb_le in H1. apply Z.ltb_lt in H2.
  rewrite Z.mod_small; lia.
Qed.

Lemma wrap_range (n : Z) : int64.fits (int64.wrap n) = true.
Proof.
  unfold int64.fits, int64.wrap.
  pose proof (Z.mod_pos_bound (n + 2 ^ 63) (2 ^ 64) ltac:(lia)) as H.
  apply andb_true_intro. split; [apply Z.leb_le | apply Z.ltb_lt]; lia.
Qed.

Lemma wrap_add_wrap (a b : Z) :
  int64.wrap (a + int64.wrap b) = int64.wrap (a + b).
Proof.
  unfold int64.wrap.
  replace (a + ((b + 2 ^ 63) mod 2 ^ 64 - 2 ^ 63) + 2 ^ 63)
    with (a + (b + 2 ^ 63) mod 2 ^ 64) by lia.
  rewrite Zplus_mod_idemp_r. do 2 f_equal. lia.
Qed.

(** ** Doubles *)

Lemma digits2_pos_shift52 (m : positive) :
  digits2_pos (4503599627370496 * m) = (digits2_pos m + 52)%positive.
Proof.
  rewrite Pos.mul_comm, !Pos.mul_xO_r, Pos.mul_1_r.
  cbn [digits2_pos]. lia.
Qed.

Lemma shr_52 (m : positive) :
  SpecFloat.iter_pos shr_1 52
    {| shr_m := Z.pos (4503599627370496 * m);
       shr_r := false; shr_s := false |}
  = {| shr_m := Z.pos m; shr_r := false; shr_s := false |}.
Proof. reflexivity. Qed.

(** The product of a double and 1 is that double: the mantissa, shifted by
    the 52 bits of the mantissa of 1, is shifted back without rounding. *)
Lemma SFmul_one (x : spec_float) :
  valid_binary x = true ->
  SFmul prec emax x (S754_finite false 4503599627370496 (-52)) = x.
Proof.
  destruct x as [s|s| |s m e]; cbn [SFmul]; intros Hv.
  - now destruct s.
  - now destruct s.
  - reflexivity.
  - cbn [SpecFloat.valid_binary] in Hv.
    unfold bounded, canonical_mantissa in Hv.
    apply andb_prop in Hv as [Hc He]. apply Z.eqb_eq in Hc.
    rewrite Pos.mul_comm.
    unfold binary_round_aux, shr_fexp.
    cbn [Zdigits2]. rewrite digits2_pos_shift52.
    replace (Z.pos (digits2_pos m + 52) + (e + -52))
      with (Z.pos (digits2_pos m) + e) by lia.
    rewrite Hc.
    replace (e - (e + -52)) with 52 by lia.
    cbn [shr shr_record_of_loc].
    rewrite shr_52.
    cbn [shr_m loc_of_shr_record round_nearest_even Zdigits2
           shr_record_of_loc].
    replace (e + -52 + 52) with e by lia.
    rewrite Hc, Z.sub_diag. cbn [shr shr_m].
    rewrite He. now destruct s.
Qed.

Lemma float_mul_one (x : float) : (x * 1)%float = x.
Proof.
  apply Prim2SF_inj. rewrite mul_spec.
  change (Prim2SF 1) with (S754_finite false 4503599627370496 (-52)).
  apply SFmul_one, Prim2SF_valid.
Qed.

(** The product of a finite double and 0 is a zero. *)
Lemma float_mul_zero (x : float) :
  is_finite x = true -> ((x * 0)%float =? 0)%float = true.
Proof.
  intros Hf. rewrite FloatAxioms.eqb_spec, mul_spec.
  change (Prim2SF 0) with (S754_zero false).
  unfold is_finite, is_nan, is_infinity in Hf.
  rewrite !FloatAxioms.eqb_spec, abs_spec in Hf.
  destruct (Prim2SF x) as [s|s| |s m e]; try reflexivity; cbn in Hf.
  - destruct s; discriminate Hf.
  - discriminate Hf.
Qed.

(** A double that compares equal to 0 is one of the two zeros, and a zero
    is rounded to a zero. *)
Lemma float_zero_cases (x : float) :
  (x =? 0)%float = true -> x = 0%float \/ x = (- 0)%float.
Proof.
  intros H. rewrite FloatAxioms.eqb_spec in H.
  change (Prim2SF 0) with (S754_zero false) in H.
  rewrite <- (SF2Prim_Prim2SF x).
  destruct (Prim2SF x) as [[]|[]| |[] m e]; cbn in H; try discriminate H;
    [right | left]; reflexivity.
Qed.

Lemma round_zero_double (decimals : nat) (x : float) :
  (decimals <= 4)%nat ->
  (x =? 0)%float = true -> (float64.round decimals x =? 0)%float = true.
Proof.
  intros Hd [-> | ->]%float_zero_cases;
    do 5 (destruct decimals as [|decimals]; [vm_compute; reflexivity|]); lia.
Qed.

(** ** The CLV projector *)

Lemma cell_floats (s : machine.Series) (i : nat) (x : machine.num) :
  machine.cell s i = Some x ->
  machine.floats s !! i = Some (machine.to_float x).
Proof.
  destruct s as [v|v]; cbn [machine.cell machine.floats];
    [rewrite lookup_map|]; destruct (v !! i); cbn; intros [= <-];
    reflexivity.
Qed.

Lemma cell_add (s1 s2 : machine.Series) (i : nat) (x y : machine.num) :
  machine.cell s1 i = Some x -> machine.cell s2 i = Some y ->
  machine.cell (machine.add s1 s2) i = Some (machine.plus x y).
Proof.
  intros H1 H2.
  pose proof (cell_floats s1 i x H1) as F1.
  pose proof (cell_floats s2 i y H2) as F2.
  destruct s1 as [a|a], s2 as [b|b];
    cbn [machine.add machine.cell] in *; rewrite lookup_zip_with;
    try (rewrite F1, F2; cbn [mbind option_bind fmap option_fmap option_map];
         destruct (a !! i), (b !! i); cbn in H1, H2;
         try discriminate; injection H1 as <-; injection H2 as <-;
         reflexivity).
  destruct (a !! i), (b !! i); cbn in H1, H2; try discriminate.
  injection H1 as <-. injection H2 as <-. reflexivity.
Qed.

Lemma cell_mul (s1 s2 : machine.Series) (i : nat) (x y : machine.num) :
  machine.cell s1 i = Some x -> machine.cell s2 i = Some y ->
  machine.cell (machine.mul s1 s2) i = Some (machine.times x y).
Proof.
  intros H1 H2.
  pose proof (cell_floats s1 i x H1) as F1.
  pose proof (cell_floats s2 i y H2) as F2.
  destruct s1 as [a|a], s2 as [b|b];
    cbn [machine.mul machine.cell] in *; rewrite lookup_zip_with;
    try (rewrite F1, F2; cbn [mbind option_bind fmap option_fmap option_map];
         destruct (a !! i), (b !! i); cbn in H1, H2;
         try discriminate; injection H1 as <-; injection H2 as <-;
         reflexivity).
  destruct (a !! i), (b !! i); cbn in H1, H2; try discriminate.
  injection H1 as <-. injection H2 as <-. reflexivity.
Qed.

Lemma cell_mul_scalar (s s' : machine.Series) (k : Z) (c : machine.num)
    (i : nat) (x : machine.num) :
  machine.scalar s k = Some c ->
  machine.mul_scalar s k = Some s' ->
  machine.cell s i = Some x ->
  machine.cell s' i = Some (machine.times x c).
Proof.
  unfold machine.mul_scalar. intros Hc. rewrite Hc.
  cbn [mbind option_bind]. intros [= <-].
  destruct s as [a|a]; cbn [machine.scalar machine.cell] in *.
  - destruct (int64.fits k); [|discriminate Hc]. injection Hc as <-.
    rewrite lookup_map. destruct (a !! i); cbn; intros [= <-]. reflexivity.
  - destruct (float64.of_pyint k) as [f|]; [|discriminate Hc].
    cbn in Hc. injection Hc as <-. rewrite lookup_map.
    destruct (a !! i); cbn; intros [= <-]. reflexivity.
Qed.

(** The product of two numbers of which the first is a stored 64-bit
    integer or a double, by the integer 1. *)
Lemma times_one (x : machine.num) :
  match x with machine.Int n => int64.fits n = true | _ => True end ->
  machine.times x (machine.Int 1) = x.
Proof.
  destruct x as [n|p]; cbn [machine.times machine.to_float]; intros H.
  - now rewrite Z.mul_1_r, wrap_fits.
  - change (float64.of_int 1) with 1%float. now rewrite float_mul_one.
Qed.

(** C3, as amended.  For every record and every horizon (36 months when none
    is given) that the dtype of the monthly charges holds, [calculate_clv]
    returns, and the record's [ProjectedCLV] is its total charge plus its
    monthly charge times the horizon in the arithmetic of the columns:
    doubles when a column is float64, and 64-bit integers that wrap around
    when both are int64, so that the value is the exact one whenever that
    fits in 64 bits.  Its [CLVAtRisk] is the product of that value and the
    churn indicator: the value itself for a churned record (indicator 1),
    and for a record that is not churned (indicator 0) the integer 0, or a
    zero double when the projected value is finite.  When the dtype does
    not hold the horizon (an int64 column and a horizon beyond 64 bits, a
    float64 column and a horizon beyond the doubles), [calculate_clv] raises
    [OverflowError]. *)
Theorem calculate_clv_projection
    (TotalCharges MonthlyCharges Churned : machine.Series) (pm : option Z)
    (i : nat) (total monthly churned : machine.num) :
  machine.cell TotalCharges i = Some total ->
  machine.cell MonthlyCharges i = Some monthly ->
  machine.cell Churned i = Some churned ->
  let months := default 36 pm in
  match machine.scalar MonthlyCharges months with
  | None =>
      machine.calculate_clv TotalCharges MonthlyCharges Churned pm = None
  | Some horizon =>
      exists (clv : machine.CLV) (projected_clv clv_at_risk : machine.num),
        machine.calculate_clv TotalCharges MonthlyCharges Churned pm
        = Some clv
        /\ machine.cell (machine.ProjectedCLV clv) i = Some projected_clv
        /\ projected_clv
           = machine.plus total (machine.times monthly horizon)
        /\ (forall t m : Z,
              total = machine.Int t -> monthly = machine.Int m ->
              int64.fits (t + m * months) = true ->
              projected_clv = machine.Int (t + m * months))
        /\ machine.cell (machine.CLVAtRisk clv) i = Some clv_at_risk
        /\ clv_at_risk = machine.times projected_clv churned
        /\ (churned = machine.Int 1 -> clv_at_risk = projected_clv)
        /\ (churned = machine.Int 0 ->
            match projected_clv with
            | machine.Int _ => clv_at_risk = machine.Int 0
            | machine.Float p =>
                is_finite p = true ->
                exists z : float,
                  clv_at_risk = machine.Float z /\ (z =? 0)%float = true
            end)
  end.
Proof.
  intros Ht Hm Hc months.
  unfold machine.calculate_clv. fold months.
  destruct (machine.scalar MonthlyCharges months) as [horizon|] eqn:Hs.
  2:{ unfold machine.mul_scalar. rewrite Hs. reflexivity. }
  destruct (machine.mul_scalar MonthlyCharges months) as [projected|] eqn:Hp.
  2:{ unfold machine.mul_scalar in Hp. rewrite Hs in Hp. discriminate Hp. }
  cbn [mbind option_bind].
  pose proof (cell_mul_scalar _ _ _ _ i monthly Hs Hp Hm) as Hpi.
  pose proof (cell_add _ _ i _ _ Ht Hpi) as Hclv.
  pose proof (cell_mul _ _ i _ _ Hclv Hc) as Hrisk.
  set (p := machine.plus total (machine.times monthly horizon)) in *.
  assert (match p with
          | machine.Int n => int64.fits n = true
          | _ => True
          end) as Hfits.
  { unfold p. destruct total, (machine.times monthly horizon);
      cbn [machine.plus]; auto using wrap_range. }
  eexists _, p, (machine.times p churned).
  split; [reflexivity|]. cbn [machine.ProjectedCLV machine.CLVAtRisk].
  split; [exact Hclv|]. split; [reflexivity|]. split; [|split; [exact Hrisk|]].
  - intros t m -> -> Hfit.
    destruct MonthlyCharges as [a|a]; cbn [machine.scalar machine.cell] in *.
    + destruct (int64.fits months); [|discriminate Hs]. injection Hs as <-.
      unfold p. cbn [machine.plus machine.times].
      now rewrite wrap_add_wrap, wrap_fits.
    + destruct (a !! i); discriminate Hm.
  - split; [reflexivity|]. split.
    + intros ->. now apply times_one.
    + intros ->. destruct p as [n|x]; cbn [machine.times machine.to_float].
      * now rewrite Z.mul_0_r.
      * intros Hfin. eexists. split; [reflexivity|].
        change (float64.of_int 0) with 0%float. now apply float_mul_zero.
Qed.

(** C3, witness: the example of the specification with the default
    horizon, total charge 100 and monthly charge 50, as doubles, for a
    churned customer; the projected value and the value at risk are 1900. *)
Lemma calculate_clv_projection_witness :
  exists (clv : machine.CLV) (projected_clv clv_at_risk : machine.num),
    machine.calculate_clv (machine.Float64 [100%float])
      (machine.Float64 [50%float]) (machine.Int64 [1]) None = Some clv
    /\ machine.cell (machine.ProjectedCLV clv) 0 = Some projected_clv
    /\ projected_clv = machine.Float 1900
    /\ machine.cell (machine.CLVAtRisk clv) 0 = Some clv_at_risk
    /\ clv_at_risk = projected_clv.
Proof.
  destruct (calculate_clv_projection (machine.Float64 [100%float])
              (machine.Float64 [50%float]) (machine.Int64 [1]) None 0%nat
              (machine.Float 100) (machine.Float 50) (machine.Int 1)
              eq_refl eq_refl eq_refl)
    as (clv & p & r & Hrun & Hp & Hpv & _ & Hr & _ & Hone & _).
  exists clv, p, r. split; [exact Hrun|]. split; [exact Hp|].
  split; [exact Hpv|]. split; [exact Hr|]. now apply Hone.
Defined.

(** The example of the specification on integer columns, with the horizon
    given as 36 and a customer who is not churned: the projected value is
    1900 and the value at risk is 0. *)
Example projected_clv_1900 :
  machine.calculate_clv (machine.Int64 [100]) (machine.Int64 [50])
    (machine.Int64 [0]) (Some 36)
  = Some {| machine.ProjectedCLV := machine.Int64 [1900];
            machine.CLVAtRisk := machine.Int64 [0] |}.
Proof. reflexivity. Qed.

(** C3, counterexample.  On integer charge columns with the horizon 10^18
    the projected value of the customer charged 100 so far and 50 a month
    is -5340232221128654748, not 100 + 50 * 10^18: the product wraps around
    in 64 bits.  With the horizon 2^63, which no 64-bit integer holds,
    [calculate_clv] raises [OverflowError].  On float columns a monthly
    charge of 10^308 with the horizon 10 projects an infinite value, and
    the value at risk of the customer, who is not churned, is NaN, not 0. *)
Lemma projected_clv_wraps_around_in_64_bits :
  (exists clv : machine.CLV,
     machine.calculate_clv (machine.Int64 [100]) (machine.Int64 [50])
       (machine.Int64 [1]) (Some (10 ^ 18)) = Some clv
     /\ machine.cell (machine.ProjectedCLV clv) 0
        = Some (machine.Int (-5340232221128654748))
     /\ -5340232221128654748 <> 100 + 50 * 10 ^ 18)
  /\ machine.calculate_clv (machine.Int64 [100]) (machine.Int64 [50])
       (machine.Int64 [1]) (Some (2 ^ 63)) = None
  /\ (exists clv : machine.CLV,
        machine.calculate_clv (machine.Float64 [0%float])
          (machine.Float64 [float64.of_int (10 ^ 308)]) (machine.Int64 [0])
          (Some 10) = Some clv
        /\ machine.cell (machine.ProjectedCLV clv) 0
           = Some (machine.Float infinity)
        /\ machine.cell (machine.CLVAtRisk clv) 0 = Some (machine.Float nan)).
Proof.
  split; [|split].
  - eexists. split; [reflexivity|]. split; [reflexivity | discriminate].
  - reflexivity.
  - eexists. split; [reflexivity|]. split; reflexivity.
Qed.

(** ** The segment aggregator *)

(** In the two arithmetics the analysis lists the same segments, with the
    same customer counts and churned counts: they differ in the amounts and
    the rates only. *)
Lemma machine_segments_agree (df : list Row) (column : Column) :
  map (fun s => (machine.seg_index s, machine.seg_TotalCustomers s,
                 machine.seg_Churned s))
      (machine.analyze_churn_by_segment df column)
  = map (fun s => (seg_index s, seg_TotalCustomers s, seg_Churned s))
        (analyze_churn_by_segment df column).
Proof.
  unfold machine.analyze_churn_by_segment, analyze_churn_by_segment.
  rewrite !map_map. reflexivity.
Qed.

(** C5, as amended.  For every segment of the table that
    [analyze_churn_by_segment] returns, the revenue at risk is the product,
    as doubles, of the segment's total revenue and churn rate, rounded to 2
    decimals; the total revenue and the churn rate are the segment's sum of
    the monthly charges and mean of the churn indicator, each rounded to 4
    decimals.  A segment without members, which a categorical column may
    have, has a NaN churn rate and a NaN revenue at risk; a segment of a
    column of strings has members.  With a churn rate of 1 the revenue at
    risk is the total revenue rounded to 2 decimals, and with a churn rate
    of 0 and a finite total revenue it is zero.  The revenue at risk may be
    equal to the sum of the monthly charges of the churned members when the
    churn rate is not 1: see the counterexample. *)
Theorem segment_revenue_at_risk
    (df : list Row) (column : Column) (s : machine.SegmentSummary) :
  In s (machine.analyze_churn_by_segment df column) ->
  let members := group df column (machine.seg_index s) in
  machine.seg_RevenueAtRisk s
  = float64.round 2 (machine.seg_TotalRevenue s * machine.seg_ChurnRate s)%float
  /\ machine.seg_TotalRevenue s
     = float64.round 4 (float64.group_sum (map machine.charge members))
  /\ machine.seg_ChurnRate s
     = float64.round 4 (float64.group_mean (map machine.churned members))
  /\ (members = [] ->
      machine.seg_ChurnRate s = nan /\ machine.seg_RevenueAtRisk s = nan)
  /\ (col_categories column = None -> members <> [])
  /\ (machine.seg_ChurnRate s = 1%float ->
      machine.seg_RevenueAtRisk s
      = float64.round 2 (machine.seg_TotalRevenue s))
  /\ (machine.seg_ChurnRate s = 0%float ->
      is_finite (machine.seg_TotalRevenue s) = true ->
      (machine.seg_RevenueAtRisk s =? 0)%float = true).
Proof.
  unfold machine.analyze_churn_by_segment.
  intros (k & <- & Hk)%in_map_iff.
  cbn [machine.summarize machine.seg_index machine.seg_RevenueAtRisk
         machine.seg_TotalRevenue machine.seg_ChurnRate].
  split; [reflexivity|]. split; [reflexivity|]. split; [reflexivity|].
  split; [|split; [|split]].
  - intros ->. split; reflexivity.
  - intros Hobj Hnil.
    destruct (group_keys_member df column k Hobj Hk) as (r & Hr & _).
    rewrite Hnil in Hr. destruct Hr.
  - intros ->. now rewrite float_mul_one.
  - intros -> Hfin. apply round_zero_double; [lia|].
    now apply float_mul_zero.
Qed.

(** C5, witness: the one-year segment of the five customers. *)
Lemma segment_revenue_at_risk_witness :
  let s := machine.summarize "One year"
             (group revenue_customers col_Contract "One year") in
  let members := group revenue_customers col_Contract (machine.seg_index s) in
  machine.seg_RevenueAtRisk s
  = float64.round 2 (machine.seg_TotalRevenue s * machine.seg_ChurnRate s)%float
  /\ machine.seg_TotalRevenue s
     = float64.round 4 (float64.group_sum (map machine.charge members))
  /\ machine.seg_ChurnRate s
     = float64.round 4 (float64.group_mean (map machine.churned members))
  /\ (members = [] ->
      machine.seg_ChurnRate s = nan /\ machine.seg_RevenueAtRisk s = nan)
  /\ (col_categories col_Contract = None -> members <> [])
  /\ (machine.seg_ChurnRate s = 1%float ->
      machine.seg_RevenueAtRisk s
      = float64.round 2 (machine.seg_TotalRevenue s))
  /\ (machine.seg_ChurnRate s = 0%float ->
      is_finite (machine.seg_TotalRevenue s) = true ->
      (machine.seg_RevenueAtRisk s =? 0)%float = true).
Proof.
  intros s.
  apply (segment_revenue_at_risk revenue_customers col_Contract s).
  left. reflexivity.
Defined.

(** C5, counterexample.  Of the five customers, the two on a one-year
    contract pay 50 each and one of them churned: the churn rate of the
    segment is 0.5, not 1, and its revenue at risk, 100 * 0.5 = 50, is the
    sum of the charges of its churned members.  The three on a two-year
    contract pay 100.25 each and one of them churned: the revenue at risk
    of the segment is 100.24, which is neither the product 100.239975 of
    its total revenue 300.75 and its churn rate 0.3333, nor the product
    100.25 of the sum of the charges and the mean of the churn indicator
    before they are rounded. *)
Lemma revenue_at_risk_equal_to_churned_charges :
  exists s1 s2 : machine.SegmentSummary,
    In s1 (machine.analyze_churn_by_segment revenue_customers col_Contract)
    /\ In s2 (machine.analyze_churn_by_segment revenue_customers col_Contract)
    /\ machine.seg_ChurnRate s1 = 0.5%float
    /\ machine.seg_RevenueAtRisk s1 = 50%float
    /\ (churned_charges revenue_customers col_Contract (machine.seg_index s1)
        == 50)%Q
    /\ machine.seg_TotalRevenue s2 = 300.75%float
    /\ machine.seg_ChurnRate s2 = float64.of_decimal (3333 # 10000)
    /\ machine.seg_RevenueAtRisk s2 = float64.of_decimal (10024 # 100)
    /\ (machine.seg_RevenueAtRisk s2
        =? machine.seg_TotalRevenue s2 * machine.seg_ChurnRate s2)%float
       = false
    /\ (float64.group_sum
          (map machine.charge
             (group revenue_customers col_Contract (machine.seg_index s2)))
        * float64.group_mean
            (map machine.churned
               (group revenue_customers col_Contract (machine.seg_index s2))))%float
       = 100.25%float.
Proof.
  eexists _, _. split; [left; reflexivity|].
  split; [right; left; reflexivity|].
  repeat split; vm_compute; reflexivity.
Qed.

(** The seven customers who pay 50 each, five of whom churned: the revenue
    at risk is 250.01, the double nearest to 350 * 0.7143 being just above
    250.005 (in exact arithmetic the product is 250.005 and rounds to
    250.00). *)
Example revenue_at_risk_of_seven_customers :
  exists s : machine.SegmentSummary,
    machine.analyze_churn_by_segment seven_customers col_Contract = [s]
    /\ machine.seg_ChurnRate s = float64.of_decimal (7143 # 10000)
    /\ machine.seg_TotalRevenue s = 350%float
    /\ machine.seg_RevenueAtRisk s = float64.of_decimal (25001 # 100).
Proof. eexists. repeat split; vm_compute; reflexivity. Qed.

(** ** The impact estimator *)

(** C6, as amended.  In the contract and the payment scenarios the number of
    customers saved is cut to an integer twice: the targeted population
    times the conversion rate is cut to the converted head-count, and the
    head-count times the difference of the churn rates is cut again; the
    tech-support scenario, which has no conversion rate, cuts once.  The
    products and the difference are those of doubles, and the cut is
    Python's [int], toward zero.  The revenue protected is the customers
    saved times the average monthly charge times 12, as doubles. *)
Theorem impact_customers_saved
    (column_sum column_mean : list float -> float) (df : list Row)
    (i : machine.Impact) :
  machine.business_impact column_sum column_mean df = Some i ->
  (* contract migration *)
  (machine.monthly_customers i
     = len (List.filter
              (fun r => String.eqb (Contract r) "Month-to-month") df)
   /\ machine.conversion_rate i = float64.of_decimal (30 # 100)
   /\ machine.churn_reduction i
      = (machine.monthly_churn i - machine.annual_churn i)%float
   /\ float64.int (float64.of_int (machine.monthly_customers i)
                   * machine.conversion_rate i)%float
      = Some (machine.converted_customers i)
   /\ machine.staged_truncation (machine.monthly_customers i)
        (machine.conversion_rate i) (machine.churn_reduction i)
      = Some (machine.customers_saved i)
   /\ machine.revenue_saved_contract i
      = (float64.of_int (machine.customers_saved i)
         * machine.avg_monthly_charge i * 12)%float)
  (* payment migration *)
  /\ (machine.echeck_customers i
        = len (with_churned 0
                 (List.filter
                    (fun r => String.eqb (PaymentMethod r) "Electronic check")
                    df))
      /\ machine.migration_rate i = float64.of_decimal (40 # 100)
      /\ machine.churn_reduction_payment i
         = (machine.echeck_churn i - machine.cc_churn i)%float
      /\ float64.int (float64.of_int (machine.echeck_customers i)
                      * machine.migration_rate i)%float
         = Some (machine.migrated_customers i)
      /\ machine.staged_truncation (machine.echeck_customers i)
           (machine.migration_rate i) (machine.churn_reduction_payment i)
         = Some (machine.customers_saved_payment i)
      /\ machine.revenue_saved_payment i
         = (float64.of_int (machine.customers_saved_payment i)
            * machine.avg_monthly_charge i * 12)%float)
  (* tech support *)
  /\ (float64.int (float64.of_int (machine.no_tech i)
                   * (machine.no_tech_churn i - machine.with_tech_churn i))%float
      = Some (machine.customers_saved_tech i)
      /\ machine.revenue_saved_tech i
         = (float64.of_int (machine.customers_saved_tech i)
            * machine.avg_monthly_charge i * 12)%float).
Proof.
  unfold machine.business_impact, machine.staged_truncation. intros H.
  repeat match type of H with
         | (mbind _ ?m = Some _) =>
             let E := fresh "E" in
             destruct m eqn:E; cbn [mbind option_bind] in H;
             [|discriminate H]
         end.
  injection H as <-.
  cbn [machine.monthly_customers machine.conversion_rate
         machine.churn_reduction machine.monthly_churn machine.annual_churn
         machine.converted_customers machine.customers_saved
         machine.revenue_saved_contract machine.avg_monthly_charge
         machine.echeck_customers machine.migration_rate
         machine.churn_reduction_payment machine.echeck_churn machine.cc_churn
         machine.migrated_customers machine.customers_saved_payment
         machine.revenue_saved_payment machine.no_tech machine.no_tech_churn
         machine.with_tech_churn machine.customers_saved_tech
         machine.revenue_saved_tech].
  rewrite E, E1. cbn [mbind option_bind].
  repeat split; assumption.
Qed.

(** C6, counterexample.  Of the six customers five are on a month-to-month
    contract, with a churn rate of 0.8 against 0 on the one-year contract.
    The script saves 0 customers: [int(5 * 0.3) = 1] and [int(1 * 0.8) = 0].
    The single floor of [5 * 0.3 * 0.8] is 1, for the product of the doubles,
    which is 1.2000000000000002, and for the exact product 1.2 alike. *)
Lemma customers_saved_is_not_single_floor :
  exists i : machine.Impact,
    machine.business_impact machine.sum_in_order machine.mean_in_order
      six_customers = Some i
    /\ machine.monthly_customers i = 5
    /\ machine.conversion_rate i = float64.of_decimal (3 # 10)
    /\ machine.churn_reduction i = float64.of_decimal (8 # 10)
    /\ machine.converted_customers i = 1
    /\ machine.customers_saved i = 0
    /\ machine.single_floor (machine.monthly_customers i)
         (machine.conversion_rate i) (machine.churn_reduction i) = Some 1
    /\ single_floor 5 (3 # 10) (8 # 10) = 1.
Proof.
  eexists. split; [vm_compute; reflexivity|].
  repeat split; vm_compute; reflexivity.
Qed.

(** C6, witness: the contract scenario over the six customers. *)
Lemma impact_customers_saved_witness :
  exists i : machine.Impact,
    machine.business_impact machine.sum_in_order machine.mean_in_order
      six_customers = Some i
    /\ machine.staged_truncation (machine.monthly_customers i)
         (machine.conversion_rate i) (machine.churn_reduction i)
       = Some (machine.customers_saved i)
    /\ machine.revenue_saved_contract i
       = (float64.of_int (machine.customers_saved i)
          * machine.avg_monthly_charge i * 12)%float.
Proof.
  eexists. split; [vm_compute; reflexivity|].
  match goal with
  | |- context [machine.customers_saved ?i] =>
      assert (machine.business_impact machine.sum_in_order
                machine.mean_in_order six_customers = Some i) as Hrun
        by (vm_compute; reflexivity);
      destruct (impact_customers_saved machine.sum_in_order
                  machine.mean_in_order six_customers i Hrun)
        as ((_ & _ & _ & _ & Hs & Hrev) & _)
  end.
  split; [exact Hs | exact Hrev].
Defined.

(** Twenty month-to-month customers of whom 14 churned, and five on a
    one-year contract of whom one churned: the difference of the churn
    rates, 0.7 - 0.2, is the double just below 0.5, the 6 converted
    customers times it are just below 3, and the script saves 2 customers
    (in exact arithmetic, 3). *)
Example customers_saved_of_twenty_five :
  exists i : machine.Impact,
    machine.business_impact machine.sum_in_order machine.mean_in_order
      twenty_five_customers = Some i
    /\ machine.monthly_customers i = 20
    /\ machine.converted_customers i = 6
    /\ machine.churn_reduction i = 0x1.fffffffffffffp-2%float
    /\ machine.customers_saved i = 2.
Proof.
  eexists. split; [vm_compute; reflexivity|].
  repeat split; vm_compute; reflexivity.
Qed.

(* ===================================================================== *)
(** * Further properties of the script *)
(* ===================================================================== *)

(** ** Preparation of the table *)

(** X1.  A tenure gets no group exactly when it is 0 or less, or more than
    72: [pd.cut] leaves values outside (0, 72] uncategorized. *)
Theorem tenure_group_none_iff (t : Z) :
  tenure_group t = None <-> t <= 0 \/ 72 < t.
Proof.
  unfold tenure_group, pd.cut, pd.cut_from.
  destruct (Z.ltb_spec 0 t); cbn [andb].
  - destruct (Z.leb_spec t 12); cbn [andb]; [split; [discriminate | lia]|].
    replace (12 <? t) with true by (symmetry; apply Z.ltb_lt; lia).
    destruct (Z.leb_spec t 24); cbn [andb]; [split; [discriminate | lia]|].
    replace (24 <? t) with true by (symmetry; apply Z.ltb_lt; lia).
    destruct (Z.leb_spec t 48); cbn [andb]; [split; [discriminate | lia]|].
    replace (48 <? t) with true by (symmetry; apply Z.ltb_lt; lia).
    destruct (Z.leb_spec t 72); cbn [andb]; [split; [discriminate | lia]|].
    split; [lia | reflexivity].
  - replace (12 <? t) with false by (symmetry; apply Z.ltb_ge; lia).
    replace (24 <? t) with false by (symmetry; apply Z.ltb_ge; lia).
    replace (48 <? t) with false by (symmetry; apply Z.ltb_ge; lia).
    cbn [andb]. split; [lia | reflexivity].
Qed.

(** X2.  When [load_and_prepare_data] returns a table, the file was found,
    the table has the customers of the file in the same order, and every
    row is either churned (label "Yes", indicator 1, revenue at risk its
    monthly charge) or not (indicator 0, revenue at risk 0). *)
Theorem load_and_prepare_data_rows
    (fs : filesystem) (filepath : string) (df : list Row) :
  load_and_prepare_data fs filepath = Some df ->
  exists raw : list RawRow,
    fs filepath = Some raw
    /\ map customerID df = map raw_customerID raw
    /\ forall r, In r df ->
         (Churn r = "Yes" /\ Churned r = 1
          /\ (RevenueAtRisk r == MonthlyCharges r)%Q)
         \/ (Churn r <> "Yes" /\ Churned r = 0
             /\ (RevenueAtRisk r == 0)%Q).
Proof.
  unfold load_and_prepare_data. destruct (fs filepath) as [raw|]; [|discriminate].
  intros [= <-]. exists raw. split; [reflexivity|]. split.
  - rewrite map_map. reflexivity.
  - intros r (x & <- & _)%in_map_iff. cbn.
    destruct (String.eqb_spec (raw_Churn x) "Yes") as [E|E].
    + left. split; [exact E|]. split; [reflexivity|].
      change (inject_Z 1) with 1%Q. ring.
    + right. split; [exact E|]. split; [reflexivity|].
      change (inject_Z 0) with 0%Q. ring.
Qed.

(** X2, witness: the file of the six customers. *)
Lemma load_and_prepare_data_rows_witness :
  exists raw : list RawRow,
    six_file DATA_PATH = Some raw
    /\ map customerID six_customers = map raw_customerID raw
    /\ forall r, In r six_customers ->
         (Churn r = "Yes" /\ Churned r = 1
          /\ (RevenueAtRisk r == MonthlyCharges r)%Q)
         \/ (Churn r <> "Yes" /\ Churned r = 0
             /\ (RevenueAtRisk r == 0)%Q).
Proof.
  apply (load_and_prepare_data_rows six_file DATA_PATH six_customers).
  reflexivity.
Defined.

(** ** Risk distribution *)

Lemma filter_all {A} (p : A -> bool) (l : list A) :
  (forall x, In x l -> p x = true) -> List.filter p l = l.
Proof.
  induction l as [|x l IH]; intros H; [reflexivity|].
  cbn [List.filter]. rewrite (H x) by now left.
  f_equal. apply IH. intros y Hy. apply H. now right.
Qed.

Lemma filter_or_length {A} (p q : A -> bool) (l : list A) :
  (forall x, p x && q x = false) ->
  length (List.filter (fun x => p x || q x) l)
  = (length (List.filter p l) + length (List.filter q l))%nat.
Proof.
  intros Hpq. induction l as [|x l IH]; [reflexivity|].
  cbn [List.filter]. specialize (Hpq x).
  destruct (p x), (q x); cbn [orb andb] in *; try discriminate;
    cbn [length]; lia.
Qed.

(** The groups of distinct keys count every row whose value is a key once. *)
Lemma group_count {A} (f : A -> string) (ks : list string) (l : list A) :
  List.NoDup ks ->
  Zsum (map (fun k => len (List.filter (fun x => String.eqb (f x) k) l)) ks)
  = len (List.filter (fun x => pd.isin (f x) ks) l).
Proof.
  induction 1 as [|k ks Hk _ IH]; cbn [map].
  - unfold pd.isin. cbn [existsb]. unfold len.
    induction l; [reflexivity | assumption].
  - rewrite Zsum_cons, IH. unfold len, pd.isin. cbn [existsb].
    rewrite filter_or_length; [lia|].
    intros x. destruct (String.eqb_spec (f x) k) as [->|_]; [|reflexivity].
    cbn [andb].
    destruct (existsb (String.eqb k) ks) eqn:E; [|reflexivity].
    apply existsb_exists in E as (y & Hy & Heq).
    apply String.eqb_eq in Heq. subst y. contradiction.
Qed.

Lemma assign_risk_category_cases (score : Z) :
  (10 <= score /\ assign_risk_category score = "Critical Risk")
  \/ (7 <= score < 10 /\ assign_risk_category score = "High Risk")
  \/ (4 <= score < 7 /\ assign_risk_category score = "Medium Risk")
  \/ (score < 4 /\ assign_risk_category score = "Low Risk").
Proof.
  unfold assign_risk_category.
  destruct (Z.geb_spec score 10); [left; split; [lia | reflexivity]|].
  destruct (Z.geb_spec score 7); [right; left; split; [lia | reflexivity]|].
  destruct (Z.geb_spec score 4);
    [right; right; left; split; [lia | reflexivity]|].
  right; right; right. split; [lia | reflexivity].
Qed.

Lemma score_customers_In (t : list Row) (c : Scored) :
  In c (score_customers t) ->
  RiskScore c = calculate_risk_score (scored_row c)
  /\ RiskCategory c = assign_risk_category (RiskScore c)
  /\ In (scored_row c) t.
Proof.
  unfold score_customers. intros (r & <- & Hr)%in_map_iff. cbn. auto.
Qed.

(** X3.  The high-risk customers are exactly the scored customers whose
    score is 7 or more. *)
Theorem high_risk_iff_score_at_least_7 (t : list Row) (c : Scored) :
  In c (high_risk (score_customers t))
  <-> In c (score_customers t) /\ 7 <= RiskScore c.
Proof.
  unfold high_risk. rewrite filter_In. split.
  - intros [Hc Hin]. split; [exact Hc|].
    destruct (score_customers_In t c Hc) as (_ & Hcat & _).
    rewrite Hcat in Hin.
    destruct (assign_risk_category_cases (RiskScore c))
      as [[? _]|[[? _]|[[_ E]|[_ E]]]]; try lia;
      rewrite E in Hin; discriminate Hin.
  - intros [Hc Hs]. split; [exact Hc|].
    destruct (score_customers_In t c Hc) as (_ & Hcat & _).
    rewrite Hcat.
    destruct (assign_risk_category_cases (RiskScore c))
      as [[_ E]|[[_ E]|[[? _]|[? _]]]]; try lia; rewrite E; reflexivity.
Qed.

(** X4.  Every category that [assign_risk_category] returns is one of
    [risk_order], and a higher score never gets a later place in that
    order. *)
Theorem risk_category_order (score score' : Z) :
  score <= score' ->
  exists i j : nat,
    index_of (assign_risk_category score) risk_order = Some i
    /\ index_of (assign_risk_category score') risk_order = Some j
    /\ (j <= i)%nat /\ (i < 4)%nat.
Proof.
  intros Hle.
  destruct (assign_risk_category_cases score)
    as [[? ->]|[[? ->]|[[? ->]|[? ->]]]];
    destruct (assign_risk_category_cases score')
      as [[? ->]|[[? ->]|[[? ->]|[? ->]]]];
    try lia; eexists _, _; (split; [reflexivity|]);
    (split; [reflexivity|]); lia.
Qed.

(** X4, witness: the scores 6 and 7, on either side of a boundary. *)
Lemma risk_category_order_witness :
  exists i j : nat,
    index_of (assign_risk_category 6) risk_order = Some i
    /\ index_of (assign_risk_category 7) risk_order = Some j
    /\ (j <= i)%nat /\ (i < 4)%nat.
Proof. apply (risk_category_order 6 7). lia. Defined.

Lemma with_churned_length (raw : list RawRow) :
  len (with_churned 0 (map prepare_row raw))
  + len (with_churned 1 (map prepare_row raw))
  = len (map prepare_row raw).
Proof.
  unfold len, with_churned. induction raw as [|x raw IH]; [reflexivity|].
  cbn [map List.filter prepare_row Churned].
  destruct (String.eqb (raw_Churn x) "Yes").
  - change (1 =? 0) with false. change (1 =? 1) with true.
    cbn [length]. lia.
  - change (0 =? 0) with true. change (0 =? 1) with false.
    cbn [length]. lia.
Qed.

(** X5.  Every customer of a prepared table is scored exactly once: as an
    active customer or as a churned one. *)
Theorem active_and_churned_cover_the_table (raw : list RawRow) :
  len (active_customers (map prepare_row raw))
  + len (churned_customers (map prepare_row raw))
  = len raw
  /\ (forall c, In c (active_customers (map prepare_row raw)) ->
                Churned (scored_row c) = 0)
  /\ (forall c, In c (churned_customers (map prepare_row raw)) ->
                Churned (scored_row c) = 1).
Proof.
  unfold active_customers, churned_customers, score_customers.
  split; [|split].
  - pose proof (with_churned_length raw) as H. unfold len in *.
    rewrite !length_map in *. exact H.
  - intros c (r & <- & Hr)%in_map_iff. cbn.
    unfold with_churned in Hr. apply filter_In in Hr as [_ Hr]. lia.
  - intros c (r & <- & Hr)%in_map_iff. cbn.
    unfold with_churned in Hr. apply filter_In in Hr as [_ Hr]. lia.
Qed.

Lemma NoDup_filter {A} (p : A -> bool) (l : list A) :
  List.NoDup l -> List.NoDup (List.filter p l).
Proof.
  induction 1 as [|x l Hx _ IH]; cbn [List.filter]; [constructor|].
  destruct (p x); [|exact IH].
  constructor; [|exact IH]. rewrite filter_In. tauto.
Qed.

Lemma risk_order_NoDup : List.NoDup risk_order.
Proof.
  unfold risk_order.
  repeat (constructor; [cbn [In]; intuition discriminate|]). constructor.
Qed.

Lemma Zsum_filter_or {A} (m : A -> Z) (p q : A -> bool) (l : list A) :
  (forall x, p x && q x = false) ->
  Zsum (map m (List.filter (fun x => p x || q x) l))
  = Zsum (map m (List.filter p l)) + Zsum (map m (List.filter q l)).
Proof.
  intros Hpq. induction l as [|x l IH]; [reflexivity|].
  cbn [List.filter]. specialize (Hpq x).
  destruct (p x), (q x); cbn [orb andb] in *; try discriminate;
    cbn [map]; rewrite ?Zsum_cons; lia.
Qed.

(** ['count'] adds 1 for every row with a value: between 0 and the number of
    rows. *)
Lemma count_as_sum {A B} (id : A -> option B) (l : list A) :
  pd.count (map id l) = Zsum (map (fun x => match id x with Some _ => 1 | None => 0 end) l).
Proof.
  unfold pd.count, pd.dropna. induction l as [|x l IH]; [reflexivity|].
  cbn [map flat_map]. rewrite Zsum_cons, <- IH.
  destruct (id x); cbn [app length]; lia.
Qed.

Lemma count_all {A B} (id : A -> option B) (l : list A) :
  (forall x, In x l -> id x <> None) -> pd.count (map id l) = len l.
Proof.
  unfold pd.count, pd.dropna, len. induction l as [|x l IH]; intros H;
    [reflexivity|].
  cbn [map flat_map]. rewrite length_app.
  rewrite Nat2Z.inj_add, IH by (intros y Hy; apply H; now right).
  specialize (H x (or_introl eq_refl)).
  destruct (id x); [cbn [length]; lia | contradiction].
Qed.

Lemma count_bounds {A} (l : list (option A)) : 0 <= pd.count l <= len l.
Proof.
  unfold pd.count, pd.dropna, len. induction l as [|[a|] l IH];
    cbn [flat_map app length]; lia.
Qed.

Lemma count_map_bounds {A B} (id : A -> option B) (l : list A) :
  0 <= pd.count (map id l) <= len l.
Proof.
  pose proof (count_bounds (map id l)) as H. unfold len in *.
  now rewrite length_map in H.
Qed.

(** Over distinct keys the groups of a measure add up to its sum over the
    rows whose value is a key. *)
Lemma group_measure {A} (f : A -> string) (m : A -> Z) (ks : list string)
    (l : list A) :
  List.NoDup ks ->
  Zsum (map (fun k =>
               Zsum (map m (List.filter (fun x => String.eqb (f x) k) l)))
            ks)
  = Zsum (map m (List.filter (fun x => pd.isin (f x) ks) l)).
Proof.
  induction 1 as [|k ks Hk _ IH]; cbn [map].
  - unfold pd.isin. cbn [existsb].
    induction l; [reflexivity | assumption].
  - rewrite Zsum_cons, IH. unfold pd.isin. cbn [existsb].
    rewrite <- Zsum_filter_or; [reflexivity|].
    intros x. destruct (String.eqb_spec (f x) k) as [->|_]; [|reflexivity].
    cbn [andb].
    destruct (existsb (String.eqb k) ks) eqn:E; [|reflexivity].
    apply existsb_exists in E as (y & Hy & Heq).
    apply String.eqb_eq in Heq. subst y. contradiction.
Qed.

(** X6.  The risk summary leaves out no scored customer that has an id: the
    listed categories follow [risk_order], each is the category of some
    customer, and the customer counts, which count the non-missing ids, add
    up to the number of ids of the customers scored. *)
Theorem risk_summary_counts_every_customer (t : list Row) :
  let summary := risk_summary (score_customers t) in
  Zsum (map rs_Customers summary) = pd.count (map customerID t)
  /\ map rs_index summary
     = List.filter
         (fun k => existsb (fun c => String.eqb (RiskCategory c) k)
                           (score_customers t)) risk_order
  /\ forall s, In s summary ->
       risk_group (score_customers t) (rs_index s) <> []
       /\ 0 <= rs_Customers s
          <= len (risk_group (score_customers t) (rs_index s)).
Proof.
  cbv zeta. unfold risk_summary. set (scored := score_customers t).
  set (keys := List.filter
                 (fun r => pd.isin r (pd.unique (map RiskCategory scored)))
                 risk_order).
  assert (forall k, In k keys <->
                    In k risk_order /\ exists c, In c scored
                                                 /\ RiskCategory c = k) as Hk.
  { intros k. unfold keys. rewrite filter_In, isin_spec, unique_In, in_map_iff.
    split; intros (H1 & c & H2 & H3); (split; [exact H1 | now exists c]). }
  split; [|split].
  - rewrite map_map. cbn [rs_Customers summarize_risk].
    unfold risk_group.
    rewrite (map_ext _ _
               (fun k => count_as_sum (fun c => customerID (scored_row c))
                           (List.filter
                              (fun c => String.eqb (RiskCategory c) k)
                              scored))).
    rewrite (group_measure RiskCategory _ keys scored)
      by (apply NoDup_filter, risk_order_NoDup).
    rewrite filter_all.
    + rewrite <- count_as_sum. unfold scored, score_customers.
      now rewrite map_map.
    + intros c Hc. cbv beta. apply isin_spec, Hk. split; [|now exists c].
      destruct (score_customers_In t c Hc) as (_ & Hcat & _).
      rewrite Hcat.
      destruct (assign_risk_category_cases (RiskScore c))
        as [[_ ->]|[[_ ->]|[[_ ->]|[_ ->]]]]; cbn; tauto.
  - rewrite map_map. cbn [rs_index summarize_risk]. rewrite map_id.
    unfold keys. apply filter_ext. intros k.
    destruct (existsb _ scored) eqn:E.
    + apply isin_spec, unique_In, in_map_iff.
      apply existsb_exists in E as (c & Hc & Heq%String.eqb_eq).
      now exists c.
    + destruct (pd.isin k _) eqn:E'; [|reflexivity].
      apply isin_spec, unique_In, in_map_iff in E' as (c & <- & Hc).
      assert (existsb (fun c0 => String.eqb (RiskCategory c0) (RiskCategory c))
                scored = true) as E''
        by (apply existsb_exists; exists c; split;
            [exact Hc | apply String.eqb_refl]).
      congruence.
  - intros s (k & <- & Hin)%in_map_iff. cbn [rs_index rs_Customers summarize_risk].
    apply Hk in Hin as (_ & c & Hc & <-).
    assert (In c (risk_group scored (RiskCategory c))) as Hg
      by (apply filter_In; split; [exact Hc | apply String.eqb_refl]).
    split.
    + intros E. rewrite E in Hg. destruct Hg.
    + apply count_map_bounds.
Qed.

(** ** Order and coverage of the segments *)

Lemma key_lt_trans (a b c : string) : key_lt a b -> key_lt b c -> key_lt a c.
Proof.
  unfold key_lt.
  change (String.compare a b) with (OrderedTypeEx.String_as_OT.cmp a b).
  change (String.compare b c) with (OrderedTypeEx.String_as_OT.cmp b c).
  change (String.compare a c) with (OrderedTypeEx.String_as_OT.cmp a c).
  rewrite !OrderedTypeEx.String_as_OT.cmp_lt.
  apply OrderedTypeEx.String_as_OT.lt_trans.
Qed.

Lemma key_lt_irrefl (a : string) : ~ key_lt a a.
Proof.
  unfold key_lt.
  change (String.compare a a) with (OrderedTypeEx.String_as_OT.cmp a a).
  rewrite (proj2 (OrderedTypeEx.String_as_OT.cmp_eq a a) eq_refl).
  discriminate.
Qed.

Lemma key_gt_lt (a b : string) : String.compare a b = Gt -> key_lt b a.
Proof.
  unfold key_lt. intros H. rewrite String.compare_antisym, H. reflexivity.
Qed.

Lemma insert_key_sorted (k : string) (l : list string) :
  StronglySorted key_lt l -> StronglySorted key_lt (pd.insert_key k l).
Proof.
  induction 1 as [|x l Hl IH Hx]; cbn [pd.insert_key].
  - repeat constructor.
  - destruct (String.compare k x) eqn:E.
    + now constructor.
    + constructor; [now constructor|]. constructor; [exact E|].
      rewrite List.Forall_forall in *. intros y Hy.
      apply (key_lt_trans k x y); [exact E | now apply Hx].
    + constructor; [exact IH|]. apply List.Forall_forall. intros y Hy.
      apply insert_key_In in Hy as [-> | Hy].
      * now apply key_gt_lt.
      * rewrite List.Forall_forall in Hx. now apply Hx.
Qed.

Lemma unique_sorted (l : list string) : StronglySorted key_lt (pd.unique l).
Proof.
  unfold pd.unique. induction l as [|x l IH]; cbn [fold_right].
  - constructor.
  - now apply insert_key_sorted.
Qed.

Lemma sorted_NoDup (l : list string) : StronglySorted key_lt l -> List.NoDup l.
Proof.
  induction 1 as [|x l Hl IH Hx]; constructor; [|exact IH].
  intros Hin. rewrite List.Forall_forall in Hx.
  exact (key_lt_irrefl x (Hx x Hin)).
Qed.

(** X7.  For a column of strings the segments are listed in strictly
    increasing order of their value, whatever the order of the rows, and
    the values listed are exactly those that some row holds.  For a column
    of categorical dtype ([TenureGroup]) the segments are its categories,
    in the order of the categories, every one of them whether a row holds
    it or not. *)
Theorem segments_sorted_by_value (df : list Row) (column : Column) :
  let index := map seg_index (analyze_churn_by_segment df column) in
  match col_categories column with
  | None =>
      StronglySorted key_lt index
      /\ forall k, In k index <-> exists r, In r df /\ column r = Some k
  | Some categories => index = categories
  end.
Proof.
  cbv zeta. unfold analyze_churn_by_segment. rewrite map_map.
  cbn [seg_index summarize]. rewrite map_id. unfold group_keys.
  destruct (col_categories column) as [categories|]; [reflexivity|]. split.
  - apply unique_sorted.
  - intros k. rewrite unique_In, dropna_In, in_map_iff.
    split; intros (r & H1 & H2); exists r; tauto.
Qed.

(** Over distinct keys the groups add up to the rows whose value is a key. *)
Lemma group_sum (m : Row -> Z) (df : list Row) (column : Column)
    (ks : list string) :
  List.NoDup ks ->
  Zsum (map (fun k => Zsum (map m (group df column k))) ks)
  = Zsum (map m (List.filter
                   (fun r => match column r with
                             | Some v => pd.isin v ks
                             | None => false
                             end) df)).
Proof.
  induction 1 as [|k ks Hk _ IH]; cbn [map].
  - unfold pd.isin. cbn [existsb].
    rewrite (filter_ext _ (fun _ => false))
      by (intros r; now destruct (column r)).
    induction df; [reflexivity | assumption].
  - rewrite Zsum_cons, IH. unfold group.
    rewrite <- Zsum_filter_or.
    + f_equal. f_equal. apply filter_ext. intros r.
      destruct (column r); reflexivity.
    + intros r. destruct (column r) as [v|]; [|reflexivity].
      destruct (String.eqb_spec v k) as [->|_]; [|reflexivity].
      cbn [andb]. destruct (pd.isin k ks) eqn:E; [|reflexivity].
      apply isin_spec in E. contradiction.
Qed.

Lemma Zsum_ones {A} (l : list A) : Zsum (map (fun _ => 1) l) = len l.
Proof.
  unfold len. induction l as [|x l IH]; [reflexivity|].
  cbn [map length]. rewrite Zsum_cons, IH. lia.
Qed.

Lemma group_keys_cover (df : list Row) (column : Column) :
  categories_hold df column ->
  List.NoDup (group_keys df column)
  /\ forall r v, In r df -> column r = Some v -> In v (group_keys df column).
Proof.
  unfold categories_hold, group_keys. intros H.
  destruct (col_categories column) as [categories|]; [now apply H|].
  split.
  - apply sorted_NoDup, unique_sorted.
  - intros r v Hr Hv. apply unique_In, dropna_In, in_map_iff. now exists r.
Qed.

(** The totals of the segments, over the rows that hold a value. *)
Lemma segment_totals (df : list Row) (column : Column) :
  categories_hold df column ->
  Zsum (map seg_TotalCustomers (analyze_churn_by_segment df column))
  = pd.count (map customerID (with_value df column))
  /\ Zsum (map seg_Churned (analyze_churn_by_segment df column))
     = Zsum (map Churned (with_value df column)).
Proof.
  intros Hcat. destruct (group_keys_cover df column Hcat) as [Hnd Hcover].
  unfold analyze_churn_by_segment. rewrite !map_map.
  cbn [seg_TotalCustomers seg_Churned summarize].
  assert (List.filter
            (fun r => match column r with
                      | Some v => pd.isin v (group_keys df column)
                      | None => false
                      end) df = with_value df column) as Hfilter.
  { unfold with_value.
    assert (forall l : list Row,
               (forall r, In r l -> In r df) ->
               List.filter
                 (fun r => match column r with
                           | Some v => pd.isin v (group_keys df column)
                           | None => false
                           end) l
               = List.filter (fun r => match column r with
                                       | Some _ => true
                                       | None => false
                                       end) l) as H.
    { induction l as [|r l IH]; intros Hl; [reflexivity|].
      cbn [List.filter]. rewrite IH by (intros; apply Hl; now right).
      destruct (column r) as [v|] eqn:E; [|reflexivity].
      assert (pd.isin v (group_keys df column) = true) as ->; [|reflexivity].
      apply isin_spec. apply (Hcover r); [apply Hl; now left | exact E]. }
    apply H. auto. }
  split.
  - rewrite count_as_sum, <- Hfilter,
      <- (group_sum (fun r => match customerID r with
                             | Some _ => 1
                             | None => 0
                             end) df column _ Hnd).
    f_equal. apply map_ext. intros k. apply count_as_sum.
  - now rewrite <- Hfilter, <- (group_sum Churned df column _ Hnd).
Qed.

(** X8.  The segments partition the rows that hold a value in the column:
    their customer counts, which count the non-missing ids, add up to the
    number of ids of such rows, and their churned counts to the number of
    churned among such rows.  Rows with a missing value are in no segment;
    when no value and no id is missing the sums are the figures of the
    dataset overview.  (For a categorical column the categories are taken
    distinct and to hold the values of the rows.) *)
Theorem segments_partition_the_rows (df : list Row) (column : Column) :
  categories_hold df column ->
  let segments := analyze_churn_by_segment df column in
  Zsum (map seg_TotalCustomers segments)
  = pd.count (map customerID (with_value df column))
  /\ Zsum (map seg_Churned segments)
     = Zsum (map Churned (with_value df column))
  /\ ((forall r, In r df -> column r <> None /\ customerID r <> None) ->
      Zsum (map seg_TotalCustomers segments)
      = ov_total_customers (overview df)
      /\ Zsum (map seg_Churned segments)
         = ov_churned_customers (overview df)).
Proof.
  intros Hcat. cbv zeta.
  destruct (segment_totals df column Hcat) as [Hcount Hchurned].
  split; [exact Hcount|]. split; [exact Hchurned|].
  intros Hall. rewrite Hcount, Hchurned. cbn [overview ov_total_customers
    ov_churned_customers]. unfold with_value.
  rewrite filter_all.
  - split; [|reflexivity]. apply count_all.
    intros r Hr. now apply Hall.
  - intros r Hr. destruct (Hall r Hr) as [Hv _]. now destruct (column r).
Qed.

(** X8, witness: the contract analysis of the six customers. *)
Lemma segments_partition_the_rows_witness :
  let segments := analyze_churn_by_segment six_customers col_Contract in
  Zsum (map seg_TotalCustomers segments)
  = pd.count (map customerID (with_value six_customers col_Contract))
  /\ Zsum (map seg_Churned segments)
     = Zsum (map Churned (with_value six_customers col_Contract))
  /\ ((forall r, In r six_customers ->
                 col_Contract r <> None /\ customerID r <> None) ->
      Zsum (map seg_TotalCustomers segments)
      = ov_total_customers (overview six_customers)
      /\ Zsum (map seg_Churned segments)
         = ov_churned_customers (overview six_customers)).
Proof.
  apply (segments_partition_the_rows six_customers col_Contract).
  intros categories H. discriminate H.
Defined.

(** The tenure group of a tenure is one of the four labels. *)
Lemma tenure_group_label (t : Z) (v : string) :
  tenure_group t = Some v ->
  In v ["0-12 months"; "13-24 months"; "25-48 months"; "49-72 months"].
Proof.
  unfold tenure_group, pd.cut, pd.cut_from.
  repeat match goal with
         | |- context [if ?b then _ else _] => destruct b
         end; intros [= <-]; cbn [In]; tauto.
Qed.

Lemma tenure_categories_hold (raw : list RawRow) :
  categories_hold (map prepare_row raw) col_TenureGroup.
Proof.
  intros categories [= <-]. split.
  - repeat (constructor; [cbn [In]; intuition discriminate|]). constructor.
  - intros r v (x & <- & _)%in_map_iff. apply tenure_group_label.
Qed.

(** X20.  The tenure-group analysis of a prepared table counts exactly the
    customers with an id whose tenure is from 1 to 72 months: those with
    tenure 0 (or beyond 72) are in no segment. *)
Theorem tenure_segments_count_tenures_1_to_72 (raw : list RawRow) :
  let df := map prepare_row raw in
  Zsum (map seg_TotalCustomers (analyze_churn_by_segment df col_TenureGroup))
  = pd.count
      (map customerID
         (List.filter
            (fun r => (0 <? tenure r) && (tenure r <=? 72)) df)).
Proof.
  intros df.
  destruct (segment_totals df col_TenureGroup (tenure_categories_hold raw))
    as [-> _].
  unfold with_value, df. f_equal. f_equal.
  induction raw as [|x raw IH]; [reflexivity|].
  cbn [map List.filter]. rewrite IH. clear IH.
  cbn [prepare_row col_TenureGroup col_value TenureGroup tenure].
  unfold tenure_group, pd.cut, pd.cut_from.
  destruct (Z.ltb_spec 0 (raw_tenure x)); cbn [andb].
  - destruct (Z.leb_spec (raw_tenure x) 12).
    { replace (raw_tenure x <=? 72) with true
        by (symmetry; apply Z.leb_le; lia). reflexivity. }
    replace (12 <? raw_tenure x) with true by (symmetry; apply Z.ltb_lt; lia).
    cbn [andb]. destruct (Z.leb_spec (raw_tenure x) 24).
    { replace (raw_tenure x <=? 72) with true
        by (symmetry; apply Z.leb_le; lia). reflexivity. }
    replace (24 <? raw_tenure x) with true by (symmetry; apply Z.ltb_lt; lia).
    cbn [andb]. destruct (Z.leb_spec (raw_tenure x) 48).
    { replace (raw_tenure x <=? 72) with true
        by (symmetry; apply Z.leb_le; lia). reflexivity. }
    replace (48 <? raw_tenure x) with true by (symmetry; apply Z.ltb_lt; lia).
    cbn [andb]. destruct (raw_tenure x <=? 72); reflexivity.
  - replace (12 <? raw_tenure x) with false
      by (symmetry; apply Z.ltb_ge; lia).
    replace (24 <? raw_tenure x) with false
      by (symmetry; apply Z.ltb_ge; lia).
    replace (48 <? raw_tenure x) with false
      by (symmetry; apply Z.ltb_ge; lia).
    reflexivity.
Qed.

(** ** Rounding *)

Lemma rint_cases (q : Q) :
  (pd.rint q = Qfloor q /\ (q - inject_Z (Qfloor q) <= 1 # 2)%Q)
  \/ (pd.rint q = Qfloor q + 1 /\ (1 # 2 <= q - inject_Z (Qfloor q))%Q).
Proof.
  unfold pd.rint.
  destruct (Qcompare_spec (q - inject_Z (Qfloor q)) (1 # 2)) as [E|E|E].
  - destruct (Z.even (Qfloor q)); [left | right];
      (split; [reflexivity | rewrite E; apply Qle_refl]).
  - left. split; [reflexivity | now apply Qlt_le_weak].
  - right. split; [reflexivity | now apply Qlt_le_weak].
Qed.

Lemma floor_fraction (q : Q) :
  (0 <= q - inject_Z (Qfloor q) < 1)%Q.
Proof.
  pose proof (Qfloor_le q). pose proof (Qlt_floor q) as Hlt.
  rewrite inject_Z_plus in Hlt. change (inject_Z 1) with 1%Q in Hlt.
  split; lra.
Qed.

Lemma rint_le (x y : Q) : (x <= y)%Q -> pd.rint x <= pd.rint y.
Proof.
  intros Hxy.
  pose proof (Qfloor_resp_le x y Hxy) as Hf.
  pose proof (floor_fraction x) as [Hx0 Hx1].
  pose proof (floor_fraction y) as [Hy0 Hy1].
  destruct (Z.eq_dec (Qfloor x) (Qfloor y)) as [E|E].
  - unfold pd.rint. rewrite E in *.
    destruct (Qcompare_spec (x - inject_Z (Qfloor y)) (1 # 2)) as [Ex|Ex|Ex];
      destruct (Qcompare_spec (y - inject_Z (Qfloor y)) (1 # 2))
        as [Ey|Ey|Ey];
      try destruct (Z.even (Qfloor y)); try lia; exfalso; lra.
  - destruct (rint_cases x) as [[-> _]|[-> _]];
      destruct (rint_cases y) as [[-> _]|[-> _]]; lia.
Qed.

Lemma scale_pos (n : nat) : (0 < inject_Z (10 ^ Z.of_nat n))%Q.
Proof.
  change 0%Q with (inject_Z 0). rewrite <- Zlt_Qlt.
  apply Z.pow_pos_nonneg; lia.
Qed.

Lemma round_le (n : nat) (x y : Q) :
  (x <= y)%Q -> (pd.round n x <= pd.round n y)%Q.
Proof.
  intros Hxy. unfold pd.round. pose proof (scale_pos n) as Hs.
  set (scale := inject_Z (10 ^ Z.of_nat n)) in *.
  apply Qmult_le_compat_r; [|apply Qlt_le_weak, Qinv_lt_0_compat, Hs].
  rewrite <- Zle_Qle. apply rint_le.
  apply Qmult_le_compat_r; [exact Hxy | now apply Qlt_le_weak].
Qed.

(** ** Bounds on the segment figures *)

Lemma churned_sum_bounds (g : list Row) :
  (forall r, In r g -> Churned r = 0 \/ Churned r = 1) ->
  0 <= Zsum (map Churned g) <= len g.
Proof.
  unfold len. induction g as [|r g IH]; intros H; [cbn; lia|].
  cbn [map length]. rewrite Zsum_cons.
  destruct (H r (or_introl eq_refl)) as [-> | ->];
    assert (0 <= Zsum (map Churned g) <= Z.of_nat (length g))
      by (apply IH; intros; apply H; now right); lia.
Qed.

Lemma ratio_bounds (c n : Z) :
  0 <= c <= n -> 1 <= n -> (0 <= inject_Z c / inject_Z n <= 1)%Q.
Proof.
  intros Hc Hn.
  assert (0 < inject_Z n)%Q
    by (change 0%Q with (inject_Z 0); rewrite <- Zlt_Qlt; lia).
  assert (0 <= inject_Z c)%Q
    by (change 0%Q with (inject_Z 0); rewrite <- Zle_Qle; lia).
  assert (inject_Z c <= inject_Z n)%Q by (rewrite <- Zle_Qle; lia).
  split.
  - apply Qle_shift_div_l; [assumption | lra].
  - apply Qle_shift_div_r; [assumption | lra].
Qed.

(** X9.  In every segment of a prepared table the customer count and the
    churned count lie between 0 and the number of members.  A segment with
    members has a churn rate between 0 and 1 and a churn rate in percent
    between 0 and 100; a segment without members (a category of
    [TenureGroup] that no customer holds) has the churn rate, its percentage
    and the revenue at risk NaN.  A segment of a column of strings has
    members. *)
Theorem segment_figures_within_bounds
    (raw : list RawRow) (column : Column) (s : SegmentSummary) :
  In s (analyze_churn_by_segment (map prepare_row raw) column) ->
  let members := group (map prepare_row raw) column (seg_index s) in
  0 <= seg_TotalCustomers s <= len members
  /\ 0 <= seg_Churned s <= len members
  /\ (members = [] ->
      seg_ChurnRate s = None /\ seg_ChurnRatePct s = None
      /\ seg_RevenueAtRisk s = None)
  /\ (members <> [] ->
      exists rate pct : Q,
        seg_ChurnRate s = Some rate /\ (0 <= rate <= 1)%Q
        /\ seg_ChurnRatePct s = Some pct /\ (0 <= pct <= 100)%Q)
  /\ (col_categories column = None -> members <> []).
Proof.
  set (df := map prepare_row raw). unfold analyze_churn_by_segment.
  intros (k & <- & Hk)%in_map_iff.
  cbn [summarize seg_index seg_TotalCustomers seg_Churned seg_ChurnRate
         seg_ChurnRatePct seg_RevenueAtRisk].
  set (g := group df column k).
  assert (0 <= Zsum (map Churned g) <= len g) as Hc.
  { apply churned_sum_bounds. intros r Hr.
    apply (prepared_revenue_at_risk raw r).
    now apply (group_incl df column k). }
  split.
  { apply count_map_bounds. }
  split; [exact Hc|]. split; [|split].
  - intros ->. repeat split; reflexivity.
  - intros Hne.
    assert (1 <= len g) as Hn
      by (unfold len; destruct g; [contradiction | cbn [length]; lia]).
    pose proof (ratio_bounds _ _ Hc Hn) as [Hm0 Hm1].
    unfold len in Hm0, Hm1.
    set (m := (inject_Z (Zsum (map Churned g))
               / inject_Z (Z.of_nat (length g)))%Q) in *.
    assert (0 <= pd.round 4 m <= 1)%Q as [Hr0 Hr1].
    { split.
      - rewrite <- (round_zero 4 0) by reflexivity. now apply round_le.
      - assert (pd.round 4 1 == 1)%Q as <- by reflexivity.
        now apply round_le. }
    exists (pd.round 4 m), (pd.round 1 (pd.round 4 m * 100)).
    destruct g as [|r g']; [contradiction|].
    cbn [fmap option_fmap option_map].
    split; [reflexivity|]. split; [split; assumption|].
    split; [reflexivity|]. split.
    + rewrite <- (round_zero 1 0) by reflexivity. apply round_le. lra.
    + apply (Qle_trans _ (pd.round 1 100)); [apply round_le; lra|].
      vm_compute. discriminate.
  - intros Hobj Hnil.
    destruct (group_keys_member df column k Hobj Hk) as (r & Hr & _).
    fold g in Hr. rewrite Hnil in Hr. destruct Hr.
Qed.

(** X9, witness: the segment of the two customers. *)
Lemma segment_figures_within_bounds_witness :
  let s := summarize "One year" (group two_customers col_Contract "One year")
  in
  let members := group two_customers col_Contract (seg_index s) in
  0 <= seg_TotalCustomers s <= len members
  /\ 0 <= seg_Churned s <= len members
  /\ (members = [] ->
      seg_ChurnRate s = None /\ seg_ChurnRatePct s = None
      /\ seg_RevenueAtRisk s = None)
  /\ (members <> [] ->
      exists rate pct : Q,
        seg_ChurnRate s = Some rate /\ (0 <= rate <= 1)%Q
        /\ seg_ChurnRatePct s = Some pct /\ (0 <= pct <= 100)%Q)
  /\ (col_categories col_Contract = None -> members <> []).
Proof.
  intros s.
  apply (segment_figures_within_bounds
           [ customer "0001" "One year" "Mailed check" "Yes" 30 50 "Yes";
             customer "0002" "One year" "Mailed check" "Yes" 30 50 "No" ]
           col_Contract s).
  left. reflexivity.
Defined.

(** The tenure analysis of the six customers, none of whom has been a
    customer for more than 30 months: the category "49-72 months" is listed
    with no customer and a NaN churn rate. *)
Example tenure_segment_without_members :
  exists s : SegmentSummary,
    In s (analyze_churn_by_segment six_customers col_TenureGroup)
    /\ seg_index s = "49-72 months"
    /\ seg_TotalCustomers s = 0 /\ seg_Churned s = 0
    /\ seg_ChurnRate s = None /\ (seg_TotalRevenue s == 0)%Q
    /\ seg_ChurnRatePct s = None /\ seg_RevenueAtRisk s = None.
Proof.
  eexists. split; [do 3 right; left; reflexivity|].
  repeat split; reflexivity.
Qed.

(** ** Further properties of the chi-square test *)

Lemma paired_nil_iff (df : list Row) (column1 column2 : Column) :
  paired df column1 column2 = []
  <-> forall r, In r df -> column1 r = None \/ column2 r = None.
Proof.
  unfold paired. induction df as [|r df IH]; cbn [flat_map].
  - split; [intros _ r [] | reflexivity].
  - split.
    + intros H. apply app_eq_nil in H as [Hr Hdf].
      intros r' [<- | Hr'].
      * destruct (column1 r), (column2 r); try discriminate Hr; auto.
      * now apply IH.
    + intros H. rewrite (proj2 IH) by (intros; apply H; now right).
      rewrite app_nil_r.
      destruct (H r (or_introl eq_refl)) as [-> | ->];
        [reflexivity | now destruct (column1 r)].
Qed.

Lemma chi_square_test_none_iff (df : list Row) (column1 column2 : Column) :
  chi_square_test df column1 column2 = None
  <-> paired df column1 column2 = [].
Proof.
  unfold chi_square_test, crosstab.
  destruct (paired df column1 column2) as [|p xs] eqn:E.
  - split; reflexivity.
  - rewrite chi2_contingency_crosstab by discriminate.
    split; discriminate.
Qed.

(** X11.  [chi_square_test] raises (scipy's "no data" [ValueError]) exactly
    when no row of the table holds a value in both columns, in particular
    on an empty table; on every other table it returns. *)
Theorem chi_square_test_raises_iff_no_data
    (df : list Row) (column1 column2 : Column) :
  (chi_square_test df column1 column2 = None
   <-> forall r, In r df -> column1 r = None \/ column2 r = None)
  /\ chi_square_test [] column1 column2 = None.
Proof.
  split; [|reflexivity].
  rewrite <- paired_nil_iff. apply chi_square_test_none_iff.
Qed.

Lemma Qsum_nonneg (l : list Q) :
  (forall x, In x l -> (0 <= x)%Q) -> (0 <= Qsum l)%Q.
Proof.
  induction l as [|x l IH]; intros H; cbn; [apply Qle_refl|].
  assert (0 <= x)%Q by (apply H; now left).
  assert (0 <= Qsum l)%Q by (apply IH; intros; apply H; now right).
  unfold Qsum in *. lra.
Qed.

Lemma sum_cells_nonneg (f : Q -> Q -> Q) (obs exp : list (list Q)) :
  (forall re e, In re exp -> In e re -> forall o, (0 <= f o e)%Q) ->
  (0 <= sum_cells f obs exp)%Q.
Proof.
  intros H. unfold sum_cells. apply Qsum_nonneg.
  intros x ([ro re] & <- & Hr)%in_map_iff. apply Qsum_nonneg.
  intros y ([o e] & <- & Hc)%in_map_iff. cbn [fst snd] in *.
  apply (H re e); [now apply in_combine_r in Hr | now apply in_combine_r in Hc].
Qed.

Lemma pearson_term_nonneg (o e : Q) : (0 < e)%Q -> (0 <= pearson_term o e)%Q.
Proof.
  intros He. unfold pearson_term.
  apply Qle_shift_div_l; [exact He|].
  rewrite Qmult_0_l.
  destruct (Qlt_le_dec (o - e) 0) as [Hn|Hp].
  - assert ((o - e) * (o - e) == (e - o) * (e - o))%Q as -> by ring.
    apply Qmult_le_0_compat; lra.
  - now apply Qmult_le_0_compat.
Qed.

Lemma crosstab_expected_pos (xs : list (string * string)) (re : list Q)
    (e : Q) :
  xs <> [] -> In re (expected_freq (crosstab_of xs)) -> In e re -> (0 < e)%Q.
Proof.
  intros Hxs. unfold expected_freq.
  intros (ri & <- & Hri)%in_map_iff (cj & <- & Hcj)%in_map_iff.
  apply expected_positive.
  - now apply (crosstab_row_sums_pos xs).
  - now apply (crosstab_col_sums_pos xs).
  - now apply crosstab_total_pos.
Qed.

(** X12.  Whenever [chi_square_test] returns, the statistic is not negative
    and neither are the degrees of freedom. *)
Theorem chi_square_test_not_negative
    (df : list Row) (column1 column2 : Column) (chi2 : Q) (dof : Z) :
  chi_square_test df column1 column2 = Some (chi2, dof) ->
  (0 <= chi2)%Q /\ 0 <= dof.
Proof.
  unfold chi_square_test, crosstab.
  set (xs := paired df column1 column2).
  destruct xs as [|p xs'] eqn:E; [discriminate|]. rewrite <- E.
  assert (xs <> []) as Hxs by (rewrite E; discriminate).
  rewrite (chi2_contingency_crosstab xs Hxs). cbv zeta.
  rewrite crosstab_nrows, crosstab_ncols by exact Hxs.
  destruct (crosstab_shape_pos xs Hxs) as [Hr Hc].
  set (d := (len (row_keys xs) - 1) * (len (col_keys xs) - 1)).
  intros [= <- <-]. split; [|unfold d; nia].
  assert (forall obs, 0 <= power_divergence obs
                             (expected_freq (crosstab_of xs)))%Q as Hpos.
  { intros obs. apply sum_cells_nonneg. intros re e Hre He o.
    apply pearson_term_nonneg. now apply (crosstab_expected_pos xs re e). }
  destruct (d =? 0); [apply Qle_refl|].
  destruct (d =? 1); apply Hpos.
Qed.

(** X12, witness: contract against churn over the six customers. *)
Lemma chi_square_test_not_negative_witness :
  exists (chi2 : Q) (dof : Z),
    chi_square_test six_customers col_Contract col_Churn = Some (chi2, dof)
    /\ (0 <= chi2)%Q /\ 0 <= dof.
Proof.
  eexists _, _. split; [vm_compute; reflexivity|].
  apply (chi_square_test_not_negative six_customers col_Contract col_Churn).
  vm_compute. reflexivity.
Defined.

Lemma filter_andb {A} (p q : A -> bool) (l : list A) :
  List.filter (fun x => p x && q x) l = List.filter q (List.filter p l).
Proof.
  induction l as [|x l IH]; [reflexivity|].
  cbn [List.filter]. destruct (p x); cbn [andb List.filter];
    [destruct (q x)|]; now rewrite IH.
Qed.

Lemma row_total (xs : list (string * string)) (a : string) :
  Zsum (map (fun b => count_pair xs a b) (col_keys xs))
  = len (List.filter (fun p => String.eqb (fst p) a) xs).
Proof.
  unfold count_pair.
  rewrite (map_ext _ (fun b => len (List.filter
             (fun p => String.eqb (snd p) b)
             (List.filter (fun p => String.eqb (fst p) a) xs))))
    by (intros b; unfold len; now rewrite filter_andb).
  rewrite (group_count snd)
    by apply sorted_NoDup, unique_sorted.
  rewrite filter_all; [reflexivity|].
  intros [a' b] [Hin _]%filter_In. apply isin_spec, col_keys_In.
  now exists a'.
Qed.

Lemma col_total (xs : list (string * string)) (b : string) :
  Zsum (map (fun a => count_pair xs a b) (row_keys xs))
  = len (List.filter (fun p => String.eqb (snd p) b) xs).
Proof.
  unfold count_pair.
  rewrite (map_ext _ (fun a => len (List.filter
             (fun p => String.eqb (fst p) a)
             (List.filter (fun p => String.eqb (snd p) b) xs)))).
  - rewrite (group_count fst)
      by apply sorted_NoDup, unique_sorted.
    rewrite filter_all; [reflexivity|].
    intros [a b'] [Hin _]%filter_In. apply isin_spec, row_keys_In.
    now exists b'.
  - intros a. unfold len. rewrite <- filter_andb. do 2 f_equal.
    apply filter_ext. intros p. apply andb_comm.
Qed.

(** X13.  The cross-tabulation counts every record that holds both values
    exactly once: a row total is the number of records with that value of
    the first column, a column total the number with that value of the
    second, and the grand total the number of records. *)
Theorem crosstab_counts_every_record
    (df : list Row) (column1 column2 : Column) :
  let xs := paired df column1 column2 in
  let observed := crosstab df column1 column2 in
  row_sums observed
  = map (fun a => len (List.filter (fun p => String.eqb (fst p) a) xs))
        (row_keys xs)
  /\ col_sums observed
     = map (fun b => len (List.filter (fun p => String.eqb (snd p) b) xs))
           (col_keys xs)
  /\ total observed = len xs.
Proof.
  intros xs observed. unfold observed, crosstab. fold xs.
  assert (row_sums (crosstab_of xs)
          = map (fun a => len (List.filter
                                 (fun p => String.eqb (fst p) a) xs))
                (row_keys xs)) as Hrows.
  { unfold row_sums, crosstab_of. rewrite map_map.
    apply map_ext. intros a. apply row_total. }
  split; [exact Hrows|]. split.
  - destruct xs as [|p xs'] eqn:E; [reflexivity|]. rewrite <- E.
    assert (xs <> []) as Hxs by (rewrite E; discriminate).
    unfold col_sums. rewrite (crosstab_ncols xs Hxs).
    unfold len at 1. rewrite Nat2Z.id.
    rewrite <- (map_nth_seq
                  (fun b => len (List.filter
                                   (fun p => String.eqb (snd p) b) xs))
                  (col_keys xs) "").
    apply map_ext_in. intros j Hj. apply in_seq in Hj as [_ Hj].
    cbn in Hj. rewrite <- col_total. unfold crosstab_of.
    rewrite map_map. f_equal. apply map_ext. intros a.
    now apply crosstab_cell.
  - unfold total. rewrite Hrows.
    rewrite (group_count fst) by apply sorted_NoDup, unique_sorted.
    rewrite filter_all; [reflexivity|].
    intros [a b] Hin. apply isin_spec, row_keys_In. now exists b.
Qed.

(** ** Further properties of the CLV projector *)









(** ** Further properties of the impact estimate *)

Lemma churned_mean_none (t : list Row) : churned_mean t = None <-> t = [].
Proof.
  unfold churned_mean, pd.mean. destruct t; cbn [map]; split;
    (reflexivity || discriminate).
Qed.

Lemma charges_mean_none (t : list Row) : charges_mean t = None <-> t = [].
Proof.
  unfold charges_mean, pd.mean. destruct t; cbn [map]; split;
    (reflexivity || discriminate).
Qed.

Ltac none_case := split; [intros _; auto 10 | reflexivity].

(** X17.  The impact section raises ([int] of a NaN mean) exactly when one
    of the six groups of customers whose churn rate it takes is empty:
    month-to-month, one-year, electronic check, credit card, internet
    without tech support, with tech support. *)
Theorem business_impact_raises_iff_empty_group (df : list Row) :
  business_impact df = None
  <-> List.filter (fun r => String.eqb (Contract r) "Month-to-month") df = []
      \/ List.filter (fun r => String.eqb (Contract r) "One year") df = []
      \/ List.filter
           (fun r => String.eqb (PaymentMethod r) "Electronic check") df = []
      \/ List.filter
           (fun r => contains_nocase "credit card" (PaymentMethod r)) df = []
      \/ List.filter
           (fun r => String.eqb (TechSupport r) "No"
                     && negb (String.eqb (InternetService r) "No")) df = []
      \/ List.filter (fun r => String.eqb (TechSupport r) "Yes") df = [].
Proof.
  unfold business_impact. cbv zeta.
  rewrite <- !churned_mean_none.
  set (m1 := churned_mean (List.filter
               (fun r => String.eqb (Contract r) "Month-to-month") df)).
  set (m2 := churned_mean (List.filter
               (fun r => String.eqb (Contract r) "One year") df)).
  set (m3 := churned_mean (List.filter
               (fun r => String.eqb (PaymentMethod r) "Electronic check")
               df)).
  set (m4 := churned_mean (List.filter
               (fun r => contains_nocase "credit card" (PaymentMethod r))
               df)).
  set (m5 := churned_mean (List.filter
               (fun r => String.eqb (TechSupport r) "No"
                         && negb (String.eqb (InternetService r) "No")) df)).
  set (m6 := churned_mean (List.filter
               (fun r => String.eqb (TechSupport r) "Yes") df)).
  assert (m1 <> None -> charges_mean df <> None) as Havg.
  { unfold m1. rewrite churned_mean_none, charges_mean_none.
    intros H ->. now apply H. }
  destruct m1 as [v1|]; cbn [mbind option_bind]; [|none_case].
  destruct m2 as [v2|]; cbn [mbind option_bind]; [|none_case].
  destruct (charges_mean df) as [avg|]; cbn [mbind option_bind];
    [|exfalso; now apply Havg].
  destruct m3 as [v3|]; cbn [mbind option_bind]; [|none_case].
  destruct m4 as [v4|]; cbn [mbind option_bind]; [|none_case].
  destruct m5 as [v5|]; cbn [mbind option_bind]; [|none_case].
  destruct m6 as [v6|]; cbn [mbind option_bind]; [|none_case].
  split; [discriminate | intuition discriminate].
Qed.

Lemma py_int_opp (x : Q) : py_int (- x) = - py_int x.
Proof.
  destruct x as [n d]. unfold py_int. cbn [Qopp Qnum Qden].
  apply Z.quot_opp_l. discriminate.
Qed.

Lemma Qfloor_le_Z (x : Q) (n : Z) : (x <= inject_Z n)%Q -> Qfloor x <= n.
Proof. intros H. rewrite <- (Qfloor_Z n). now apply Qfloor_resp_le. Qed.

(** [int] of a number between [-n] and [n] lies between [-n] and [n]. *)
Lemma py_int_bounds (x : Q) (n : Z) :
  (- inject_Z n <= x <= inject_Z n)%Q -> - n <= py_int x <= n.
Proof.
  intros [Hlo Hhi]. destruct (Qlt_le_dec x 0) as [Hneg|Hpos].
  - assert (0 <= - x)%Q as H0 by lra.
    pose proof (py_int_nonneg (- x) H0) as Hnn.
    pose proof (py_int_floor (- x) H0) as Hfl.
    assert (Qfloor (- x) <= n) by (apply Qfloor_le_Z; lra).
    rewrite py_int_opp in *. lia.
  - pose proof (py_int_nonneg x Hpos).
    rewrite (py_int_floor x Hpos) in *.
    assert (Qfloor x <= n) by now apply Qfloor_le_Z. lia.
Qed.

Lemma Qsum_inject_Z (l : list Z) :
  (Qsum (map inject_Z l) == inject_Z (Zsum l))%Q.
Proof.
  induction l as [|x l IH]; [reflexivity|].
  cbn [map]. rewrite Zsum_cons, inject_Z_plus, <- IH. reflexivity.
Qed.

(** A churn rate of customers of a prepared table lies between 0 and 1. *)
Lemma churned_mean_bounds (raw : list RawRow) (t : list Row) (v : Q) :
  (forall r, In r t -> In r (map prepare_row raw)) ->
  churned_mean t = Some v -> (0 <= v <= 1)%Q.
Proof.
  intros Hin H. destruct t as [|r0 t0] eqn:Et; [discriminate H|].
  rewrite <- Et in *. unfold churned_mean, pd.mean in H.
  destruct (map (fun r => inject_Z (Churned r)) t) as [|q l] eqn:Em;
    [rewrite Et in Em; discriminate Em|].
  rewrite <- Em in H. injection H as <-.
  rewrite <- (map_map Churned inject_Z), Qsum_inject_Z, !length_map.
  apply ratio_bounds.
  - apply churned_sum_bounds. intros x Hx.
    now apply (prepared_revenue_at_risk raw x), Hin.
  - rewrite Et. cbn [length]. lia.
Qed.

Lemma scaled_by_rate (c : Z) (rate : Q) :
  0 <= c -> (-1 <= rate <= 1)%Q ->
  (- inject_Z c <= inject_Z c * rate <= inject_Z c)%Q.
Proof.
  intros Hc [Hlo Hhi].
  assert (0 <= inject_Z c)%Q
    by (change 0%Q with (inject_Z 0); now rewrite <- Zle_Qle).
  split.
  - assert (inject_Z c * -1 <= inject_Z c * rate)%Q
      by (rewrite !(Qmult_comm (inject_Z c)); now apply Qmult_le_compat_r).
    lra.
  - assert (inject_Z c * rate <= inject_Z c * 1)%Q
      by (rewrite !(Qmult_comm (inject_Z c)); now apply Qmult_le_compat_r).
    lra.
Qed.

Lemma filter_incl {A} (p : A -> bool) (l : list A) (x : A) :
  In x (List.filter p l) -> In x l.
Proof. rewrite filter_In. tauto. Qed.

(** X18.  On a prepared table the impact section never saves more customers
    than it targets: the converted (migrated) head-count lies between 0 and
    the targeted population, and the customers saved of each scenario, which
    may be negative, are at most the head-count in absolute value; the total
    is the sum of the three scenarios. *)
Theorem impact_saves_at_most_the_targeted
    (raw : list RawRow) (i : Impact) :
  business_impact (map prepare_row raw) = Some i ->
  0 <= converted_customers i <= monthly_customers i
  /\ - converted_customers i <= customers_saved i <= converted_customers i
  /\ 0 <= migrated_customers i <= echeck_customers i
  /\ - migrated_customers i <= customers_saved_payment i
     <= migrated_customers i
  /\ - no_tech i <= customers_saved_tech i <= no_tech i
  /\ total_customers_saved i
     = customers_saved i + customers_saved_payment i
       + customers_saved_tech i.
Proof.
  set (df := map prepare_row raw). unfold business_impact. intros H.
  repeat match type of H with
         | (mbind _ ?m = Some _) =>
             let E := fresh "E" in
             destruct m eqn:E; cbn [mbind option_bind] in H;
             [|discriminate H]
         end.
  injection H as <-. cbn.
  assert (forall (p : Row -> bool) (v : Q),
             churned_mean (List.filter p df) = Some v -> (0 <= v <= 1)%Q)
    as Hrate.
  { intros p v. apply (churned_mean_bounds raw).
    intros r Hr. now apply (filter_incl p df). }
  assert (forall (n : Z) (rate : Q),
             0 <= n -> (0 <= rate <= 1)%Q ->
             0 <= py_int (inject_Z n * rate) <= n) as Hhead.
  { intros n rate Hn [Hr0 Hr1].
    pose proof (scaled_by_rate n rate Hn) as Hs.
    assert (0 <= inject_Z n * rate)%Q.
    { apply Qmult_le_0_compat; [|exact Hr0].
      change 0%Q with (inject_Z 0). now rewrite <- Zle_Qle. }
    split; [now apply py_int_nonneg|].
    apply (py_int_bounds _ n). apply Hs. split; lra. }
  assert (forall (c : Z) (a b : Q),
             0 <= c -> (0 <= a <= 1)%Q -> (0 <= b <= 1)%Q ->
             - c <= py_int (inject_Z c * (a - b)) <= c) as Hsaved.
  { intros c a b Hc [] []. apply py_int_bounds, scaled_by_rate;
      [exact Hc | split; lra]. }
  pose proof (Hrate _ _ E) as R1. pose proof (Hrate _ _ E0) as R2.
  pose proof (Hrate _ _ E2) as R3. pose proof (Hrate _ _ E3) as R4.
  pose proof (Hrate _ _ E4) as R5. pose proof (Hrate _ _ E5) as R6.
  assert (0 <= py_int (inject_Z (len (List.filter
             (fun r => String.eqb (Contract r) "Month-to-month") df))
             * (3 # 10))
          <= len (List.filter
               (fun r => String.eqb (Contract r) "Month-to-month") df))
    as C1 by (apply Hhead; [apply len_nonneg | split; lra]).
  assert (0 <= py_int (inject_Z (len (with_churned 0 (List.filter
             (fun r => String.eqb (PaymentMethod r) "Electronic check")
             df))) * (4 # 10))
          <= len (with_churned 0 (List.filter
               (fun r => String.eqb (PaymentMethod r) "Electronic check")
               df)))
    as C2 by (apply Hhead; [apply len_nonneg | split; lra]).
  split; [exact C1|]. split; [apply Hsaved; [lia | exact R1 | exact R2]|].
  split; [exact C2|]. split; [apply Hsaved; [lia | exact R3 | exact R4]|].
  split; [apply Hsaved; [apply len_nonneg | exact R5 | exact R6]|].
  reflexivity.
Qed.

(** X18, witness: the six customers. *)
Lemma impact_saves_at_most_the_targeted_witness :
  exists i : Impact,
    business_impact six_customers = Some i
    /\ 0 <= converted_customers i <= monthly_customers i
    /\ - converted_customers i <= customers_saved i <= converted_customers i.
Proof.
  eexists. split; [vm_compute; reflexivity|].
  match goal with
  | |- context [customers_saved ?i] =>
      assert (business_impact (map prepare_row six_raw) = Some i) as Hrun
        by (vm_compute; reflexivity);
      destruct (impact_saves_at_most_the_targeted six_raw i Hrun)
        as (H1 & H2 & _)
  end.
  split; [exact H1 | exact H2].
Defined.

(** ** The outcomes of a run *)

Lemma clv_stage_returns (df : list Row) :
  exists table, clv_stage df = Some (CLV table).
Proof.
  unfold clv_stage.
  rewrite (calculate_clv_numeric {[ 1%positive := to_frame df ]} 1%positive
             (to_frame df) None _ _ _
             (lookup_singleton_eq _ _) eq_refl eq_refl eq_refl).
  rewrite lookup_insert_eq. eexists. reflexivity.
Qed.

(** A test against the churn label raises only for want of a row with a
    value in the tested column. *)
Lemma churn_test_none_iff (df : list Row) (column : Column) :
  chi_square_test df column col_Churn = None
  <-> forall r, In r df -> column r = None.
Proof.
  rewrite chi_square_test_none_iff, paired_nil_iff.
  split; intros H r Hr; [|left; now apply H].
  destruct (H r Hr) as [E|E]; [exact E | discriminate E].
Qed.

Lemma test_stage_outcome (df : list Row) :
  ((forall r, In r df -> SeniorCitizen r = None) /\ test_stage df = None)
  \/ ((exists r, In r df /\ SeniorCitizen r <> None)
      /\ exists results, test_stage df = Some (ChiSquare results)).
Proof.
  destruct (chi_square_test df col_SeniorCitizen col_Churn) as [[c5 d5]|]
    eqn:E5.
  - right.
    assert (exists r, In r df /\ SeniorCitizen r <> None) as (r & Hr & Hs).
    { destruct (List.Exists_dec (fun r => SeniorCitizen r <> None) df)
        as [Hex|Hnex].
      - intros r. destruct (SeniorCitizen r); [left | right]; congruence.
      - apply List.Exists_exists in Hex. exact Hex.
      - assert (chi_square_test df col_SeniorCitizen col_Churn = None) as E.
        { apply churn_test_none_iff. intros r Hr.
          destruct (col_SeniorCitizen r) eqn:Es; [|reflexivity].
          exfalso. apply Hnex, List.Exists_exists. exists r.
          split; [exact Hr|]. cbn in Es. congruence. }
        congruence. }
    split; [now exists r|].
    assert (forall column : Column,
               (forall x, column x <> None) ->
               exists c d, chi_square_test df column col_Churn = Some (c, d))
      as Htotal.
    { intros column Hc.
      destruct (chi_square_test df column col_Churn) as [[c d]|] eqn:E;
        [now exists c, d|].
      exfalso. apply (Hc r).
      now apply (proj1 (churn_test_none_iff df column) E). }
    destruct (Htotal col_Contract) as (c1 & d1 & E1); [discriminate|].
    destruct (Htotal col_PaymentMethod) as (c2 & d2 & E2); [discriminate|].
    destruct (Htotal col_TechSupport) as (c3 & d3 & E3); [discriminate|].
    destruct (Htotal col_InternetService) as (c4 & d4 & E4); [discriminate|].
    destruct (Htotal col_Partner) as (c6 & d6 & E6); [discriminate|].
    destruct (Htotal col_Dependents) as (c7 & d7 & E7); [discriminate|].
    unfold test_stage, test_columns. cbn [mapM fst snd].
    rewrite E1, E2, E3, E4, E5, E6, E7. cbn. eexists. reflexivity.
  - left. split; [exact (proj1 (churn_test_none_iff df col_SeniorCitizen) E5)|].
    unfold test_stage, test_columns. cbn [mapM fst snd]. rewrite E5.
    destruct (chi_square_test df col_Contract col_Churn) as [[]|];
      [|reflexivity].
    destruct (chi_square_test df col_PaymentMethod col_Churn) as [[]|];
      [|reflexivity].
    destruct (chi_square_test df col_TechSupport col_Churn) as [[]|];
      [|reflexivity].
    destruct (chi_square_test df col_InternetService col_Churn) as [[]|];
      reflexivity.
Qed.

(** X19.  A run on a file that was found has one of three outcomes.  It
    stops at the chi-square section, after the segment analysis, exactly
    when no row has a senior-citizen value (the empty table included).
    Otherwise every section up to the risk scores runs, and the run ends
    with the impact figures, or with the crash of the impact section when
    that section raises.  No other section ends a run. *)
Theorem run_outcomes (fs : filesystem) (raw : list RawRow) :
  fs DATA_PATH = Some raw ->
  let df := map prepare_row raw in
  ((forall r, In r df -> SeniorCitizen r = None)
   /\ exists segments,
        main fs = [Loaded (len df); Segments segments; Crash Tester])
  \/ ((exists r, In r df /\ SeniorCitizen r <> None)
      /\ exists segments tests table,
           main fs
           = [ Loaded (len df); Segments segments; ChiSquare tests;
               CLV table;
               RiskScores (active_customers df) (churned_customers df);
               match business_impact df with
               | Some i => BusinessImpact i
               | None => Crash ImpactEstimator
               end ]).
Proof.
  intros Hfs df. unfold main, load_and_prepare_data. rewrite Hfs.
  fold df. unfold stages. cbn [run_stages segment_stage].
  destruct (test_stage_outcome df) as [[Hs ->]|[Hs (tests & ->)]].
  - left. split; [exact Hs|]. eexists. reflexivity.
  - right. split; [exact Hs|].
    destruct (clv_stage_returns df) as (table & ->).
    cbn [risk_stage]. unfold impact_stage.
    destruct (business_impact df); cbn [fmap option_fmap option_map];
      eexists _, _, _; reflexivity.
Qed.

(** X19, witness: the file of the six customers. *)
Lemma run_outcomes_witness :
  let df := map prepare_row six_raw in
  ((forall r, In r df -> SeniorCitizen r = None)
   /\ exists segments,
        main six_file = [Loaded (len df); Segments segments; Crash Tester])
  \/ ((exists r, In r df /\ SeniorCitizen r <> None)
      /\ exists segments tests table,
           main six_file
           = [ Loaded (len df); Segments segments; ChiSquare tests;
               CLV table;
               RiskScores (active_customers df) (churned_customers df);
               match business_impact df with
               | Some i => BusinessImpact i
               | None => Crash ImpactEstimator
               end ]).
Proof. apply (run_outcomes six_file six_raw). reflexivity. Defined.

(** ** Independence of the order of the rows *)

Lemma sorted_ext (l1 l2 : list string) :
  StronglySorted key_lt l1 -> StronglySorted key_lt l2 ->
  (forall x, In x l1 <-> In x l2) -> l1 = l2.
Proof.
  intros H1. revert l2.
  induction H1 as [|x1 l1 Hs1 IH Hx1]; intros l2 H2 Hin.
  - destruct l2 as [|x2 l2]; [reflexivity|].
    destruct (proj2 (Hin x2) (or_introl eq_refl)).
  - destruct H2 as [|x2 l2 Hs2 Hx2].
    { destruct (proj1 (Hin x1) (or_introl eq_refl)). }
    rewrite List.Forall_forall in Hx1, Hx2.
    assert (x1 = x2) as <-.
    { destruct (proj1 (Hin x1) (or_introl eq_refl)) as [E|E1]; [auto|].
      destruct (proj2 (Hin x2) (or_introl eq_refl)) as [E|E2]; [auto|].
      exfalso. apply (key_lt_irrefl x1).
      apply (key_lt_trans x1 x2 x1); auto. }
    f_equal. apply IH; [exact Hs2|]. intros y. split; intros Hy.
    + destruct (proj1 (Hin y) (or_intror Hy)) as [<-|]; [|assumption].
      exfalso. exact (key_lt_irrefl x1 (Hx1 x1 Hy)).
    + destruct (proj2 (Hin y) (or_intror Hy)) as [<-|]; [|assumption].
      exfalso. exact (key_lt_irrefl x1 (Hx2 x1 Hy)).
Qed.

Lemma unique_ext (l1 l2 : list string) :
  (forall x, In x l1 <-> In x l2) -> pd.unique l1 = pd.unique l2.
Proof.
  intros H. apply sorted_ext; try apply unique_sorted.
  intros x. now rewrite !unique_In.
Qed.

Lemma filter_permutation {A} (p : A -> bool) (l l' : list A) :
  Permutation l l' -> Permutation (List.filter p l) (List.filter p l').
Proof.
  induction 1 as [|x l l' _ IH|x y l|l l' l'' _ IH1 _ IH2];
    cbn [List.filter].
  - constructor.
  - destruct (p x); [now constructor | exact IH].
  - destruct (p x), (p y); try reflexivity. apply perm_swap.
  - now transitivity (List.filter p l').
Qed.








Lemma crosstab_of_permutation (xs xs' : list (string * string)) :
  Permutation xs xs' -> crosstab_of xs = crosstab_of xs'.
Proof.
  intros H. unfold crosstab_of.
  assert (forall p, In p xs <-> In p xs') as Hin.
  { intros p. split; [apply (Permutation_in _ H)|].
    apply (Permutation_in _ (Permutation_sym H)). }
  assert (row_keys xs = row_keys xs') as ->.
  { unfold row_keys. apply unique_ext. intros a. rewrite !in_map_iff.
    split; intros (p & Hp & Hpin); exists p; split; try exact Hp;
      now apply Hin. }
  assert (col_keys xs = col_keys xs') as ->.
  { unfold col_keys. apply unique_ext. intros a. rewrite !in_map_iff.
    split; intros (p & Hp & Hpin); exists p; split; try exact Hp;
      now apply Hin. }
  apply map_ext. intros a. apply map_ext. intros b. unfold count_pair.
  f_equal. apply Permutation_length. now apply filter_permutation.
Qed.

(** X22.  The chi-square test does not depend on the order of the rows. *)
Theorem chi_square_independent_of_row_order
    (df df' : list Row) (column1 column2 : Column) :
  Permutation df df' ->
  chi_square_test df column1 column2 = chi_square_test df' column1 column2.
Proof.
  intros H. unfold chi_square_test, crosstab. f_equal.
  apply crosstab_of_permutation. unfold paired.
  now apply Permutation_flat_map.
Qed.

(** X22, witness: the two customers in the other order. *)
Lemma chi_square_independent_of_row_order_witness :
  chi_square_test two_customers col_Contract col_Churn
  = chi_square_test (rev two_customers) col_Contract col_Churn.
Proof.
  apply (chi_square_independent_of_row_order two_customers
           (rev two_customers)).
  apply perm_swap.
Defined.
